(** * CVEWB (CVE Workbench): a shallow embedding of [main.py]

    The program is a FastAPI service.  It collects what four upstream feeds
    say about one CVE identifier, keeps the two global feeds in a file cache
    with a four hour freshness window, optionally asks an AI backend (Ollama
    or the OpenAI SDK) for an assessment, and exposes the enrichment
    configuration.

    The embedding keeps Python's dynamic typing: JSON payloads are values of
    one inductive type and every operation on them may raise.  Effects are a
    state-and-exception monad over a [world] that holds the clock, the cache
    files, the process globals ([ai_config], [system_context]), the behaviour
    of the upstream services and the list of outbound calls made so far.
    [print] statements are left out, except where evaluating their argument
    can raise. *)

From Stdlib Require Import ZArith String Ascii List Bool Lia.
From stdpp Require Import base option strings list gmap pretty.

Local Open Scope Z_scope.
Local Open Scope string_scope.

(** ** Strings

    Python strings are sequences of code points; here a string is a sequence
    of bytes and the case folding of [lower] covers the ASCII letters. *)

Definition dq : string := String (ascii_of_nat 34) EmptyString.
Definition nl : string := String (ascii_of_nat 10) EmptyString.

(** [q s] is [s] between double quotes. *)
Definition q (s : string) : string := dq +:+ s +:+ dq.

(** [sep.join(parts)] *)
Fixpoint join (sep : string) (parts : list string) : string :=
  match parts with
  | [] => ""
  | [p] => p
  | p :: rest => p +:+ sep +:+ join sep rest
  end.

(** [s[:n]] *)
Fixpoint str_take (n : nat) (s : string) : string :=
  match n, s with
  | O, _ => ""
  | S _, EmptyString => ""
  | S n', String c s' => String c (str_take n' s')
  end.

Definition ascii_lower (c : ascii) : ascii :=
  let n := nat_of_ascii c in
  if (Nat.leb 65 n && Nat.leb n 90)%bool then ascii_of_nat (n + 32) else c.

(** [s.lower()] *)
Fixpoint lower (s : string) : string :=
  match s with
  | EmptyString => EmptyString
  | String c s' => String (ascii_lower c) (lower s')
  end.

(** [sub in s] on two strings *)
Fixpoint contains (sub s : string) : bool :=
  String.prefix sub s ||
  match s with
  | EmptyString => false
  | String _ s' => contains sub s'
  end.

(** ** Exceptions *)

Inductive exn :=
| HTTPException (status_code : Z) (detail : string)   (* fastapi.HTTPException *)
| TimeoutException (msg : string)                     (* httpx.TimeoutException *)
| ConnectError (msg : string)                         (* httpx.ConnectError *)
| JSONDecodeError (msg : string)                      (* json.JSONDecodeError *)
| PyError (cls : string) (msg : string).              (* any other subclass of Exception *)

(** [str(e)].  Starlette prints an HTTPException as its status code, a colon
    and its detail. *)
Definition exn_str (e : exn) : string :=
  match e with
  | HTTPException code detail => pretty code +:+ ": " +:+ detail
  | TimeoutException m | ConnectError m | JSONDecodeError m | PyError _ m => m
  end.

Inductive result (A : Type) :=
| Ok (a : A)
| Raise (e : exn).
Arguments Ok {A} a.
Arguments Raise {A} e.

Global Instance result_ret : MRet result := λ A a, Ok a.
Global Instance result_bind : MBind result := λ A B f r,
  match r with
  | Ok a => f a
  | Raise e => Raise e
  end.
Global Instance result_fmap : FMap result := λ A B f r,
  match r with
  | Ok a => Ok (f a)
  | Raise e => Raise e
  end.

(** [mapR f l] runs [f] on the elements of [l] from left to right and stops
    at the first one that raises: a list comprehension. *)
Fixpoint mapR {A B} (f : A → result B) (l : list A) : result (list B) :=
  match l with
  | [] => Ok []
  | a :: l' => b ← f a; bs ← mapR f l'; Ok (b :: bs)
  end.

(** [next((x for x in l if p(x)), None)]: the generator is lazy, so elements
    after the first hit are never looked at. *)
Fixpoint find_first {A} (p : A → result bool) (l : list A) : result (option A) :=
  match l with
  | [] => Ok None
  | a :: l' => b ← p a; if b : bool then Ok (Some a) else find_first p l'
  end.

(** ** Python values: what [json.loads] and [yaml.safe_load] return *)

#[local] Set Warnings "-register-all".

Inductive value :=
| VNone
| VBool (b : bool)
| VInt (n : Z)
| VFloat (repr : string)     (* a float, kept as the text repr() prints for it *)
| VStr (s : string)
| VList (l : list value)
| VDict (d : list (string * value)).   (* insertion ordered, keys distinct *)

(** [type(v).__name__] *)
Definition type_name (v : value) : string :=
  match v with
  | VNone => "NoneType"
  | VBool _ => "bool"
  | VInt _ => "int"
  | VFloat _ => "float"
  | VStr _ => "str"
  | VList _ => "list"
  | VDict _ => "dict"
  end.

(** [d[k] = v] on an insertion-ordered dict *)
Fixpoint dict_set (k : string) (v : value) (d : list (string * value)) : list (string * value) :=
  match d with
  | [] => [(k, v)]
  | (k', v') :: d' => if String.eqb k k' then (k, v) :: d' else (k', v') :: dict_set k v d'
  end.

Fixpoint dict_lookup (k : string) (d : list (string * value)) : option value :=
  match d with
  | [] => None
  | (k', v) :: d' => if String.eqb k k' then Some v else dict_lookup k d'
  end.

(** [bool(v)] *)
Definition truthy (v : value) : bool :=
  match v with
  | VNone => false
  | VBool b => b
  | VInt n => negb (Z.eqb n 0)
  | VFloat r => negb (String.eqb r "0.0" || String.eqb r "-0.0")
  | VStr s => negb (String.eqb s "")
  | VList l => match l with [] => false | _ => true end
  | VDict d => match d with [] => false | _ => true end
  end.

(** [v == s] for a string [s] *)
Definition eq_str (v : value) (s : string) : bool :=
  match v with
  | VStr s' => String.eqb s' s
  | _ => false
  end.

Definition attribute_error {A} (v : value) (attr : string) : result A :=
  Raise (PyError "AttributeError"
    ("'" +:+ type_name v +:+ "' object has no attribute '" +:+ attr +:+ "'")).

Definition type_error {A} (msg : string) : result A := Raise (PyError "TypeError" msg).

Definition not_subscriptable {A} (v : value) : result A :=
  type_error ("'" +:+ type_name v +:+ "' object is not subscriptable").

(** [v.get(k, dflt)] *)
Definition py_get (v : value) (k : string) (dflt : value) : result value :=
  match v with
  | VDict d => Ok (default dflt (dict_lookup k d))
  | _ => attribute_error v "get"
  end.

(** [k in v] for a string [k] *)
Definition py_in (k : string) (v : value) : result bool :=
  match v with
  | VDict d => Ok (bool_decide (is_Some (dict_lookup k d)))
  | VList l => Ok (existsb (λ x, eq_str x k) l)
  | VStr s => Ok (contains k s)
  | _ => type_error ("argument of type '" +:+ type_name v +:+ "' is not iterable")
  end.

(** [v[0]] *)
Definition py_first (v : value) : result value :=
  match v with
  | VList (x :: _) => Ok x
  | VList [] => Raise (PyError "IndexError" "list index out of range")
  | VStr (String c _) => Ok (VStr (String c EmptyString))
  | VStr EmptyString => Raise (PyError "IndexError" "string index out of range")
  | VDict _ => Raise (PyError "KeyError" "0")
  | _ => not_subscriptable v
  end.

(** [v[k]] for a string [k]; the keys the program uses are plain words, whose
    repr() is the word between single quotes. *)
Definition py_item (v : value) (k : string) : result value :=
  match v with
  | VDict d =>
      match dict_lookup k d with
      | Some x => Ok x
      | None => Raise (PyError "KeyError" ("'" +:+ k +:+ "'"))
      end
  | VList _ => type_error "list indices must be integers or slices, not str"
  | VStr _ => type_error "string indices must be integers, not 'str'"
  | _ => not_subscriptable v
  end.

(** [v[:n]] *)
Definition py_slice_to (n : nat) (v : value) : result value :=
  match v with
  | VList l => Ok (VList (take n l))
  | VStr s => Ok (VStr (str_take n s))
  | VDict _ => type_error "unhashable type: 'slice'"
  | _ => not_subscriptable v
  end.

Fixpoint chars (s : string) : list value :=
  match s with
  | EmptyString => []
  | String c s' => VStr (String c EmptyString) :: chars s'
  end.

(** [iter(v)], run to its end *)
Definition py_iter (v : value) : result (list value) :=
  match v with
  | VList l => Ok l
  | VDict d => Ok (map (λ kv, VStr kv.1) d)
  | VStr s => Ok (chars s)
  | _ => type_error ("'" +:+ type_name v +:+ "' object is not iterable")
  end.

(** [len(v)] *)
Definition py_len (v : value) : result Z :=
  match v with
  | VList l => Ok (Z.of_nat (length l))
  | VDict d => Ok (Z.of_nat (length d))
  | VStr s => Ok (Z.of_nat (String.length s))
  | _ => type_error ("object of type '" +:+ type_name v +:+ "' has no len()")
  end.

(** [v.lower()] *)
Definition py_lower (v : value) : result string :=
  match v with
  | VStr s => Ok (lower s)
  | _ => attribute_error v "lower"
  end.

(** ** The Python library

    The JSON codec and repr() of a string belong to the interpreter, not to
    the program; the model takes them as an interface.  [json_loads] answers
    [Malformed] where Python raises [json.JSONDecodeError]. *)

Inductive parsed :=
| Parsed (v : value)
| Malformed (msg : string).

Class PyLib := {
  json_loads : string → parsed;
  json_dumps : value → string;
  str_repr : string → string;
}.

Section values_as_text.
Context `{PyLib}.

(** [repr(v)] *)
Fixpoint py_repr (v : value) : string :=
  match v with
  | VNone => "None"
  | VBool true => "True"
  | VBool false => "False"
  | VInt n => pretty n
  | VFloat r => r
  | VStr s => str_repr s
  | VList l => "[" +:+ join ", " (map py_repr l) +:+ "]"
  | VDict d =>
      "{" +:+ join ", " (map (λ kv, let '(k, x) := kv in str_repr k +:+ ": " +:+ py_repr x) d) +:+ "}"
  end.

(** [str(v)], which is what an f-string puts for [{v}] *)
Definition py_str (v : value) : string :=
  match v with
  | VStr s => s
  | _ => py_repr v
  end.

(** [json.loads(text)] and [response.json()] *)
Definition loads (text : string) : result value :=
  match json_loads text with
  | Parsed v => Ok v
  | Malformed msg => Raise (JSONDecodeError msg)
  end.
End values_as_text.

(** ** The world the service runs in *)

(** A cache file: modification time (microseconds on the clock that
    [datetime.now] reads), text, and whether the process may open it for
    reading. *)
Record file := {
  mtime : Z;
  content : string;
  readable : bool;
}.

Inductive http_method := GET | POST.

Record http_request := {
  rq_method : http_method;
  rq_url : string;
  rq_headers : list (string * string);
  rq_json : option value;
}.

(** What an [httpx] call does: a response (status code and body) or an
    exception of the transport. *)
Inductive http_outcome :=
| Response (status_code : Z) (text : string)
| HttpRaises (e : exn).

(** [client.responses.create(model, tools=[web_search], input)]: an object
    whose [output_text] may be missing, or an exception. *)
Inductive responses_outcome :=
| ResponsesObject (output_text : option string)
| ResponsesRaises (e : exn).

(** [client.chat.completions.create(...)]: an object with the content of each
    choice's message ([None] when the message has no text), or an exception. *)
Inductive chat_outcome :=
| ChatObject (choices : list (option string))
| ChatRaises (e : exn).

Record chat_request := {
  ch_model : string;
  ch_messages : list (string * string);      (* role, content *)
  ch_temperature : string;
  ch_max_tokens : Z;
}.

(** Outbound calls, as the world records them. *)
Inductive call :=
| HttpCall (rq : http_request)
| ResponsesCreate (api_key model input : string)
| ChatCompletionsCreate (api_key : string) (rq : chat_request).

(** [class AIConfig(BaseModel)] *)
Record AIConfig := {
  provider : string;
  model_name : string;
  api_key : option string;
  ollama_url : string;
}.

(** [ai_config = AIConfig()] *)
Definition AIConfig_default : AIConfig := {|
  provider := "chatgpt";
  model_name := "gpt-4o-mini";
  api_key := None;
  ollama_url := "http://localhost:11434";
|}.

(** [class CVERequest(BaseModel)] *)
Record CVERequest := {
  cve_id : string;
  component : option string;
  ai_analysis : bool;
}.

Record world := {
  now : Z;                                   (* the clock, in microseconds *)
  fs : gmap string file;                     (* the files that exist *)
  fs_writable : string → bool;               (* which paths open(path, w) accepts *)
  environ : gmap string string;              (* os.environ *)
  dotenv : gmap string string;               (* the assignments of the .env file *)
  httpx : http_request → http_outcome;
  openai_responses : string → string → string → responses_outcome;
  openai_chat : string → chat_request → chat_outcome;
  calls : list call;                         (* outbound calls so far, oldest first *)
  ai_config : AIConfig;                      (* global *)
  system_context : value;                    (* global *)
}.

Definition set_fs (f : gmap string file → gmap string file) (w : world) : world :=
  {| now := now w; fs := f (fs w); fs_writable := fs_writable w; environ := environ w;
     dotenv := dotenv w; httpx := httpx w; openai_responses := openai_responses w;
     openai_chat := openai_chat w; calls := calls w; ai_config := ai_config w;
     system_context := system_context w |}.

Definition set_environ (f : gmap string string → gmap string string) (w : world) : world :=
  {| now := now w; fs := fs w; fs_writable := fs_writable w; environ := f (environ w);
     dotenv := dotenv w; httpx := httpx w; openai_responses := openai_responses w;
     openai_chat := openai_chat w; calls := calls w; ai_config := ai_config w;
     system_context := system_context w |}.

Definition set_calls (f : list call → list call) (w : world) : world :=
  {| now := now w; fs := fs w; fs_writable := fs_writable w; environ := environ w;
     dotenv := dotenv w; httpx := httpx w; openai_responses := openai_responses w;
     openai_chat := openai_chat w; calls := f (calls w); ai_config := ai_config w;
     system_context := system_context w |}.

Definition set_ai_config (c : AIConfig) (w : world) : world :=
  {| now := now w; fs := fs w; fs_writable := fs_writable w; environ := environ w;
     dotenv := dotenv w; httpx := httpx w; openai_responses := openai_responses w;
     openai_chat := openai_chat w; calls := calls w; ai_config := c;
     system_context := system_context w |}.

Definition set_now (t : Z) (w : world) : world :=
  {| now := t; fs := fs w; fs_writable := fs_writable w; environ := environ w;
     dotenv := dotenv w; httpx := httpx w; openai_responses := openai_responses w;
     openai_chat := openai_chat w; calls := calls w; ai_config := ai_config w;
     system_context := system_context w |}.

(** ** The monad: state passing over the world, with exceptions.  What a
    computation did to the world before it raised stays done. *)

Definition M (A : Type) : Type := world → result A * world.

Global Instance M_ret : MRet M := λ A a w, (Ok a, w).
Global Instance M_bind : MBind M := λ A B f m w,
  match m w with
  | (Ok a, w') => f a w'
  | (Raise e, w') => (Raise e, w')
  end.

Definition raise {A} (e : exn) : M A := λ w, (Raise e, w).
Definition lift {A} (r : result A) : M A := λ w, (r, w).
Definition read {A} (f : world → A) : M A := λ w, (Ok (f w), w).
Definition modify (f : world → world) : M unit := λ w, (Ok tt, f w).

(** [try: body  except Exception as e: handler(e)] *)
Definition try_except {A} (body : M A) (handler : exn → M A) : M A := λ w,
  match body w with
  | (Ok a, w') => (Ok a, w')
  | (Raise e, w') => handler e w'
  end.

(** *** The file system *)

Definition os_path_join (dir name : string) : string := dir +:+ "/" +:+ name.

Definition os_path_exists (path : string) : M bool :=
  read (λ w, bool_decide (is_Some (fs w !! path))).

Definition os_path_getmtime (path : string) : M Z := λ w,
  match fs w !! path with
  | Some f => (Ok (mtime f), w)
  | None => (Raise (PyError "FileNotFoundError" ("[Errno 2] No such file or directory: '" +:+ path +:+ "'")), w)
  end.

(** [with open(path, r) as f: f.read()] *)
Definition read_file (path : string) : M string := λ w,
  match fs w !! path with
  | Some f =>
      if readable f then (Ok (content f), w)
      else (Raise (PyError "PermissionError" ("[Errno 13] Permission denied: '" +:+ path +:+ "'")), w)
  | None => (Raise (PyError "FileNotFoundError" ("[Errno 2] No such file or directory: '" +:+ path +:+ "'")), w)
  end.

(** [with open(path, w) as f: f.write(text)]: the file is created or replaced
    and its modification time becomes the current time; a file that existed
    keeps its read permission. *)
Definition write_file (path text : string) : M unit := λ w,
  if fs_writable w path then
    let r := match fs w !! path with Some f => readable f | None => true end in
    (Ok tt, set_fs <[path := {| mtime := now w; content := text; readable := r |}]> w)
  else (Raise (PyError "PermissionError" ("[Errno 13] Permission denied: '" +:+ path +:+ "'")), w).

(** *** The network *)

Definition record (c : call) (w : world) : world := set_calls (λ cs, app cs [c]) w.

(** One [httpx] request: recorded, then answered by the world. *)
Definition send (rq : http_request) : M (Z * string) := λ w,
  let w' := record (HttpCall rq) w in
  match httpx w rq with
  | Response code body => (Ok (code, body), w')
  | HttpRaises e => (Raise e, w')
  end.

Definition client_get (url : string) (headers : list (string * string)) : M (Z * string) :=
  send {| rq_method := GET; rq_url := url; rq_headers := headers; rq_json := None |}.

Definition client_post (url : string) (body : value) : M (Z * string) :=
  send {| rq_method := POST; rq_url := url; rq_headers := []; rq_json := Some body |}.

Definition responses_create (key model input : string) : M (option string) := λ w,
  let w' := record (ResponsesCreate key model input) w in
  match openai_responses w key model input with
  | ResponsesObject text => (Ok text, w')
  | ResponsesRaises e => (Raise e, w')
  end.

Definition chat_completions_create (key : string) (rq : chat_request) : M (list (option string)) := λ w,
  let w' := record (ChatCompletionsCreate key rq) w in
  match openai_chat w key rq with
  | ChatObject choices => (Ok choices, w')
  | ChatRaises e => (Raise e, w')
  end.

(** ** Cache management *)

Definition CACHE_DIR : string := "cache".

(** [timedelta(hours=h)] in microseconds *)
Definition timedelta_hours (h : Z) : Z := h * 3600 * 1000000.

(** [is_cache_valid(filepath, hours)]; the callers leave [hours] at its
    default, 4. *)
Definition is_cache_valid (filepath : string) (hours : Z) : M bool :=
  e ← os_path_exists filepath;
  if negb e then mret false
  else
    file_time ← os_path_getmtime filepath;
    t ← read now;
    mret (bool_decide (t - file_time < timedelta_hours hours)).

(** ** API clients *)

Section api_clients.
Context `{PyLib}.

Definition fetch_nvd_data (cve_id : string) : M value :=
  let url := "https://services.nvd.nist.gov/rest/json/cves/2.0?cveId=" +:+ cve_id in
  response ← client_get url [];
  if Z.eqb response.1 200 then lift (loads response.2)
  else raise (HTTPException 404 ("CVE " +:+ cve_id +:+ " not found")).

Definition fetch_epss_data (cve_id : string) : M value :=
  let url := "https://api.first.org/data/v1/epss?cve=" +:+ cve_id in
  response ← client_get url [];
  if Z.eqb response.1 200 then lift (loads response.2)
  else mret (VDict [("data", VList [])]).

Definition fetch_kev_data : M value :=
  let cache_file := os_path_join CACHE_DIR "kev.json" in
  valid ← is_cache_valid cache_file 4;
  if valid : bool then
    text ← read_file cache_file;
    lift (loads text)
  else
    let url := "https://www.cisa.gov/sites/default/files/feeds/known_exploited_vulnerabilities.json" in
    response ← client_get url [];
    if Z.eqb response.1 200 then
      data ← lift (loads response.2);
      write_file cache_file (json_dumps data);;
      mret data
    else mret (VDict [("vulnerabilities", VList [])]).

Definition fetch_github_advisories : M value :=
  let cache_file := os_path_join CACHE_DIR "github_advisories.json" in
  valid ← is_cache_valid cache_file 4;
  if valid : bool then
    text ← read_file cache_file;
    lift (loads text)
  else
    let url := "https://api.github.com/advisories" in
    let headers := [("Accept", "application/vnd.github+json");
                    ("X-GitHub-Api-Version", "2022-11-28")] in
    response ← client_get url headers;
    if Z.eqb response.1 200 then
      data ← lift (loads response.2);
      write_file cache_file (json_dumps data);;
      mret data
    else mret (VList []).
End api_clients.

(** ** Prompt builders *)

Section prompts.
Context `{PyLib}.

(** The fields both builders read from the record. *)
Record extracted := {
  x_cve_id : value;
  x_kev_entry : value;
  x_vulnerability_desc : value;
  x_cvss_score : value;
  x_severity : value;
  x_cvss_vector : value;
  x_epss_score : value;
}.

(** The three assignments under [if cvssMetricV31 in metrics] and again
    under [elif cvssMetricV3 in metrics]. *)
Definition cvss_fields (cvss_data : value) : result (value * value * value) :=
  d ← py_get cvss_data "cvssData" (VDict []);
  cvss_score ← py_get d "baseScore" (VStr "Unknown");
  d ← py_get cvss_data "cvssData" (VDict []);
  severity ← py_get d "baseSeverity" (VStr "Unknown");
  d ← py_get cvss_data "cvssData" (VDict []);
  cvss_vector ← py_get d "vectorString" (VStr "");
  Ok (cvss_score, severity, cvss_vector).

(** The statements that open both [create_analysis_prompt_json] and
    [create_analysis_prompt], from [cve_id = ...] to the EPSS score; the two
    functions have the same text there. *)
Definition extract (cve_data : value) : result extracted :=
  cve_id ← py_get cve_data "cve_id" (VStr "Unknown");
  nvd_data ← py_get cve_data "nvd" (VDict []);
  epss_data ← py_get cve_data "epss" (VDict []);
  kev_entry ← py_get cve_data "kev" VNone;
  has_vulnerabilities ←
    (if truthy nvd_data then py_in "vulnerabilities" nvd_data else Ok false);
  '(vulnerability_desc, (cvss_score, severity, cvss_vector)) ←
    (if has_vulnerabilities : bool then
       vulns ← py_item nvd_data "vulnerabilities";
       vuln_data ←
         (if truthy vulns then
            vulns ← py_item nvd_data "vulnerabilities"; py_first vulns
          else Ok (VDict []));
       cve_details ← py_get vuln_data "cve" (VDict []);
       descriptions ← py_get cve_details "descriptions" (VList []);
       vulnerability_desc ←
         (if truthy descriptions then
            d0 ← py_first descriptions; py_get d0 "value" (VStr "")
          else Ok (VStr ""));
       metrics ← py_get cve_details "metrics" (VDict []);
       v31 ← py_in "cvssMetricV31" metrics;
       if v31 : bool then
         m ← py_item metrics "cvssMetricV31";
         cvss_data ← py_first m;
         c ← cvss_fields cvss_data;
         Ok (vulnerability_desc, c)
       else
         v3 ← py_in "cvssMetricV3" metrics;
         if v3 : bool then
           m ← py_item metrics "cvssMetricV3";
           cvss_data ← py_first m;
           c ← cvss_fields cvss_data;
           Ok (vulnerability_desc, c)
         else Ok (vulnerability_desc, (VStr "Unknown", VStr "Unknown", VStr ""))
     else Ok (VStr "", (VStr "Unknown", VStr "Unknown", VStr "")));
  data ← py_get epss_data "data" VNone;
  epss_score ←
    (if truthy data then
       data ← py_item epss_data "data";
       e0 ← py_first data;
       py_get e0 "epss" (VStr "Not available")
     else Ok (VStr "Not available"));
  Ok {| x_cve_id := cve_id; x_kev_entry := kev_entry;
        x_vulnerability_desc := vulnerability_desc; x_cvss_score := cvss_score;
        x_severity := severity; x_cvss_vector := cvss_vector;
        x_epss_score := epss_score |}.

(** [environment_context], built by the same statements in both builders. *)
Definition environment_context_of (component_context : value) : M string :=
  if truthy component_context then
    name ← lift (py_get component_context "name" (VStr "Unknown"));
    description ←
      lift (py_get component_context "description" (VStr "No description available"));
    mret (join nl [
      "";
      "IMPORTANT: This analysis is for the " +:+ dq +:+ py_str name +:+ dq
        +:+ " component in our environment:";
      py_str description;
      ""])
  else
    ctx ← read system_context;
    listed ←
      (if truthy ctx then
         c ← lift (py_get ctx "components" VNone); mret (truthy c)
       else mret false);
    if listed : bool then
      comps ← lift (py_item ctx "components");
      comps ← lift (py_slice_to 3 comps);
      comps ← lift (py_iter comps);
      lines ← lift (mapR (λ comp,
        name ← py_get comp "name" VNone;
        description ← py_get comp "description" (VStr "");
        Ok ("- " +:+ py_str name +:+ ": " +:+ py_str description)) comps);
      mret (join nl [
        "";
        "Our environment includes these components that might be affected:";
        join nl lines;
        ""])
    else mret "".

(** [security_context], only in the JSON builder; [system_context.get] is
    called whatever [system_context] is. *)
Definition security_context_of : M string :=
  ctx ← read system_context;
  architecture ← lift (py_get ctx "security architecture" VNone);
  if truthy architecture then
    items ← lift (py_item ctx "security architecture");
    items ← lift (py_slice_to 5 items);
    items ← lift (py_iter items);
    mret (join nl [
      "";
      "Security Architecture Context:";
      join nl (map (λ item, "- " +:+ py_str item) items);
      ""])
  else mret "".

(** The f-string of [create_analysis_prompt_json], as a function of the
    texts that fill its fields. *)
Definition structured_prompt (cve_id vulnerability_desc cvss_score severity cvss_vector epss_score known_exploited environment_context security_context cvss_score_json : string) : string :=
  join nl [
    "Analyze " +:+ cve_id +:+ " and provide a structured JSON response for vulnerability assessment.";
    "";
    "Use web search to find the latest information about:";
    "- Current exploitation status and active attacks";
    "- Available patches and fixed versions  ";
    "- Latest security advisories and vendor statements";
    "- Real-world impact and exploitation difficulty";
    "";
    "Available data:";
    "- CVE: " +:+ cve_id;
    "- Description: " +:+ vulnerability_desc;
    "- CVSS Score: " +:+ cvss_score +:+ " (" +:+ severity +:+ ")";
    "- CVSS Vector: " +:+ cvss_vector;
    "- EPSS Score: " +:+ epss_score;
    "- Known Exploited: " +:+ known_exploited;
    environment_context;
    security_context;
    "";
    "Return ONLY a valid JSON object with this exact structure:";
    "";
    "{";
    "  " +:+ q "summary" +:+ ": " +:+ q "Brief 2-3 sentence high-level summary of the vulnerability and its significance" +:+ ",";
    "  " +:+ q "vulnerability_type" +:+ ": " +:+ q "Type of vulnerability (e.g., 'Remote Code Execution', 'SQL Injection', 'Authentication Bypass')" +:+ ",";
    "  " +:+ q "affected_software" +:+ ": " +:+ q "Name and description of affected software/product" +:+ ",";
    "  " +:+ q "vulnerable_versions" +:+ ": " +:+ q "Range of vulnerable versions" +:+ ",";
    "  " +:+ q "severity" +:+ ": " +:+ q "CRITICAL|HIGH|MEDIUM|LOW based on CVSS and real-world impact" +:+ ",";
    "  " +:+ q "cvss_score" +:+ ": " +:+ cvss_score_json +:+ ",";
    "  " +:+ q "exploitation_status" +:+ ": " +:+ q "ACTIVELY_EXPLOITED|PROOF_OF_CONCEPT|NO_KNOWN_EXPLOITS" +:+ ",";
    "  " +:+ q "attack_vector" +:+ ": " +:+ q "NETWORK|ADJACENT|LOCAL|PHYSICAL" +:+ ",";
    "  " +:+ q "attack_complexity" +:+ ": " +:+ q "LOW|HIGH" +:+ ", ";
    "  " +:+ q "fixed_versions" +:+ ": " +:+ q "Range of fixed versions or 'No patch available'" +:+ ",";
    "  " +:+ q "risk_assessment" +:+ ": {";
    "    " +:+ q "immediate_threat" +:+ ": " +:+ q "HIGH|MEDIUM|LOW - assessment based on our environment context" +:+ ",";
    "    " +:+ q "business_impact" +:+ ": " +:+ q "Brief description of potential business impact" +:+ ",";
    "    " +:+ q "recommendation" +:+ ": " +:+ q "PATCH_IMMEDIATELY|PATCH_SOON|MONITOR|LOW_PRIORITY" +:+ ",";
    "    " +:+ q "context_specific_risk" +:+ ": " +:+ q "Risk assessment specific to our infrastructure components";
    "  },";
    "  " +:+ q "mitigation_steps" +:+ ": [";
    "    " +:+ q "Step 1: Specific action to take" +:+ ",";
    "    " +:+ q "Step 2: Another specific action" +:+ ", ";
    "    " +:+ q "Step 3: Verification steps";
    "  ]";
    "}";
    "";
    "Focus on providing concise, actionable, up-to-date information. Use web search to get the latest exploitation status and patch information."
  ].

(** The f-string of [create_analysis_prompt]. *)
Definition narrative_prompt (cve_id vulnerability_desc cvss_score severity cvss_vector epss_score known_exploited environment_context : string) : string :=
  join nl [
    "Analyze " +:+ cve_id +:+ " and provide a practical, actionable breakdown similar to how a security expert would explain it to their team.";
    "";
    "Available data:";
    "- CVE: " +:+ cve_id;
    "- Description: " +:+ vulnerability_desc;
    "- CVSS Score: " +:+ cvss_score +:+ " (" +:+ severity +:+ ")";
    "- CVSS Vector: " +:+ cvss_vector;
    "- EPSS Score: " +:+ epss_score;
    "- Known Exploited: " +:+ known_exploited;
    environment_context;
    "";
    "Structure your response like this:";
    "";
    "## What is it";
    "";
    "- **Affected software**: [Name the specific software/product and what it's used for]";
    "- **Versions**: [List the vulnerable versions clearly - be specific]";
    "- **Type of issue**: [Explain what kind of vulnerability this is in simple terms]";
    "- **Severity**: [Mention the CVSS score and what it means practically]";
    "- **Attack Vector**: [How can this be exploited - network, local, etc.]";
    "- **Attack Complexity**: [How difficult is it to exploit]";
    "- **Privileges Required**: [What access does an attacker need]";
    "- **User Interaction**: [Does it need user action]";
    "";
    "## What it means / risk";
    "";
    "- [Explain in practical terms what an attacker could do if they exploit this]";
    "- [Describe the potential business impact - data breach, service disruption, etc.]";
    "- [Mention if this is being actively exploited in the wild]";
    "- [Explain why this matters for infrastructure/applications that use this software]";
    "";
    "## Mitigation / Fixes";
    "";
    "- **Patched versions**: [List the specific fixed versions - this is critical information]";
    "- **Upgrade instructions**: [Provide clear guidance on how to upgrade]";
    "- **For cloud services**: [Mention if patches are automatic or need manual action]";
    "- **For self-hosted**: [Explain what needs to be updated and how]";
    "- **Workarounds**: [If patches aren't available, what temporary measures can be taken]";
    "- **Verification**: [How to check if you're running a vulnerable version]";
    "";
    "Focus on being practical and actionable. Don't use generic security advice - provide specific information about versions, patches, and real-world implications. Write like you're briefing a technical team that needs to make decisions quickly."
  ].

Definition known_exploited_text (kev_entry : value) : string :=
  if truthy kev_entry then "Yes" else "No".

Definition create_analysis_prompt_json (cve_data component_context : value) : M string :=
  x ← lift (extract cve_data);
  environment_context ← environment_context_of component_context;
  security_context ← security_context_of;
  mret (structured_prompt
    (py_str (x_cve_id x)) (py_str (x_vulnerability_desc x))
    (py_str (x_cvss_score x)) (py_str (x_severity x)) (py_str (x_cvss_vector x))
    (py_str (x_epss_score x)) (known_exploited_text (x_kev_entry x))
    environment_context security_context
    (if negb (eq_str (x_cvss_score x) "Unknown") then py_str (x_cvss_score x) else "null")).

Definition create_analysis_prompt (cve_data component_context : value) : M string :=
  x ← lift (extract cve_data);
  environment_context ← environment_context_of component_context;
  mret (narrative_prompt
    (py_str (x_cve_id x)) (py_str (x_vulnerability_desc x))
    (py_str (x_cvss_score x)) (py_str (x_severity x)) (py_str (x_cvss_vector x))
    (py_str (x_epss_score x)) (known_exploited_text (x_kev_entry x))
    environment_context).
End prompts.

(** ** AI analysis *)

Definition error_result (message : string) : value :=
  VDict [("error", VBool true); ("message", VStr message)].

(** [sep.join(items)]: every item has to be a [str]. *)
Fixpoint str_join_from (i : nat) (sep : string) (items : list value) : result string :=
  match items with
  | [] => Ok ""
  | x :: rest =>
      match x with
      | VStr s =>
          match rest with
          | [] => Ok s
          | _ => tail ← str_join_from (S i) sep rest; Ok (s +:+ sep +:+ tail)
          end
      | _ => type_error ("sequence item " +:+ pretty i +:+ ": expected str instance, "
                         +:+ type_name x +:+ " found")
      end
  end.

Definition str_join : string → list value → result string := str_join_from 0.

Section ai_analysis.
Context `{PyLib}.

Definition analyze_with_ollama (cve_data component_context : value) : M value :=
  cfg ← read ai_config;
  try_except
    (prompt ← create_analysis_prompt cve_data component_context;
     (* the connection check: [Some v] stands for [return v] *)
     checked ← try_except
       (models_response ← client_get (ollama_url cfg +:+ "/api/tags") [];
        if negb (Z.eqb models_response.1 200) then
          mret (Some (VStr "Ollama service is not running. Please start Ollama first."))
        else
          models ← lift (loads models_response.2);
          listed ← lift (py_get models "models" (VList []));
          listed ← lift (py_iter listed);
          available_models ← lift (mapR (λ model, py_get model "name" (VStr "")) listed);
          if negb (existsb (λ m, eq_str m (model_name cfg)) available_models) then
            names ← lift (if truthy (VList available_models)
                          then str_join ", " available_models else Ok "None");
            mret (Some (VStr ("Model '" +:+ model_name cfg
                              +:+ "' not found. Available models: " +:+ names)))
          else mret None)
       (λ e, mret (Some (VStr ("Cannot connect to Ollama at " +:+ ollama_url cfg
                +:+ ". Please check if Ollama is running. Error: " +:+ exn_str e))));
     match checked with
     | Some v => mret v
     | None =>
         response ← client_post (ollama_url cfg +:+ "/api/generate")
           (VDict [("model", VStr (model_name cfg));
                   ("prompt", VStr prompt);
                   ("stream", VBool false);
                   ("options", VDict [("temperature", VFloat "0.7"); ("top_p", VFloat "0.9")])]);
         if Z.eqb response.1 200 then
           result ← lift (loads response.2);
           response_text ← lift (py_get result "response" (VStr ""));
           _ ← lift (py_len response_text);      (* the length is printed *)
           mret (if truthy response_text then response_text
                 else VStr "Analysis completed but no response received")
         else
           mret (VStr ("Ollama API error: HTTP " +:+ pretty response.1 +:+ " - " +:+ response.2))
     end)
    (λ e,
       match e with
       | TimeoutException _ =>
           mret (VStr "AI Analysis timeout. The analysis is taking longer than expected. Try with a smaller model or increase timeout.")
       | ConnectError _ =>
           mret (VStr ("Cannot connect to Ollama at " +:+ ollama_url cfg
                       +:+ ". Please ensure Ollama is running and accessible."))
       | _ => mret (VStr ("AI Analysis error: " +:+ exn_str e))
       end).

(** [content[:200] + ... if len(content) > 200 else content] *)
Definition summary_of (content : string) : string :=
  if Nat.ltb 200 (String.length content) then str_take 200 content +:+ "..." else content.

(** The dict both [except json.JSONDecodeError] branches return; they differ
    in the text under [risk_assessment]. *)
Definition text_fallback (content risk_assessment : string) : value :=
  VDict [("error", VBool false);
         ("summary", VStr (summary_of content));
         ("vulnerability_type", VStr "Unknown");
         ("severity", VStr "Unknown");
         ("exploitation_status", VStr "Unknown");
         ("fixed_versions", VList []);
         ("risk_assessment", VStr risk_assessment);
         ("raw_response", VStr content)].

Definition system_message : string :=
  "You are a cybersecurity expert specializing in vulnerability analysis. Provide structured, actionable analysis based on the latest available information. Use your knowledge cutoff and reasoning to provide the best possible analysis.".

Definition chat_request_for (model prompt : string) : chat_request :=
  {| ch_model := model;
     ch_messages := [("system", system_message); ("user", prompt)];
     ch_temperature := "0.3";
     ch_max_tokens := 2000 |}.

(** The rewriting of known error texts in the last handler. *)
Definition user_facing (model error_message : string) : string :=
  if contains "authentication" (lower error_message) then
    "Authentication failed. Please check your OpenAI API key."
  else if contains "rate limit" (lower error_message) then
    "Rate limit exceeded. Please wait and try again."
  else if contains "model" (lower error_message) && contains "not found" (lower error_message) then
    "Model '" +:+ model +:+ "' not found or not accessible."
  else error_message.

(** [if not ai_config.api_key]: the key is [None] or the empty string. *)
Definition configured_key (cfg : AIConfig) : option string :=
  match api_key cfg with
  | Some k => if String.eqb k "" then None else Some k
  | None => None
  end.

Definition analyze_with_chatgpt (cve_data component_context : value) : M value :=
  cfg ← read ai_config;
  match configured_key cfg with
  | None =>
      mret (error_result "ChatGPT API key not configured. Please set your OpenAI API key in the configuration.")
  | Some key =>
      try_except
        (prompt ← create_analysis_prompt_json cve_data component_context;
         (* the responses API first, chat completions if it fails *)
         try_except
           (response ← responses_create key (model_name cfg) prompt;
            match response with
            | Some content =>
                match json_loads content with
                | Parsed analysis_json => mret analysis_json
                | Malformed _ =>
                    mret (text_fallback content "Unable to parse structured response")
                end
            | None => raise (PyError "Exception" "Responses API structure unexpected")
            end)
           (λ responses_error,
              choices ← chat_completions_create key (chat_request_for (model_name cfg) prompt);
              match choices with
              | Some content :: _ =>
                  match json_loads content with
                  | Parsed analysis_json => mret analysis_json
                  | Malformed _ =>
                      mret (text_fallback content
                              "Unable to parse structured response - Chat completions used")
                  end
              | None :: _ =>
                  (* [len(content)] in the print that follows *)
                  raise (PyError "TypeError" "object of type 'NoneType' has no len()")
              | [] => mret (error_result "No response content received from OpenAI API")
              end))
        (λ e,
           mret (error_result ("ChatGPT Analysis error: "
                               +:+ user_facing (model_name cfg) (exn_str e))))
  end.

Definition perform_ai_analysis (cve_data component_context : value) : M value :=
  cfg ← read ai_config;
  if String.eqb (provider cfg) "ollama" then
    analyze_with_ollama cve_data component_context
  else if String.eqb (provider cfg) "chatgpt" then
    analyze_with_chatgpt cve_data component_context
  else mret (error_result "AI analysis not configured").
End ai_analysis.

(** ** Startup configuration *)

(** [load_dotenv()]: assignments of the .env file enter the environment
    unless the variable is already set. *)
Definition load_dotenv : M unit :=
  modify (λ w, set_environ (λ env, env ∪ dotenv w) w).

Definition with_api_key (k : option string) (c : AIConfig) : AIConfig :=
  {| provider := provider c; model_name := model_name c; api_key := k;
     ollama_url := ollama_url c |}.

Definition load_env_config : M unit :=
  load_dotenv;;
  openai_key ← read (λ w, environ w !! "OPENAI_API_KEY");
  match openai_key with
  | Some k =>
      if negb (String.eqb k "") then modify (λ w, set_ai_config (with_api_key (Some k) (ai_config w)) w)
      else mret tt
  | None => mret tt
  end.

(** *** The system context

    [yaml.safe_load] belongs to the YAML library; the model takes it as an
    interface, as it does for the JSON codec.  It answers [Malformed] where
    the library raises [yaml.YAMLError]. *)

Class YamlLib := {
  yaml_safe_load : string → parsed;
}.

Definition set_system_context (v : value) (w : world) : world :=
  {| now := now w; fs := fs w; fs_writable := fs_writable w; environ := environ w;
     dotenv := dotenv w; httpx := httpx w; openai_responses := openai_responses w;
     openai_chat := openai_chat w; calls := calls w; ai_config := ai_config w;
     system_context := v |}.

(** [except FileNotFoundError]: the class of the exception decides; any other
    exception goes on to the caller. *)
Definition is_file_not_found (e : exn) : bool :=
  match e with
  | PyError cls _ => String.eqb cls "FileNotFoundError"
  | _ => false
  end.

Definition load_system_context `{YamlLib} : M unit :=
  try_except
    (text ← read_file "system_context.yaml";
     match yaml_safe_load text with
     | Parsed v => modify (set_system_context v)
     | Malformed msg => raise (PyError "YAMLError" msg)
     end)
    (λ e, if is_file_not_found e then modify (set_system_context (VDict []))
          else raise e).

(** [@app.on_event(startup)] *)
Definition startup_event `{YamlLib} : M unit :=
  load_env_config;;
  load_system_context.

(** ** Routes *)

Definition of_option (o : option value) : value := default VNone o.

(** [ai_config.model_dump()] *)
Definition model_dump (c : AIConfig) : value :=
  VDict [("provider", VStr (provider c));
         ("model_name", VStr (model_name c));
         ("api_key", of_option (VStr <$> api_key c));
         ("ollama_url", VStr (ollama_url c))].

Fixpoint finite (v : value) : bool :=
  match v with
  | VFloat r => negb (String.eqb r "nan" || String.eqb r "inf" || String.eqb r "-inf")
  | VList l => forallb finite l
  | VDict d => forallb (λ kv, let '(_, x) := kv in finite x) d
  | _ => true
  end.

(** [JSONResponse(content=...)] renders its content when it is built and
    refuses floats that JSON cannot write. *)
Definition JSONResponse (content : value) : result value :=
  if finite content then Ok content
  else Raise (PyError "ValueError" "Out of range float values are not JSON compliant").

Section routes.
Context `{PyLib}.

(** [POST /api/analyze] *)
Definition analyze_cve (request : CVERequest) : M value :=
  try_except
    (nvd_data ← fetch_nvd_data (cve_id request);
     epss_data ← fetch_epss_data (cve_id request);
     kev_data ← fetch_kev_data;
     github_advisories ← fetch_github_advisories;
     (* Find KEV entry *)
     vulns ← lift (py_get kev_data "vulnerabilities" (VList []));
     vulns ← lift (py_iter vulns);
     kev_entry ← lift (find_first (λ vuln,
       id ← py_get vuln "cveID" VNone; Ok (eq_str id (cve_id request))) vulns);
     (* Find GitHub advisory *)
     advisories ← lift (py_iter github_advisories);
     github_entry ← lift (find_first (λ advisory,
       cves ← py_get advisory "cves" (VList []);
       cves ← py_iter cves;
       numbers ← mapR (λ cve, py_get cve "number" VNone) cves;
       Ok (existsb (λ n, eq_str n (cve_id request)) numbers)) advisories);
     (* Get component context if specified *)
     ctx ← read system_context;
     component_context ← lift (
       match component request with
       | Some name =>
           if negb (String.eqb name "") && truthy ctx then
             comps ← py_get ctx "components" (VList []);
             comps ← py_iter comps;
             find_first (λ comp,
               n ← py_get comp "name" (VStr "");
               n ← py_lower n;
               Ok (String.eqb n (lower name))) comps
           else Ok None
       | None => Ok None
       end);
     (* Compile analysis data *)
     let analysis_data :=
       [("cve_id", VStr (cve_id request));
        ("nvd", nvd_data);
        ("epss", epss_data);
        ("kev", of_option kev_entry);
        ("github", of_option github_entry);
        ("component", of_option component_context);
        ("ai_analysis", VNone)] in
     (* Perform AI analysis if requested *)
     analysis_data ←
       (if ai_analysis request then
          ai_result ← perform_ai_analysis (VDict analysis_data) (of_option component_context);
          mret (dict_set "ai_analysis" ai_result analysis_data)
        else mret analysis_data);
     lift (JSONResponse (VDict analysis_data)))
    (λ e, raise (HTTPException 500 (exn_str e))).

(** [POST /api/config] *)
Definition update_config (config : AIConfig) : M value :=
  modify (set_ai_config config);;
  mret (VDict [("status", VStr "success"); ("message", VStr "Configuration updated")]).

(** [GET /api/config] *)
Definition get_config : M value :=
  cfg ← read ai_config;
  mret (model_dump cfg).

(** [GET /api/components] *)
Definition get_components : M value :=
  ctx ← read system_context;
  lift (py_get ctx "components" (VList [])).
End routes.

(** ** Vocabulary of the statements *)

(** A computation that leaves the world as it found it. *)
Definition pure_run {A} (m : M A) : Prop := ∀ w, (m w).2 = w.

(** The requests of the four feed adapters. *)
Definition nvd_request (cve_id : string) : http_request :=
  {| rq_method := GET;
     rq_url := "https://services.nvd.nist.gov/rest/json/cves/2.0?cveId=" +:+ cve_id;
     rq_headers := []; rq_json := None |}.

Definition epss_request (cve_id : string) : http_request :=
  {| rq_method := GET;
     rq_url := "https://api.first.org/data/v1/epss?cve=" +:+ cve_id;
     rq_headers := []; rq_json := None |}.

(** The two feeds that go through the cache. *)
Inductive feed := KEV | Advisories.

Definition cache_file_of (f : feed) : string :=
  match f with
  | KEV => "cache/kev.json"
  | Advisories => "cache/github_advisories.json"
  end.

Definition request_of (f : feed) : http_request :=
  match f with
  | KEV =>
      {| rq_method := GET;
         rq_url := "https://www.cisa.gov/sites/default/files/feeds/known_exploited_vulnerabilities.json";
         rq_headers := []; rq_json := None |}
  | Advisories =>
      {| rq_method := GET;
         rq_url := "https://api.github.com/advisories";
         rq_headers := [("Accept", "application/vnd.github+json");
                        ("X-GitHub-Api-Version", "2022-11-28")];
         rq_json := None |}
  end.

(** What the adapter returns when upstream does not answer 200. *)
Definition empty_of (f : feed) : value :=
  match f with
  | KEV => VDict [("vulnerabilities", VList [])]
  | Advisories => VList []
  end.

Definition fetch_feed `{PyLib} (f : feed) : M value :=
  match f with
  | KEV => fetch_kev_data
  | Advisories => fetch_github_advisories
  end.

(** The four hours of [is_cache_valid], in microseconds. *)
Definition freshness_window : Z := timedelta_hours 4.


(** *** A library instance and worlds for examples

    [plain_dumps] writes JSON the way [json.dumps] does for values whose
    strings need no escaping.  [table_loads] knows the texts the examples use
    and agrees with [json.loads] on them; it reports every other text as
    malformed, so the examples only use listed texts and texts that are not
    JSON at all. *)

Fixpoint plain_dumps (v : value) : string :=
  match v with
  | VNone => "null"
  | VBool true => "true"
  | VBool false => "false"
  | VInt n => pretty n
  | VFloat r => r
  | VStr s => q s
  | VList l => "[" +:+ join ", " (map plain_dumps l) +:+ "]"
  | VDict d =>
      "{" +:+ join ", " (map (λ kv, let '(k, x) := kv in q k +:+ ": " +:+ plain_dumps x) d) +:+ "}"
  end.

Definition kev_payload : value :=
  VDict [("title", VStr "CISA Catalog of Known Exploited Vulnerabilities");
         ("vulnerabilities",
          VList [VDict [("cveID", VStr "CVE-2021-44228"); ("vendorProject", VStr "Apache")]])].

Definition advisories_payload : value :=
  VList [VDict [("ghsa_id", VStr "GHSA-jfh8-c2jp-5v3q");
                ("cves", VList [VDict [("number", VStr "CVE-2021-44228")]])]].

Definition nvd_payload : value :=
  VDict [("vulnerabilities",
          VList [VDict [("cve",
            VDict [("id", VStr "CVE-2021-44228");
                   ("descriptions",
                    VList [VDict [("lang", VStr "en"); ("value", VStr "Apache Log4j2 JNDI features do not protect against attacker controlled LDAP endpoints.")]]);
                   ("metrics",
                    VDict [("cvssMetricV31",
                      VList [VDict [("cvssData",
                        VDict [("baseScore", VFloat "10.0");
                               ("baseSeverity", VStr "CRITICAL");
                               ("vectorString", VStr "CVSS:3.1/AV:N/AC:L/PR:N/UI:N/S:C/C:H/I:H/A:H")])]])])])]])].

Definition epss_payload : value :=
  VDict [("status", VStr "OK");
         ("data", VList [VDict [("cve", VStr "CVE-2021-44228"); ("epss", VStr "0.94358")]])].

Definition known_texts : list value :=
  [VNone; VDict []; VList []; kev_payload; advisories_payload; nvd_payload; epss_payload;
   VDict [("summary", VStr "Remote code execution in Log4j2")];
   VDict [("models", VList [VDict [("name", VStr "llama3")]])];
   VDict [("response", VStr "## What is it")]].

Fixpoint table_lookup (text : string) (table : list value) : parsed :=
  match table with
  | [] => Malformed "Expecting value: line 1 column 1 (char 0)"
  | v :: rest => if String.eqb text (plain_dumps v) then Parsed v else table_lookup text rest
  end.

Definition table_loads (text : string) : parsed := table_lookup text known_texts.

Definition table_lib : PyLib := {|
  json_loads := table_loads;
  json_dumps := plain_dumps;
  str_repr := λ s, "'" +:+ s +:+ "'";
|}.

(** A world in which nothing is cached, nothing is configured and no
    upstream service can be reached. *)
Definition offline : world := {|
  now := 1700000000000000;
  fs := ∅;
  fs_writable := λ _, true;
  environ := ∅;
  dotenv := ∅;
  httpx := λ _, HttpRaises (ConnectError "All connection attempts failed");
  openai_responses := λ _ _ _, ResponsesRaises (PyError "APIConnectionError" "Connection error.");
  openai_chat := λ _ _, ChatRaises (PyError "APIConnectionError" "Connection error.");
  calls := [];
  ai_config := AIConfig_default;
  system_context := VDict [];
|}.

Definition with_httpx (h : http_request → http_outcome) (w : world) : world :=
  {| now := now w; fs := fs w; fs_writable := fs_writable w; environ := environ w;
     dotenv := dotenv w; httpx := h; openai_responses := openai_responses w;
     openai_chat := openai_chat w; calls := calls w; ai_config := ai_config w;
     system_context := system_context w |}.

Definition with_openai (r : string → string → string → responses_outcome)
    (c : string → chat_request → chat_outcome) (w : world) : world :=
  {| now := now w; fs := fs w; fs_writable := fs_writable w; environ := environ w;
     dotenv := dotenv w; httpx := httpx w; openai_responses := r;
     openai_chat := c; calls := calls w; ai_config := ai_config w;
     system_context := system_context w |}.

(** Upstream answers every request with one status code and body. *)
Definition answering (code : Z) (body : string) (w : world) : world :=
  with_httpx (λ _, Response code body) w.

Definition log4shell : string := "CVE-2021-44228".

(** A record as [analyze_cve] hands it to the prompt builders, with no
    payload from any feed. *)
Definition bare_record : value :=
  VDict [("cve_id", VStr log4shell); ("nvd", VDict []); ("epss", VDict [("data", VList [])]);
         ("kev", VNone); ("github", VNone); ("component", VNone); ("ai_analysis", VNone)].

Definition missing_key_message : string :=
  "ChatGPT API key not configured. Please set your OpenAI API key in the configuration.".

(** What a live fetch of a cached feed does: one request; on 200 the body is
    parsed, written to the cache file and returned; on another status the
    empty payload is returned. *)
Definition refetch `{PyLib} (f : feed) (w : world) : result value * world :=
  let w' := record (HttpCall (request_of f)) w in
  match httpx w (request_of f) with
  | Response code text =>
      if Z.eqb code 200 then
        match json_loads text with
        | Parsed data => (write_file (cache_file_of f) (json_dumps data) ;; mret data) w'
        | Malformed msg => (Raise (JSONDecodeError msg), w')
        end
      else (Ok (empty_of f), w')
  | HttpRaises e => (Raise e, w')
  end.

(** The cache file of [f] exists and is younger than the window. *)
Definition fresh (f : feed) (w : world) : bool :=
  match fs w !! cache_file_of f with
  | Some file => bool_decide (now w - mtime file < freshness_window)
  | None => false
  end.

Definition with_fs (files : gmap string file) (w : world) : world := set_fs (λ _, files) w.

Definition hour : Z := 3600 * 1000000.

(** Upstream serves the known-exploited list; nothing is cached yet. *)
Definition kev_online : world := answering 200 (plain_dumps kev_payload) offline.

(** The same, with a cache file written an hour ago that the process may
    not read. *)
Definition kev_cache_locked : world :=
  with_fs {[ "cache/kev.json" :=
             {| mtime := now offline - hour; content := plain_dumps kev_payload;
                readable := false |} ]} kev_online.

(** The same, with a readable cache file, an hour old, cut off in the middle. *)
Definition kev_cache_garbled : world :=
  with_fs {[ "cache/kev.json" :=
             {| mtime := now offline - hour; content := "{" +:+ dq +:+ "title" +:+ dq +:+ ": ";
                readable := true |} ]} kev_online.

(** The first call of backendB failed: it raised, or its object has no
    [output_text]. *)
Definition responses_failed (o : responses_outcome) : Prop :=
  match o with
  | ResponsesRaises _ | ResponsesObject None => True
  | ResponsesObject (Some _) => False
  end.

Definition unparsed_marker : string := "Unable to parse structured response".

(** A world with an API key stored and the OpenAI service answering as given. *)
Definition with_key (k : string) (w : world) : world :=
  set_ai_config (with_api_key (Some k) (ai_config w)) w.

Definition chatgpt_world (first : responses_outcome) (second : chat_outcome) : world :=
  with_openai (λ _ _ _, first) (λ _ _, second) (with_key "sk-test" offline).

(** The prompt the JSON builder makes of [bare_record], with no context. *)
Definition bare_structured_prompt : string :=
  structured_prompt log4shell "" "Unknown" "Unknown" "" "Not available" "No" "" "" "null".

Definition bare_narrative_prompt : string :=
  narrative_prompt log4shell "" "Unknown" "Unknown" "" "Not available" "No" "".

(** What either path of backendB makes of the text of the model. *)
Definition parsed_or_wrapped `{PyLib} (content marker : string) : value :=
  match json_loads content with
  | Parsed analysis_json => analysis_json
  | Malformed _ => text_fallback content marker
  end.

(** The result of the last handler of [analyze_with_chatgpt]. *)
Definition failed_with (model : string) (e : exn) : value :=
  error_result ("ChatGPT Analysis error: " +:+ user_facing model (exn_str e)).

(** The chat completions call and what [analyze_with_chatgpt] returns after it. *)
Definition chat_fallback `{PyLib} (key model prompt : string) (w : world)
    : result value * world :=
  let rq := chat_request_for model prompt in
  let w' := record (ChatCompletionsCreate key rq) w in
  match openai_chat w key rq with
  | ChatObject (Some content :: _) =>
      (Ok (parsed_or_wrapped content (unparsed_marker +:+ " - Chat completions used")), w')
  | ChatObject (None :: _) =>
      (Ok (failed_with model (PyError "TypeError" "object of type 'NoneType' has no len()")), w')
  | ChatObject [] => (Ok (error_result "No response content received from OpenAI API"), w')
  | ChatRaises e => (Ok (failed_with model e), w')
  end.

(** A world set up for Ollama with the model llama3: the service lists its
    models on GET and answers the generate request on POST. *)
Definition ollama_world (tags generate : http_outcome) : world :=
  with_httpx (λ rq, match rq_method rq with GET => tags | POST => generate end)
    (set_ai_config {| provider := "ollama"; model_name := "llama3"; api_key := None;
                      ollama_url := "http://localhost:11434" |} offline).

Definition ollama_tags : string :=
  plain_dumps (VDict [("models", VList [VDict [("name", VStr "llama3")]])]).

Definition ollama_answer : string :=
  plain_dumps (VDict [("response", VStr "## What is it")]).



(** The scan of the known-exploited list in [analyze_cve]. *)
Definition kev_entry_of (cve_id : string) (kev_data : value) : result (option value) :=
  vulns ← py_get kev_data "vulnerabilities" (VList []);
  vulns ← py_iter vulns;
  find_first (λ vuln, id ← py_get vuln "cveID" VNone; Ok (eq_str id cve_id)) vulns.

(** The scan of the advisory index in [analyze_cve]. *)
Definition github_entry_of (cve_id : string) (github_advisories : value) : result (option value) :=
  advisories ← py_iter github_advisories;
  find_first (λ advisory,
    cves ← py_get advisory "cves" (VList []);
    cves ← py_iter cves;
    numbers ← mapR (λ cve, py_get cve "number" VNone) cves;
    Ok (existsb (λ n, eq_str n cve_id) numbers)) advisories.

(** The record [analyze_cve] returns when no component is named and no AI
    analysis is asked for. *)
Definition plain_record (cve_id : string) (nvd epss kev github : value) : value :=
  VDict [("cve_id", VStr cve_id); ("nvd", nvd); ("epss", epss); ("kev", kev);
         ("github", github); ("component", VNone); ("ai_analysis", VNone)].

(** [w'] is [w] after some requests and, at most, a new cache file for [f]. *)
Definition after_fetch (f : option feed) (w w' : world) : Prop :=
  now w' = now w ∧ httpx w' = httpx w ∧ fs_writable w' = fs_writable w ∧
  system_context w' = system_context w ∧ ai_config w' = ai_config w ∧
  ∀ path, Some path ≠ cache_file_of <$> f → fs w' !! path = fs w !! path.

(** Upstream answers by URL: the four feeds of [analyze_cve] for log4shell. *)
Definition feeds_world (nvd epss kev advisories : http_outcome) : world :=
  with_httpx (λ rq,
    if String.eqb (rq_url rq) (rq_url (nvd_request log4shell)) then nvd
    else if String.eqb (rq_url rq) (rq_url (epss_request log4shell)) then epss
    else if String.eqb (rq_url rq) (rq_url (request_of KEV)) then kev
    else advisories) offline.

Definition log4shell_request : CVERequest :=
  {| cve_id := log4shell; component := None; ai_analysis := false |}.

(** The resolution of the component in [analyze_cve]. *)
Definition component_context_of (component : option string) (ctx : value)
    : result (option value) :=
  match component with
  | Some name =>
      if negb (String.eqb name "") && truthy ctx then
        comps ← py_get ctx "components" (VList []);
        comps ← py_iter comps;
        find_first (λ comp,
          n ← py_get comp "name" (VStr "");
          n ← py_lower n;
          Ok (String.eqb n (lower name))) comps
      else Ok None
  | None => Ok None
  end.

(** [analysis_data] as [analyze_cve] compiles it, before any AI analysis. *)
Definition analysis_entries (cve_id : string) (nvd epss : value)
    (kev github component : option value) : list (string * value) :=
  [("cve_id", VStr cve_id); ("nvd", nvd); ("epss", epss); ("kev", of_option kev);
   ("github", of_option github); ("component", of_option component); ("ai_analysis", VNone)].

(** What [analyze_cve] makes of an exception. *)
Definition as_500 {A} (r : result A) : result A :=
  match r with
  | Ok a => Ok a
  | Raise e => Raise (HTTPException 500 (exn_str e))
  end.

(** The world after the four adapters of [analyze_cve] have run. *)
Definition after_adapters `{PyLib} (cve_id : string) (w : world) : world :=
  let w1 := record (HttpCall (nvd_request cve_id)) w in
  let w2 := record (HttpCall (epss_request cve_id)) w1 in
  (fetch_feed Advisories (fetch_feed KEV w2).2).2.

(** Upstream did not deliver a payload: another status, an exception of the
    transport, or status 200 with a body that is not JSON. *)
Definition undelivered `{PyLib} (o : http_outcome) : Prop :=
  match o with
  | Response code text =>
      code ≠ 200 ∨ ∃ msg, json_loads text = Malformed msg
  | HttpRaises _ => True
  end.

Definition set_fs_writable (p : string → bool) (w : world) : world :=
  {| now := now w; fs := fs w; fs_writable := p; environ := environ w;
     dotenv := dotenv w; httpx := httpx w; openai_responses := openai_responses w;
     openai_chat := openai_chat w; calls := calls w; ai_config := ai_config w;
     system_context := system_context w |}.

(** An entry of the known-exploited list that names another CVE. *)
Definition names_other_cve (cve_id : string) (vuln : value) : Prop :=
  ∃ c, py_get vuln "cveID" VNone = Ok c ∧ eq_str c cve_id = false.


(** An advisory that links the CVE: one of its [cves] has it as [number]. *)
Definition links_cve (cve_id : string) (advisory : value) : Prop :=
  ∃ cves, (cves ← py_get advisory "cves" (VList []); py_iter cves) = Ok cves ∧
          ∃ cve, cve ∈ cves ∧ py_get cve "number" VNone = Ok (VStr cve_id).

(** The same request with the AI analysis switched on or off. *)
Definition with_ai_analysis (b : bool) (request : CVERequest) : CVERequest :=
  {| cve_id := cve_id request; component := component request; ai_analysis := b |}.

(** The two requests of [analyze_with_ollama]. *)
Definition ollama_tags_request (cfg : AIConfig) : http_request :=
  {| rq_method := GET; rq_url := ollama_url cfg +:+ "/api/tags";
     rq_headers := []; rq_json := None |}.

Definition ollama_generate_request (cfg : AIConfig) (prompt : string) : http_request :=
  {| rq_method := POST; rq_url := ollama_url cfg +:+ "/api/generate";
     rq_headers := [];
     rq_json := Some (VDict [("model", VStr (model_name cfg));
                             ("prompt", VStr prompt);
                             ("stream", VBool false);
                             ("options", VDict [("temperature", VFloat "0.7");
                                                ("top_p", VFloat "0.9")])]) |}.

(** The texts [analyze_with_ollama] returns for failures. *)
Definition ollama_not_running : value :=
  VStr "Ollama service is not running. Please start Ollama first.".

Definition ollama_check_failed (cfg : AIConfig) (e : exn) : value :=
  VStr ("Cannot connect to Ollama at " +:+ ollama_url cfg
        +:+ ". Please check if Ollama is running. Error: " +:+ exn_str e).

Definition ollama_model_missing (cfg : AIConfig) (names : string) : value :=
  VStr ("Model '" +:+ model_name cfg +:+ "' not found. Available models: " +:+ names).

Definition ollama_failed (cfg : AIConfig) (e : exn) : value :=
  match e with
  | TimeoutException _ =>
      VStr "AI Analysis timeout. The analysis is taking longer than expected. Try with a smaller model or increase timeout."
  | ConnectError _ =>
      VStr ("Cannot connect to Ollama at " +:+ ollama_url cfg
            +:+ ". Please ensure Ollama is running and accessible.")
  | _ => VStr ("AI Analysis error: " +:+ exn_str e)
  end.

(** The names of the models in the body of the tags answer. *)
Definition ollama_available_models `{PyLib} (text : string) : result (list value) :=
  models ← loads text;
  listed ← py_get models "models" (VList []);
  listed ← py_iter listed;
  mapR (λ model, py_get model "name" (VStr "")) listed.

(** The connection check: [Some v] when [analyze_with_ollama] returns [v]
    after it, [None] when the analysis goes on. *)
Definition ollama_check `{PyLib} (cfg : AIConfig) (tags : http_outcome) : option value :=
  match tags with
  | HttpRaises e => Some (ollama_check_failed cfg e)
  | Response code text =>
      if negb (Z.eqb code 200) then Some ollama_not_running
      else
        match ollama_available_models text with
        | Raise e => Some (ollama_check_failed cfg e)
        | Ok available =>
            if negb (existsb (λ m, eq_str m (model_name cfg)) available) then
              match (if truthy (VList available) then str_join ", " available else Ok "None") with
              | Ok names => Some (ollama_model_missing cfg names)
              | Raise e => Some (ollama_check_failed cfg e)
              end
            else None
        end
  end.

(** What [analyze_with_ollama] makes of the answer to the generate request. *)
Definition ollama_generated `{PyLib} (cfg : AIConfig) (generate : http_outcome) : value :=
  match generate with
  | HttpRaises e => ollama_failed cfg e
  | Response code text =>
      if Z.eqb code 200 then
        match
          result ← loads text;
          response_text ← py_get result "response" (VStr "");
          _ ← py_len response_text;
          Ok (if truthy response_text then response_text
              else VStr "Analysis completed but no response received")
        with
        | Ok v => v
        | Raise e => ollama_failed cfg e
        end
      else VStr ("Ollama API error: HTTP " +:+ pretty code +:+ " - " +:+ text)
  end.

(** The description both builders read from the details of a CVE. *)
Definition description_of (cve_details : value) : result value :=
  descriptions ← py_get cve_details "descriptions" (VList []);
  if truthy descriptions then d0 ← py_first descriptions; py_get d0 "value" (VStr "")
  else Ok (VStr "").

(** The EPSS score both builders read from the EPSS payload. *)
Definition epss_score_of (epss_data : value) : result value :=
  data ← py_get epss_data "data" VNone;
  if truthy data then
    data ← py_item epss_data "data"; e0 ← py_first data;
    py_get e0 "epss" (VStr "Not available")
  else Ok (VStr "Not available").

(** A record whose NVD payload has a first vulnerability with these details. *)
Definition nvd_details_of (d details : list (string * value)) : Prop :=
  ∃ nvd vuln more,
    dict_lookup "nvd" d = Some (VDict nvd) ∧
    dict_lookup "vulnerabilities" nvd = Some (VList (VDict vuln :: more)) ∧
    dict_lookup "cve" vuln = Some (VDict details).

(** Metrics scored under both schemas, with different results. *)
Definition two_schema_metrics : list (string * value) :=
  [("cvssMetricV2", VList [VDict [("cvssData", VDict [("baseScore", VFloat "9.3")])]]);
   ("cvssMetricV3",
    VList [VDict [("cvssData", VDict [("baseScore", VFloat "9.8");
                                      ("baseSeverity", VStr "CRITICAL");
                                      ("vectorString", VStr "CVSS:3.0/AV:N/AC:L/PR:N/UI:N/S:U/C:H/I:H/A:H")])]]);
   ("cvssMetricV31",
    VList [VDict [("cvssData", VDict [("baseScore", VFloat "10.0");
                                      ("baseSeverity", VStr "CRITICAL");
                                      ("vectorString", VStr "CVSS:3.1/AV:N/AC:L/PR:N/UI:N/S:C/C:H/I:H/A:H")])]])].

Definition record_with_metrics (metrics : value) : list (string * value) :=
  [("cve_id", VStr log4shell);
   ("nvd", VDict [("vulnerabilities",
                   VList [VDict [("cve", VDict [("id", VStr log4shell); ("metrics", metrics)])]])]);
   ("epss", VDict [("data", VList [])]);
   ("kev", VNone)].

(** The line both builders write for one component of the system context. *)
Definition component_line `{PyLib} (fields : list (string * value)) : string :=
  "- " +:+ py_str (default VNone (dict_lookup "name" fields)) +:+ ": "
  +:+ py_str (default (VStr "") (dict_lookup "description" fields)).

(** A YAML reader for examples: it knows an empty file, which
    [yaml.safe_load] reads as None, and one system context. *)
Definition sample_context_yaml : string :=
  join nl ["components:"; "  - name: web"; "    description: nginx"; ""].

Definition yaml_table : YamlLib := {|
  yaml_safe_load := λ text,
    if String.eqb text "" then Parsed VNone
    else if String.eqb text sample_context_yaml then
      Parsed (VDict [("components",
                      VList [VDict [("name", VStr "web"); ("description", VStr "nginx")]])])
    else Malformed "could not find expected ':'";
|}.

Definition openai_key_name : string := "OPENAI_API_KEY".

























(** * Properties *)

Local Open Scope list_scope.

(** ** Reasoning about runs *)

Lemma bind_run {A B} (m : M A) (f : A → M B) (w : world) :
  (m ≫= f) w = match m w with
               | (Ok a, w') => f a w'
               | (Raise e, w') => (Raise e, w')
               end.
Proof. reflexivity. Qed.

Lemma bind_ok {A B} (m : M A) (f : A → M B) w a w' :
  m w = (Ok a, w') → (m ≫= f) w = f a w'.
Proof. intros E. rewrite bind_run, E. reflexivity. Qed.

Lemma try_except_run {A} (body : M A) (handler : exn → M A) w :
  try_except body handler w = match body w with
                              | (Ok a, w') => (Ok a, w')
                              | (Raise e, w') => handler e w'
                              end.
Proof. reflexivity. Qed.

Lemma pure_ret {A} (a : A) : pure_run (mret a : M A).
Proof. by intros w. Qed.

Lemma pure_lift {A} (r : result A) : pure_run (lift r).
Proof. by intros w. Qed.

Lemma pure_read {A} (f : world → A) : pure_run (read f).
Proof. by intros w. Qed.

Lemma pure_raise {A} (e : exn) : pure_run (raise e : M A).
Proof. by intros w. Qed.

Lemma pure_bind {A B} (m : M A) (f : A → M B) :
  pure_run m → (∀ a, pure_run (f a)) → pure_run (m ≫= f).
Proof.
  intros Pm Pf w. rewrite bind_run. specialize (Pm w).
  destruct (m w) as [[a|e] w']; simpl in *; subst; [apply Pf | done].
Qed.

Create HintDb pure_db.
#[export] Hint Resolve pure_ret pure_lift pure_read pure_raise : pure_db.

Ltac pure_tac :=
  repeat first
    [ apply pure_bind; [| intros ?]
    | match goal with |- pure_run (if ?b then _ else _) => destruct b end
    | match goal with |- pure_run (match ?x with _ => _ end) => destruct x end
    | solve [auto with pure_db] ].

Lemma environment_context_pure `{PyLib} component_context :
  pure_run (environment_context_of component_context).
Proof. unfold environment_context_of. pure_tac. Qed.

Lemma security_context_pure `{PyLib} : pure_run security_context_of.
Proof. unfold security_context_of. pure_tac. Qed.

#[export] Hint Resolve environment_context_pure security_context_pure : pure_db.

Lemma create_analysis_prompt_json_pure `{PyLib} cve_data component_context :
  pure_run (create_analysis_prompt_json cve_data component_context).
Proof. unfold create_analysis_prompt_json. pure_tac. Qed.

Lemma create_analysis_prompt_pure `{PyLib} cve_data component_context :
  pure_run (create_analysis_prompt cve_data component_context).
Proof. unfold create_analysis_prompt. pure_tac. Qed.

(** ** Enrichment without an API key *)

(** C5.  With provider chatgpt and no API key stored ([None] or the empty
    string), [perform_ai_analysis] returns at once: the result is the dict with
    [error] true and the message about the missing key, for every record and
    context, and the world is unchanged, so no outbound call was made. *)
Theorem chatgpt_without_key_returns_configuration_error `{PyLib}
    (cve_data component_context : value) (w : world) :
  provider (ai_config w) = "chatgpt" →
  api_key (ai_config w) = None ∨ api_key (ai_config w) = Some "" →
  ∃ r w',
    perform_ai_analysis cve_data component_context w = (Ok r, w') ∧
    r = VDict [("error", VBool true); ("message", VStr missing_key_message)] ∧
    contains "API key not configured" missing_key_message = true ∧
    w' = w ∧ calls w' = calls w.
Proof.
  intros Hp Hk.
  exists (error_result missing_key_message), w.
  split; [| by repeat split].
  unfold perform_ai_analysis.
  rewrite bind_run. simpl. rewrite Hp. simpl.
  unfold analyze_with_chatgpt. rewrite bind_run. simpl.
  unfold configured_key. by destruct Hk as [-> | ->].
Qed.

Lemma chatgpt_without_key_witness :
  let w := offline in
  provider (ai_config w) = "chatgpt" ∧
  (api_key (ai_config w) = None ∨ api_key (ai_config w) = Some "") ∧
  ∃ r w',
    @perform_ai_analysis table_lib bare_record VNone w = (Ok r, w') ∧
    r = VDict [("error", VBool true); ("message", VStr missing_key_message)] ∧
    contains "API key not configured" missing_key_message = true ∧
    w' = w ∧ calls w' = calls w.
Proof.
  split; [reflexivity |]. split; [by left |].
  apply (@chatgpt_without_key_returns_configuration_error table_lib bare_record VNone offline);
    [reflexivity | by left].
Defined.

(** ** The configuration endpoint *)

(** C10.  [GET /api/config] returns the dump of the stored configuration and
    the world is unchanged; the entry [api_key] of the dump is the stored key
    itself ([None] when no key is stored), also after [POST /api/config].
    When the environment or the .env file holds a non-empty OPENAI_API_KEY,
    [load_env_config] stores it and [GET /api/config] then returns it, though
    no caller supplied it. *)
Theorem get_config_returns_stored_key (w : world) (k : string) :
  k ≠ "" →
  (environ w ∪ dotenv w) !! "OPENAI_API_KEY" = Some k →
  (∀ w0, get_config w0 = (Ok (model_dump (ai_config w0)), w0) ∧
         py_get (model_dump (ai_config w0)) "api_key" VNone =
           Ok (match api_key (ai_config w0) with Some key => VStr key | None => VNone end)) ∧
  (∀ c w0, ∃ w1, update_config c w0 = (Ok (VDict [("status", VStr "success"); ("message", VStr "Configuration updated")]), w1) ∧
         get_config w1 = (Ok (model_dump c), w1)) ∧
  ∃ w1, load_env_config w = (Ok tt, w1) ∧
        api_key (ai_config w1) = Some k ∧
        ∃ r, get_config w1 = (Ok r, w1) ∧ py_get r "api_key" VNone = Ok (VStr k).
Proof.
  intros Hk Henv. split; [| split].
  - intros w0. split; [reflexivity |].
    unfold model_dump. simpl. by destruct (api_key (ai_config w0)).
  - intros c w0. by exists (set_ai_config c w0).
  - unfold load_env_config, load_dotenv.
    rewrite bind_run. simpl. rewrite bind_run. simpl. rewrite Henv.
    destruct (String.eqb_spec k ""); [done |]. simpl.
    eexists. split; [reflexivity |]. split; [reflexivity |].
    eexists. split; reflexivity.
Qed.

Lemma get_config_returns_stored_key_witness :
  let w := set_environ (λ _, {["OPENAI_API_KEY" := "sk-live-1234"]}) offline in
  "sk-live-1234" ≠ "" ∧
  (environ w ∪ dotenv w) !! "OPENAI_API_KEY" = Some "sk-live-1234" ∧
  ∃ w1, load_env_config w = (Ok tt, w1) ∧
        api_key (ai_config w1) = Some "sk-live-1234" ∧
        ∃ r, get_config w1 = (Ok r, w1) ∧ py_get r "api_key" VNone = Ok (VStr "sk-live-1234").
Proof.
  split; [done |]. split; [by vm_compute |].
  refine (proj2 (proj2 (get_config_returns_stored_key
           (set_environ (λ _, {["OPENAI_API_KEY" := "sk-live-1234"]}) offline) "sk-live-1234" _ _)));
    [done | by vm_compute].
Defined.

(** ** The primary database adapter *)

(** C2, as the code has it.  [fetch_nvd_data] makes one request.  Status 200
    gives the parsed body.  Every other status, whatever it is, raises the
    same HTTPException 404 with the detail that the CVE was not found.  An
    exception of the transport is raised as it is. *)
Theorem fetch_nvd_data_outcomes `{PyLib} (cve_id : string) (w : world) :
  let w' := record (HttpCall (nvd_request cve_id)) w in
  let not_found := HTTPException 404 ("CVE " +:+ cve_id +:+ " not found") in
  (∀ text, httpx w (nvd_request cve_id) = Response 200 text →
     fetch_nvd_data cve_id w = (loads text, w')) ∧
  (∀ code text, httpx w (nvd_request cve_id) = Response code text → code ≠ 200 →
     fetch_nvd_data cve_id w = (Raise not_found, w')) ∧
  (∀ e, httpx w (nvd_request cve_id) = HttpRaises e →
     fetch_nvd_data cve_id w = (Raise e, w')).
Proof.
  unfold fetch_nvd_data, client_get, send. fold (nvd_request cve_id).
  repeat split.
  - intros text E. rewrite bind_run, E. reflexivity.
  - intros code text E Hc. rewrite bind_run, E. simpl.
    destruct (Z.eqb_spec code 200); [done | reflexivity].
  - intros e E. rewrite bind_run, E. reflexivity.
Qed.

Lemma fetch_nvd_data_outcomes_witness :
  let w := answering 429 "Too Many Requests" offline in
  httpx w (nvd_request log4shell) = Response 429 "Too Many Requests" ∧ 429 ≠ 200 ∧
  @fetch_nvd_data table_lib log4shell w =
    (Raise (HTTPException 404 "CVE CVE-2021-44228 not found"),
     record (HttpCall (nvd_request log4shell)) w).
Proof.
  split; [reflexivity |]. split; [done |].
  refine (proj1 (proj2 (@fetch_nvd_data_outcomes table_lib log4shell
           (answering 429 "Too Many Requests" offline))) 429 "Too Many Requests" _ _);
    [reflexivity | done].
Defined.

(** C2, as the claim has it, fails: when the database answers 503 for an
    identifier it holds, the adapter raises the not-found error, the very
    outcome of a 404 answer. *)
Lemma nvd_unavailable_is_reported_as_not_found :
  let down := answering 503 "Service Unavailable" offline in
  let absent := answering 404 "" offline in
  httpx down (nvd_request log4shell) = Response 503 "Service Unavailable" ∧
  (@fetch_nvd_data table_lib log4shell down).1
    = Raise (HTTPException 404 "CVE CVE-2021-44228 not found") ∧
  (@fetch_nvd_data table_lib log4shell down).1 = (@fetch_nvd_data table_lib log4shell absent).1.
Proof. by vm_compute. Qed.

(** ** The cached feeds *)

Lemma is_cache_valid_run (f : feed) (w : world) :
  is_cache_valid (cache_file_of f) 4 w = (Ok (fresh f w), w).
Proof.
  unfold is_cache_valid, fresh, os_path_exists, os_path_getmtime, read.
  rewrite bind_run. simpl.
  destruct (fs w !! cache_file_of f) as [file|] eqn:E; simpl.
  - rewrite bind_run, E. reflexivity.
  - reflexivity.
Qed.

(** Both adapters are the same program over their cache file, request and
    empty payload: a fresh cache file is read and parsed, anything else leads
    to [refetch]. *)
Lemma fetch_feed_run `{PyLib} (f : feed) (w : world) :
  fetch_feed f w =
    if fresh f w then (read_file (cache_file_of f) ≫= λ text, lift (loads text)) w
    else refetch f w.
Proof.
  destruct f; unfold fetch_feed, fetch_kev_data, fetch_github_advisories.
  - change (os_path_join CACHE_DIR "kev.json") with (cache_file_of KEV).
    rewrite (bind_ok _ _ _ _ _ (is_cache_valid_run KEV w)).
    destruct (fresh KEV w); [reflexivity |].
    unfold refetch, client_get, send. rewrite bind_run.
    change {| rq_method := GET; rq_url := _; rq_headers := []; rq_json := None |}
      with (request_of KEV).
    destruct (httpx w (request_of KEV)) as [code text | e]; [| reflexivity].
    simpl. destruct (Z.eqb code 200); [| reflexivity].
    unfold loads. rewrite bind_run. simpl.
    destruct (json_loads text); reflexivity.
  - change (os_path_join CACHE_DIR "github_advisories.json") with (cache_file_of Advisories).
    rewrite (bind_ok _ _ _ _ _ (is_cache_valid_run Advisories w)).
    destruct (fresh Advisories w); [reflexivity |].
    unfold refetch, client_get, send. rewrite bind_run.
    change {| rq_method := GET; rq_url := _; rq_headers := _; rq_json := None |}
      with (request_of Advisories).
    destruct (httpx w (request_of Advisories)) as [code text | e]; [| reflexivity].
    simpl. destruct (Z.eqb code 200); [| reflexivity].
    unfold loads. rewrite bind_run. simpl.
    destruct (json_loads text); reflexivity.
Qed.

Lemma refetch_calls `{PyLib} (f : feed) (w : world) :
  calls (refetch f w).2 = calls w ++ [HttpCall (request_of f)].
Proof.
  unfold refetch.
  destruct (httpx w (request_of f)) as [code text | e]; [| reflexivity].
  destruct (Z.eqb code 200); [| reflexivity].
  destruct (json_loads text); [| reflexivity].
  rewrite bind_run. unfold write_file.
  destruct (fs_writable _ _); reflexivity.
Qed.

Lemma fresh_spec (f : feed) (w : world) :
  fresh f w = true ↔
  ∃ file, fs w !! cache_file_of f = Some file ∧ now w - mtime file < freshness_window.
Proof.
  unfold fresh. destruct (fs w !! cache_file_of f) as [file|].
  - rewrite bool_decide_eq_true. split; [eauto | by intros (? & [= <-] & ?)].
  - split; [done | by intros (? & ? & ?)].
Qed.

(** The live fetch that stores a payload. *)
Lemma refetch_stores `{PyLib} (f : feed) (w : world) (text : string) (data : value) :
  httpx w (request_of f) = Response 200 text →
  json_loads text = Parsed data →
  fs_writable w (cache_file_of f) = true →
  refetch f w =
    (Ok data,
     set_fs <[cache_file_of f :=
                {| mtime := now w; content := json_dumps data;
                   readable := match fs w !! cache_file_of f with
                               | Some file => readable file
                               | None => true
                               end |}]>
       (record (HttpCall (request_of f)) w)).
Proof.
  intros Hup Hparse Hwr. unfold refetch. rewrite Hup, Hparse. simpl.
  rewrite bind_run. unfold write_file. simpl. rewrite Hwr. reflexivity.
Qed.

(** C1.  The put: the cache file of the feed is missing or stale, upstream
    answers 200 with a body that parses to [data], and the file can be
    written (and read, if it was there before).  Then the fetch returns
    [data], and as long as the files stay as the put left them:
    - a fetch less than four hours after the put returns [data] again and
      leaves the world alone, so it makes no request, whatever upstream would
      answer; the codec is asked to read back what it wrote for [data];
    - a fetch four hours or more after the put finds the file still there,
      [is_cache_valid] answers False, and the fetch is a live one: exactly one
      request is made, a 200 answer gives the new payload, and any other
      answer gives the empty payload, not the stored one. *)
Theorem cache_round_trip_and_expiry `{PyLib}
    (f : feed) (w : world) (text : string) (data : value) :
  fresh f w = false →
  httpx w (request_of f) = Response 200 text →
  json_loads text = Parsed data →
  json_loads (json_dumps data) = Parsed data →
  fs_writable w (cache_file_of f) = true →
  (∀ file, fs w !! cache_file_of f = Some file → readable file = true) →
  ∃ w1,
    fetch_feed f w = (Ok data, w1) ∧
    (∀ w2, fs w2 = fs w1 → now w2 - now w < freshness_window →
       fetch_feed f w2 = (Ok data, w2)) ∧
    (∀ w2, fs w2 = fs w1 → (freshness_window ≤ now w2 - now w)%Z →
       is_Some (fs w2 !! cache_file_of f) ∧
       is_cache_valid (cache_file_of f) 4 w2 = (Ok false, w2) ∧
       calls (fetch_feed f w2).2 = calls w2 ++ [HttpCall (request_of f)] ∧
       (∀ text' data',
          httpx w2 (request_of f) = Response 200 text' →
          json_loads text' = Parsed data' →
          fs_writable w2 (cache_file_of f) = true →
          (fetch_feed f w2).1 = Ok data') ∧
       (∀ code text',
          httpx w2 (request_of f) = Response code text' → code ≠ 200 →
          (fetch_feed f w2).1 = Ok (empty_of f))).
Proof.
  intros Hstale Hup Hparse Hround Hwr Hrd.
  eexists. split; [| split].
  - rewrite fetch_feed_run, Hstale. by apply (refetch_stores f w text data).
  - intros w2 Hfs Hnow.
    rewrite fetch_feed_run. unfold fresh. rewrite Hfs. simpl.
    rewrite lookup_insert_eq. simpl.
    rewrite bool_decide_eq_true_2 by done.
    rewrite bind_run. unfold read_file. rewrite Hfs. simpl.
    rewrite lookup_insert_eq. simpl.
    assert (Hr : match fs w !! cache_file_of f with
                 | Some file => readable file
                 | None => true
                 end = true).
    { destruct (fs w !! cache_file_of f) as [file|] eqn:E; [by apply Hrd | done]. }
    rewrite Hr. unfold lift, loads. by rewrite Hround.
  - intros w2 Hfs Hnow.
    assert (Hst : fresh f w2 = false).
    { unfold fresh. rewrite Hfs. simpl. rewrite lookup_insert_eq. simpl.
      by rewrite bool_decide_eq_false_2 by lia. }
    split; [| split; [| split; [| split]]].
    + rewrite Hfs. simpl. rewrite lookup_insert_eq. eauto.
    + by rewrite is_cache_valid_run, Hst.
    + rewrite fetch_feed_run, Hst. apply refetch_calls.
    + intros text' data' Hup' Hparse' Hwr'.
      rewrite fetch_feed_run, Hst.
      by rewrite (refetch_stores f w2 text' data').
    + intros code text' Hup' Hcode.
      rewrite fetch_feed_run, Hst. unfold refetch. rewrite Hup'.
      by destruct (Z.eqb_spec code 200).
Qed.

(** C3, as the code has it.  When the cache file is fresh, an error while
    reading it is raised to the caller and no request is made: a file that
    cannot be opened raises PermissionError, a file whose text is not JSON
    raises JSONDecodeError. *)
Theorem cache_read_errors_propagate `{PyLib} (f : feed) (w : world) (file : file) :
  fs w !! cache_file_of f = Some file →
  now w - mtime file < freshness_window →
  (readable file = false →
     fetch_feed f w =
       (Raise (PyError "PermissionError"
                 ("[Errno 13] Permission denied: '" +:+ cache_file_of f +:+ "'")), w)) ∧
  (∀ msg, readable file = true → json_loads (content file) = Malformed msg →
     fetch_feed f w = (Raise (JSONDecodeError msg), w)).
Proof.
  intros Hfile Hage.
  assert (Hf : fresh f w = true) by (apply fresh_spec; eauto).
  split.
  - intros Hr. rewrite fetch_feed_run, Hf, bind_run.
    unfold read_file. by rewrite Hfile, Hr.
  - intros msg Hr Hbad. rewrite fetch_feed_run, Hf, bind_run.
    unfold read_file. rewrite Hfile, Hr. unfold lift, loads. by rewrite Hbad.
Qed.

Lemma cache_round_trip_and_expiry_witness :
  let w := kev_online in
  let text := plain_dumps kev_payload in
  fresh KEV w = false ∧
  httpx w (request_of KEV) = Response 200 text ∧
  table_loads text = Parsed kev_payload ∧
  table_loads (plain_dumps kev_payload) = Parsed kev_payload ∧
  fs_writable w (cache_file_of KEV) = true ∧
  ∃ w1,
    @fetch_kev_data table_lib w = (Ok kev_payload, w1) ∧
    (∀ w2, fs w2 = fs w1 → now w2 - now w < freshness_window →
       @fetch_kev_data table_lib w2 = (Ok kev_payload, w2)).
Proof.
  do 5 (split; [by vm_compute |]).
  destruct (@cache_round_trip_and_expiry table_lib KEV kev_online
              (plain_dumps kev_payload) kev_payload) as (w1 & Hput & Hget & _).
  - by vm_compute.
  - by vm_compute.
  - by vm_compute.
  - by vm_compute.
  - by vm_compute.
  - intros file Hfile. by vm_compute in Hfile.
  - exists w1. split; [exact Hput | exact Hget].
Defined.

Lemma cache_read_errors_propagate_witness :
  let w := kev_cache_garbled in
  fresh KEV w = true ∧
  @fetch_kev_data table_lib w
    = (Raise (JSONDecodeError "Expecting value: line 1 column 1 (char 0)"), w).
Proof.
  split; [by vm_compute |].
  refine (proj2 (@cache_read_errors_propagate table_lib KEV kev_cache_garbled
            {| mtime := now offline - hour; content := "{" +:+ dq +:+ "title" +:+ dq +:+ ": ";
               readable := true |} _ _) _ _ _);
    by vm_compute.
Defined.

(** C3, as the claim has it, fails: with a fresh cache file that cannot be
    opened, the known-exploited adapter raises PermissionError and makes no
    request, although upstream would have answered. *)
Lemma unreadable_cache_file_aborts_fetch :
  let w := kev_cache_locked in
  fresh KEV w = true ∧
  httpx w (request_of KEV) = Response 200 (plain_dumps kev_payload) ∧
  @fetch_kev_data table_lib w
    = (Raise (PyError "PermissionError" "[Errno 13] Permission denied: 'cache/kev.json'"), w) ∧
  calls w = [].
Proof. by vm_compute. Qed.

(** ** Enrichment through the OpenAI SDK *)

Lemma perform_ai_analysis_chatgpt `{PyLib} cve_data component_context w :
  provider (ai_config w) = "chatgpt" →
  perform_ai_analysis cve_data component_context w
    = analyze_with_chatgpt cve_data component_context w.
Proof.
  intros Hp. unfold perform_ai_analysis. rewrite bind_run. simpl. by rewrite Hp.
Qed.

(** The run of [analyze_with_chatgpt] once the key is there and the prompt is
    built: text from the responses API is parsed or wrapped; without it the
    chat completions call follows. *)
Lemma analyze_with_chatgpt_run `{PyLib} cve_data component_context w key prompt :
  configured_key (ai_config w) = Some key →
  create_analysis_prompt_json cve_data component_context w = (Ok prompt, w) →
  let model := model_name (ai_config w) in
  let w1 := record (ResponsesCreate key model prompt) w in
  analyze_with_chatgpt cve_data component_context w =
    match openai_responses w key model prompt with
    | ResponsesObject (Some content) => (Ok (parsed_or_wrapped content unparsed_marker), w1)
    | ResponsesObject None | ResponsesRaises _ => chat_fallback key model prompt w1
    end.
Proof.
  intros Hkey Hprompt. simpl.
  unfold analyze_with_chatgpt. rewrite bind_run. simpl. rewrite Hkey.
  rewrite try_except_run, bind_run, Hprompt.
  rewrite try_except_run, bind_run. unfold responses_create, chat_fallback, parsed_or_wrapped.
  destruct (openai_responses w key (model_name (ai_config w)) prompt) as [[content|]|e].
  - destruct (json_loads content); reflexivity.
  - simpl. rewrite bind_run. unfold chat_completions_create. simpl.
    destruct (openai_chat w key _) as [[|[content|] rest]|e]; try reflexivity.
    destruct (json_loads content); reflexivity.
  - simpl. rewrite bind_run. unfold chat_completions_create. simpl.
    destruct (openai_chat w key _) as [[|[content|] rest]|e']; try reflexivity.
    destruct (json_loads content); reflexivity.
Qed.

Lemma chat_fallback_returns `{PyLib} key model prompt w :
  ∃ r, chat_fallback key model prompt w
       = (Ok r, record (ChatCompletionsCreate key (chat_request_for model prompt)) w).
Proof.
  unfold chat_fallback.
  destruct (openai_chat w key _) as [[|[content|] rest]|e]; eauto.
Qed.

Lemma chat_fallback_raises `{PyLib} key model prompt w e :
  openai_chat w key (chat_request_for model prompt) = ChatRaises e →
  (chat_fallback key model prompt w).1 = Ok (failed_with model e).
Proof. intros E. unfold chat_fallback. by rewrite E. Qed.

(** When the prompt cannot be built, no call is made: the exception of the
    builder goes to the last handler. *)
Lemma chatgpt_prompt_error_makes_no_call `{PyLib} cve_data component_context w key e :
  configured_key (ai_config w) = Some key →
  create_analysis_prompt_json cve_data component_context w = (Raise e, w) →
  analyze_with_chatgpt cve_data component_context w
    = (Ok (failed_with (model_name (ai_config w)) e), w).
Proof.
  intros Hkey Hprompt.
  unfold analyze_with_chatgpt. rewrite bind_run. simpl. rewrite Hkey.
  by rewrite try_except_run, bind_run, Hprompt.
Qed.

(** C6, as the code has it.  With a key stored, the prompt is built before
    any call is made, and building it either returns a prompt or raises,
    leaving the world as it was.  If it raises, no call is made at all and
    the error result reports the exception of the builder.  If the prompt is
    built, the responses API is called first.  If that call fails, whether
    it raises (any exception at all) or returns an object without
    [output_text], the chat completions API is called next, with
    temperature 0.3 and 2000 tokens, and the two calls are all the world
    records, in that order; an error of the second call is what the final
    error result reports.  If the first call returns text, it is the only
    call. *)
Theorem chatgpt_falls_back_to_chat_completions `{PyLib}
    (cve_data component_context : value) (w : world) (key : string) :
  provider (ai_config w) = "chatgpt" →
  configured_key (ai_config w) = Some key →
  let model := model_name (ai_config w) in
  (∀ prompt,
     create_analysis_prompt_json cve_data component_context w = (Ok prompt, w) →
     let first := ResponsesCreate key model prompt in
     let second :=
       ChatCompletionsCreate key
         {| ch_model := model;
            ch_messages := [("system", system_message); ("user", prompt)];
            ch_temperature := "0.3"; ch_max_tokens := 2000 |} in
     (responses_failed (openai_responses w key model prompt) →
        ∃ r w',
          perform_ai_analysis cve_data component_context w = (Ok r, w') ∧
          calls w' = calls w ++ [first; second] ∧
          (∀ e, openai_chat w key (chat_request_for model prompt) = ChatRaises e →
             r = error_result ("ChatGPT Analysis error: " +:+ user_facing model (exn_str e)))) ∧
     (∀ content, openai_responses w key model prompt = ResponsesObject (Some content) →
        ∃ r w',
          perform_ai_analysis cve_data component_context w = (Ok r, w') ∧
          calls w' = calls w ++ [first])) ∧
  (∀ e,
     create_analysis_prompt_json cve_data component_context w = (Raise e, w) →
     perform_ai_analysis cve_data component_context w
       = (Ok (error_result ("ChatGPT Analysis error: " +:+ user_facing model (exn_str e))), w)) ∧
  (∃ built, create_analysis_prompt_json cve_data component_context w = (built, w)).
Proof.
  intros Hp Hkey. cbn zeta. split; [| split].
  - intros prompt Hprompt.
    rewrite perform_ai_analysis_chatgpt by done.
    rewrite (analyze_with_chatgpt_run _ _ _ _ _ Hkey Hprompt). simpl.
    set (model := model_name (ai_config w)).
    set (w1 := record (ResponsesCreate key model prompt) w).
    assert (Hfallback : ∃ r w',
      chat_fallback key model prompt w1 = (Ok r, w') ∧
      calls w' = calls w ++ [ResponsesCreate key model prompt;
                             ChatCompletionsCreate key (chat_request_for model prompt)] ∧
      (∀ e, openai_chat w key (chat_request_for model prompt) = ChatRaises e →
         r = failed_with model e)).
    { destruct (chat_fallback_returns key model prompt w1) as [r Hr].
      exists r, (record (ChatCompletionsCreate key (chat_request_for model prompt)) w1).
      split; [exact Hr |]. split.
      - simpl. by rewrite <- app_assoc.
      - intros e He.
        pose proof (chat_fallback_raises key model prompt w1 e He) as Hf.
        rewrite Hr in Hf. simpl in Hf. by injection Hf. }
    split.
    + intros Hfail.
      destruct (openai_responses w key model prompt) as [[content|]|e];
        [done | exact Hfallback | exact Hfallback].
    + intros content ->. eexists _, _. split; reflexivity.
  - intros e Hprompt.
    rewrite perform_ai_analysis_chatgpt by done.
    by rewrite (chatgpt_prompt_error_makes_no_call _ _ _ _ _ Hkey Hprompt).
  - pose proof (create_analysis_prompt_json_pure cve_data component_context w) as Hpure.
    destruct (create_analysis_prompt_json cve_data component_context w) as [built w'].
    simpl in Hpure. subst w'. eauto.
Qed.

Lemma chatgpt_falls_back_witness :
  let w := chatgpt_world
             (ResponsesRaises (PyError "NotFoundError" "Unsupported tool: web_search"))
             (ChatRaises (PyError "RateLimitError" "Rate limit reached for requests")) in
  provider (ai_config w) = "chatgpt" ∧
  configured_key (ai_config w) = Some "sk-test" ∧
  @create_analysis_prompt_json table_lib bare_record VNone w = (Ok bare_structured_prompt, w) ∧
  ∃ r w',
    @perform_ai_analysis table_lib bare_record VNone w = (Ok r, w') ∧
    calls w' = [ResponsesCreate "sk-test" "gpt-4o-mini" bare_structured_prompt;
                ChatCompletionsCreate "sk-test" (chat_request_for "gpt-4o-mini" bare_structured_prompt)] ∧
    r = error_result "ChatGPT Analysis error: Rate limit exceeded. Please wait and try again.".
Proof.
  split; [reflexivity |]. split; [reflexivity |]. split; [by vm_compute |].
  destruct (proj1 (proj1 (@chatgpt_falls_back_to_chat_completions table_lib bare_record VNone
              (chatgpt_world
                 (ResponsesRaises (PyError "NotFoundError" "Unsupported tool: web_search"))
                 (ChatRaises (PyError "RateLimitError" "Rate limit reached for requests")))
              "sk-test" eq_refl eq_refl) bare_structured_prompt ltac:(by vm_compute)) I)
    as (r & w' & Hrun & Hcalls & Hr).
  exists r, w'. split; [exact Hrun |]. split; [exact Hcalls |].
  rewrite (Hr _ eq_refl). by vm_compute.
Defined.

(** C6, as the claim has it, fails: a key is stored and yet no call is made,
    neither the first nor the second, when the prompt cannot be built.  That
    is so for every record when the system context is None, which is what an
    empty YAML file loads to, and for a record whose [cvssMetricV31] is the
    empty list. *)
Lemma chatgpt_with_key_makes_no_call :
  let w := chatgpt_world
             (ResponsesRaises (PyError "NotFoundError" "Unsupported tool: web_search"))
             (ChatRaises (PyError "RateLimitError" "Rate limit reached for requests")) in
  let unset := set_system_context VNone w in
  let unscored := VDict (record_with_metrics (VDict [("cvssMetricV31", VList [])])) in
  provider (ai_config w) = "chatgpt" ∧
  configured_key (ai_config w) = Some "sk-test" ∧
  @perform_ai_analysis table_lib bare_record VNone unset
    = (Ok (error_result "ChatGPT Analysis error: 'NoneType' object has no attribute 'get'"),
       unset) ∧
  calls (@perform_ai_analysis table_lib bare_record VNone unset).2 = [] ∧
  @perform_ai_analysis table_lib unscored VNone w
    = (Ok (error_result "ChatGPT Analysis error: list index out of range"), w) ∧
  calls (@perform_ai_analysis table_lib unscored VNone w).2 = [].
Proof. by vm_compute. Qed.






(** ** The shape of enrichment results *)

Lemma try_except_returns {A} (body : M A) (handler : exn → M A) (w : world) :
  (∀ e w0, ∃ a w1, handler e w0 = (Ok a, w1)) →
  ∃ a w', try_except body handler w = (Ok a, w').
Proof.
  intros Hh. rewrite try_except_run.
  destruct (body w) as [[a|e] w0]; [eauto | apply Hh].
Qed.

Lemma analyze_with_ollama_returns `{PyLib} cve_data component_context w :
  ∃ r w', analyze_with_ollama cve_data component_context w = (Ok r, w').
Proof.
  unfold analyze_with_ollama. rewrite bind_run. simpl.
  apply try_except_returns. intros e w0. destruct e; eauto.
Qed.

Lemma analyze_with_chatgpt_returns `{PyLib} cve_data component_context w :
  ∃ r w', analyze_with_chatgpt cve_data component_context w = (Ok r, w').
Proof.
  unfold analyze_with_chatgpt. rewrite bind_run. simpl.
  destruct (configured_key (ai_config w)); [| eauto].
  apply try_except_returns. eauto.
Qed.

(** Enrichment never raises. *)
Lemma perform_ai_analysis_returns `{PyLib} cve_data component_context w :
  ∃ r w', perform_ai_analysis cve_data component_context w = (Ok r, w').
Proof.
  unfold perform_ai_analysis. rewrite bind_run. simpl.
  destruct (String.eqb _ "ollama"); [apply analyze_with_ollama_returns |].
  destruct (String.eqb _ "chatgpt"); [apply analyze_with_chatgpt_returns | eauto].
Qed.

Lemma bind_inv {A B} (m : M A) (f : A → M B) w b w' :
  (m ≫= f) w = (Ok b, w') → ∃ a w0, m w = (Ok a, w0) ∧ f a w0 = (Ok b, w').
Proof.
  rewrite bind_run. destruct (m w) as [[a|e] w0]; [eauto | done].
Qed.

Lemma try_except_inv {A} (body : M A) (handler : exn → M A) w a w' :
  try_except body handler w = (Ok a, w') →
  body w = (Ok a, w') ∨ ∃ e w0, body w = (Raise e, w0) ∧ handler e w0 = (Ok a, w').
Proof.
  rewrite try_except_run. destruct (body w) as [[a0|e] w0]; [by left | right; eauto].
Qed.

Lemma ret_inv {A} (a b : A) w w' : (mret a : M A) w = (Ok b, w') → a = b ∧ w = w'.
Proof. by intros [= -> ->]. Qed.

Lemma lift_inv {A} (r : result A) b w w' : lift r w = (Ok b, w') → r = Ok b ∧ w = w'.
Proof. by intros [= -> ->]. Qed.

Lemma read_inv {A} (f : world → A) b w w' : read f w = (Ok b, w') → f w = b ∧ w = w'.
Proof. by intros [= -> ->]. Qed.

(** Takes a run that returned apart, statement by statement. *)
Ltac invert_run :=
  repeat match goal with
  | H : @mbind M _ _ _ _ _ _ = (Ok _, _) |- _ =>
      apply bind_inv in H; destruct H as (? & ? & ? & H)
  | H : try_except _ _ _ = (Ok _, _) |- _ =>
      apply try_except_inv in H; destruct H as [H | (? & ? & ? & H)]
  | H : @mret M _ _ _ _ = (Ok _, _) |- _ => apply ret_inv in H; destruct H as [? ?]; subst
  | H : lift _ _ = (Ok _, _) |- _ => apply lift_inv in H; destruct H as [? ?]; subst
  | H : read _ _ = (Ok _, _) |- _ => apply read_inv in H; destruct H as [? ?]; subst
  | H : raise _ _ = (Ok _, _) |- _ => discriminate H
  | H : (if ?b then _ else _) _ = (Ok _, _) |- _ => destruct b eqn:?
  | H : (match ?x with _ => _ end) _ = (Ok _, _) |- _ => destruct x eqn:?
  end.







(** ** Prompt builders and missing fields *)

























(** ** Records on which the extraction returns *)














(** ** Aggregation *)

Lemma after_fetch_record f c w : after_fetch f w (record c w).
Proof. by repeat split. Qed.

Lemma after_fetch_trans f w1 w2 w3 :
  after_fetch None w1 w2 → after_fetch f w2 w3 → after_fetch f w1 w3.
Proof.
  intros (? & ? & ? & ? & ? & Hfs1) (? & ? & ? & ? & ? & Hfs2).
  repeat split; try congruence.
  intros path Hp. rewrite Hfs2 by done. by apply Hfs1.
Qed.

(** A direct adapter: one request, then the parsed body on 200 and
    [otherwise] on any other status. *)
Lemma direct_fetch_run `{PyLib} (rq : http_request) (otherwise : result value) w :
  (send rq ≫= λ response,
     if Z.eqb response.1 200 then lift (loads response.2) else lift otherwise) w
  = (match httpx w rq with
     | Response code text => if Z.eqb code 200 then loads text else otherwise
     | HttpRaises e => Raise e
     end, record (HttpCall rq) w).
Proof.
  rewrite bind_run. unfold send.
  destruct (httpx w rq) as [code text | e]; [| reflexivity].
  simpl. by destruct (Z.eqb code 200).
Qed.

Lemma fetch_nvd_data_run `{PyLib} cve_id w :
  fetch_nvd_data cve_id w
  = (match httpx w (nvd_request cve_id) with
     | Response code text =>
         if Z.eqb code 200 then loads text
         else Raise (HTTPException 404 ("CVE " +:+ cve_id +:+ " not found"))
     | HttpRaises e => Raise e
     end, record (HttpCall (nvd_request cve_id)) w).
Proof. apply (direct_fetch_run (nvd_request cve_id)). Qed.

Lemma fetch_epss_data_run `{PyLib} cve_id w :
  fetch_epss_data cve_id w
  = (match httpx w (epss_request cve_id) with
     | Response code text =>
         if Z.eqb code 200 then loads text else Ok (VDict [("data", VList [])])
     | HttpRaises e => Raise e
     end, record (HttpCall (epss_request cve_id)) w).
Proof. apply (direct_fetch_run (epss_request cve_id)). Qed.

(** What a cached adapter returns depends on the clock, its own cache file,
    whether that file may be written, and upstream. *)
Lemma fetch_feed_view `{PyLib} (f : feed) (o : option feed) (w w' : world) :
  o ≠ Some f → after_fetch o w w' → (fetch_feed f w').1 = (fetch_feed f w).1.
Proof.
  intros Ho (Hnow & Hhttp & Hwr & _ & _ & Hfs).
  assert (Hfile : fs w' !! cache_file_of f = fs w !! cache_file_of f).
  { apply Hfs. destruct o as [g|]; [| done]. by destruct f, g. }
  rewrite !fetch_feed_run. unfold fresh. rewrite Hfile, Hnow.
  assert (Hlive : (refetch f w').1 = (refetch f w).1).
  { unfold refetch. rewrite Hhttp.
    destruct (httpx w (request_of f)) as [code text | e]; [| reflexivity].
    destruct (Z.eqb code 200); [| reflexivity].
    destruct (json_loads text); [| reflexivity].
    rewrite !bind_run. unfold write_file. simpl. rewrite Hwr.
    by destruct (fs_writable w (cache_file_of f)). }
  destruct (fs w !! cache_file_of f) as [file|] eqn:E; [| exact Hlive].
  destruct (bool_decide _); [| exact Hlive].
  rewrite !bind_run. unfold read_file. rewrite Hfile, E.
  by destruct (readable file).
Qed.

(** A cached adapter changes nothing but the call log and its own file. *)
Lemma fetch_feed_after `{PyLib} (f : feed) (w : world) :
  after_fetch (Some f) w (fetch_feed f w).2.
Proof.
  rewrite fetch_feed_run.
  assert (Hlive : after_fetch (Some f) w (refetch f w).2).
  { unfold refetch.
    destruct (httpx w (request_of f)) as [code text | e]; [| by repeat split].
    destruct (Z.eqb code 200); [| by repeat split].
    destruct (json_loads text); [| by repeat split].
    rewrite bind_run. unfold write_file. simpl.
    destruct (fs_writable w (cache_file_of f)); [| by repeat split].
    repeat split. intros path Hp. simpl.
    apply lookup_insert_ne. intros Heq. apply Hp. simpl. by rewrite Heq. }
  destruct (fresh f w); [| exact Hlive].
  rewrite bind_run. unfold read_file.
  destruct (fs w !! cache_file_of f) as [file|]; [| by repeat split].
  destruct (readable file); by repeat split.
Qed.

Lemma run_pair {A} (m : M A) w : m w = ((m w).1, (m w).2).
Proof. by destruct (m w). Qed.

Lemma lift_bind_run {A B} (r : result A) (f : A → M B) w :
  (lift r ≫= f) w = match r with Ok a => f a w | Raise e => (Raise e, w) end.
Proof. rewrite bind_run. unfold lift. by destruct r. Qed.








(** ** More on aggregation *)

(** [analyze_cve] once the four adapters have returned: the scans and the
    resolution of the component run on what they returned, then the AI
    analysis, if asked for, on the compiled record. *)
Lemma analyze_cve_after_fetches `{PyLib} (request : CVERequest) (w : world)
    (nvd epss kev_data advisories : value) :
  (fetch_nvd_data (cve_id request) w).1 = Ok nvd →
  (fetch_epss_data (cve_id request) w).1 = Ok epss →
  (fetch_feed KEV w).1 = Ok kev_data →
  (fetch_feed Advisories w).1 = Ok advisories →
  let id := cve_id request in
  let w4 := after_adapters id w in
  analyze_cve request w =
    match
      kev ← kev_entry_of id kev_data;
      github ← github_entry_of id advisories;
      comp ← component_context_of (component request) (system_context w);
      Ok (analysis_entries id nvd epss kev github comp, comp)
    with
    | Raise e => (Raise (HTTPException 500 (exn_str e)), w4)
    | Ok (data, comp) =>
        if ai_analysis request then
          match perform_ai_analysis (VDict data) (of_option comp) w4 with
          | (Ok ai_result, w5) =>
              (as_500 (JSONResponse (VDict (dict_set "ai_analysis" ai_result data))), w5)
          | (Raise e, w5) => (Raise (HTTPException 500 (exn_str e)), w5)
          end
        else (as_500 (JSONResponse (VDict data)), w4)
    end.
Proof.
  intros Hnvd Hepss Hkev Hadv id w4. subst id w4. unfold after_adapters.
  set (w1 := record (HttpCall (nvd_request (cve_id request))) w).
  set (w2 := record (HttpCall (epss_request (cve_id request))) w1).
  assert (H1 : fetch_nvd_data (cve_id request) w = (Ok nvd, w1)).
  { rewrite fetch_nvd_data_run in Hnvd |- *. simpl in Hnvd. by rewrite Hnvd. }
  assert (H2 : fetch_epss_data (cve_id request) w1 = (Ok epss, w2)).
  { rewrite fetch_epss_data_run in Hepss |- *. simpl in Hepss.
    change (httpx w1) with (httpx w). by rewrite Hepss. }
  assert (A2 : after_fetch None w w2) by by repeat split.
  set (w3 := (fetch_feed KEV w2).2).
  assert (H3 : fetch_kev_data w2 = (Ok kev_data, w3)).
  { change fetch_kev_data with (fetch_feed KEV). rewrite (run_pair (fetch_feed KEV) w2).
    by rewrite (fetch_feed_view KEV None w w2), Hkev. }
  assert (A3 : after_fetch (Some KEV) w w3).
  { apply (after_fetch_trans _ w w2); [exact A2 | apply fetch_feed_after]. }
  set (w4 := (fetch_feed Advisories w3).2).
  assert (H4 : fetch_github_advisories w3 = (Ok advisories, w4)).
  { change fetch_github_advisories with (fetch_feed Advisories).
    rewrite (run_pair (fetch_feed Advisories) w3).
    by rewrite (fetch_feed_view Advisories (Some KEV) w w3), Hadv. }
  assert (Hctx : system_context w4 = system_context w).
  { pose proof (fetch_feed_after Advisories w3) as (_ & _ & _ & E1 & _).
    destruct A3 as (_ & _ & _ & E2 & _). unfold w4. congruence. }
  unfold analyze_cve. rewrite try_except_run.
  rewrite (bind_ok _ _ _ _ _ H1), (bind_ok _ _ _ _ _ H2).
  rewrite (bind_ok _ _ _ _ _ H3), (bind_ok _ _ _ _ _ H4).
  unfold kev_entry_of, github_entry_of.
  repeat (rewrite lift_bind_run;
          match goal with
          | |- (let (_, _) := match ?r with Ok _ => _ | Raise _ => _ end in _) = _ =>
              destruct r
          end; cbn [mbind result_bind]; [| reflexivity]).
  rewrite bind_run. unfold read. rewrite Hctx. fold (component_context_of (component request) (system_context w)).
  rewrite lift_bind_run.
  destruct (component_context_of (component request) (system_context w)) as [comp|e];
    cbn [mbind result_bind]; [| reflexivity].
  unfold analysis_entries.
  destruct (ai_analysis request).
  - rewrite !bind_run.
    destruct (perform_ai_analysis _ _ w4) as [[ai_result|e] w5]; [| reflexivity].
    unfold lift. cbn [mret M_ret].
    match goal with |- context [JSONResponse ?v] => by destruct (JSONResponse v) end.
  - rewrite bind_run. unfold lift. cbn [mret M_ret].
    match goal with |- context [JSONResponse ?v] => by destruct (JSONResponse v) end.
Qed.

(** ** More on the cached feeds *)

Lemma fetch_feed_calls `{PyLib} (f : feed) (w : world) :
  calls (fetch_feed f w).2
  = calls w ++ (if fresh f w then [] else [HttpCall (request_of f)]).
Proof.
  rewrite fetch_feed_run. destruct (fresh f w).
  - rewrite bind_run. unfold read_file.
    destruct (fs w !! cache_file_of f) as [file|]; [| by rewrite app_nil_r].
    destruct (readable file); simpl; by rewrite app_nil_r.
  - apply refetch_calls.
Qed.

(** X1.  A fresh cache file that can be read and parsed is all a cached
    adapter looks at: it returns the parsed text and leaves the world as it
    was, so it makes no request and writes nothing, whatever upstream would
    have answered. *)
Theorem cache_hit_is_silent `{PyLib} (f : feed) (w : world) (file : file) (data : value) :
  fs w !! cache_file_of f = Some file →
  now w - mtime file < freshness_window →
  readable file = true →
  json_loads (content file) = Parsed data →
  fetch_feed f w = (Ok data, w) ∧
  ∀ upstream, fetch_feed f (with_httpx upstream w) = (Ok data, with_httpx upstream w).
Proof.
  intros Hfile Hage Hread Hparse.
  assert (Hhit : ∀ w0, fs w0 = fs w → now w0 = now w → fetch_feed f w0 = (Ok data, w0)).
  { intros w0 Hfs Hnow.
    assert (Hf : fresh f w0 = true) by (apply fresh_spec; rewrite Hfs, Hnow; eauto).
    rewrite fetch_feed_run, Hf, bind_run. unfold read_file. rewrite Hfs, Hfile, Hread.
    unfold lift, loads. by rewrite Hparse. }
  split; [by apply Hhit |]. intros upstream. by apply Hhit.
Qed.

Lemma cache_hit_is_silent_witness :
  let file := {| mtime := now offline - hour; content := plain_dumps kev_payload;
                 readable := true |} in
  let w := with_fs {[ "cache/kev.json" := file ]} offline in
  fs w !! cache_file_of KEV = Some file ∧
  now w - mtime file < freshness_window ∧
  table_loads (content file) = Parsed kev_payload ∧
  @fetch_kev_data table_lib w = (Ok kev_payload, w).
Proof.
  split; [by vm_compute |]. split; [by vm_compute |]. split; [by vm_compute |].
  refine (proj1 (@cache_hit_is_silent table_lib KEV
            (with_fs {[ "cache/kev.json" :=
                        {| mtime := now offline - hour; content := plain_dumps kev_payload;
                           readable := true |} ]} offline)
            {| mtime := now offline - hour; content := plain_dumps kev_payload;
               readable := true |}
            kev_payload _ _ _ _)); by vm_compute.
Defined.

(** X2.  When the cache of a feed is missing or stale and the live fetch
    delivers no payload, the files are left exactly as they were: a stale
    cache file is neither refreshed nor removed, nothing is written for the
    failure, and the next call asks upstream again. *)
Theorem failed_refetch_keeps_cache_file `{PyLib} (f : feed) (w : world) :
  fresh f w = false →
  undelivered (httpx w (request_of f)) →
  let w' := (fetch_feed f w).2 in
  w' = record (HttpCall (request_of f)) w ∧
  fs w' = fs w ∧
  fresh f w' = false ∧
  calls (fetch_feed f w').2 = calls w ++ [HttpCall (request_of f); HttpCall (request_of f)].
Proof.
  intros Hstale Hup. simpl.
  assert (Hw : (fetch_feed f w).2 = record (HttpCall (request_of f)) w).
  { rewrite fetch_feed_run, Hstale. unfold refetch.
    destruct (httpx w (request_of f)) as [code text | e]; [| reflexivity].
    destruct Hup as [Hcode | [msg Hbad]].
    - by destruct (Z.eqb_spec code 200).
    - rewrite Hbad. by destruct (Z.eqb code 200). }
  rewrite Hw. split; [reflexivity |]. split; [reflexivity |].
  split; [exact Hstale |].
  rewrite fetch_feed_calls. change (fresh f (record _ w)) with (fresh f w).
  rewrite Hstale. simpl. by rewrite <- app_assoc.
Qed.

Lemma failed_refetch_keeps_cache_file_witness :
  let stale := {| mtime := now offline - 5 * hour; content := plain_dumps kev_payload;
                  readable := true |} in
  let w := answering 503 "Service Unavailable" (with_fs {[ "cache/kev.json" := stale ]} offline) in
  fresh KEV w = false ∧
  @undelivered table_lib (httpx w (request_of KEV)) ∧
  (@fetch_kev_data table_lib w).1 = Ok (VDict [("vulnerabilities", VList [])]) ∧
  fs (@fetch_kev_data table_lib w).2 = fs w.
Proof.
  split; [by vm_compute |]. split; [left; done |]. split; [by vm_compute |].
  refine (proj1 (proj2 (@failed_refetch_keeps_cache_file table_lib KEV
            (answering 503 "Service Unavailable"
               (with_fs {[ "cache/kev.json" :=
                           {| mtime := now offline - 5 * hour;
                              content := plain_dumps kev_payload; readable := true |} ]}
                  offline)) _ _))); [by vm_compute | left; done].
Defined.

(** X3.  A cache file that cannot be written is fatal for the fetch: upstream
    answered 200 with a payload, the request is on record, and the adapter
    raises PermissionError instead of returning the payload. *)
Theorem cache_write_failure_aborts_fetch `{PyLib}
    (f : feed) (w : world) (text : string) (data : value) :
  fresh f w = false →
  httpx w (request_of f) = Response 200 text →
  json_loads text = Parsed data →
  fs_writable w (cache_file_of f) = false →
  fetch_feed f w =
    (Raise (PyError "PermissionError"
              ("[Errno 13] Permission denied: '" +:+ cache_file_of f +:+ "'")),
     record (HttpCall (request_of f)) w).
Proof.
  intros Hstale Hup Hparse Hwr.
  rewrite fetch_feed_run, Hstale. unfold refetch. rewrite Hup, Hparse. simpl.
  rewrite bind_run. unfold write_file. simpl. by rewrite Hwr.
Qed.

Lemma cache_write_failure_aborts_fetch_witness :
  let w := set_fs_writable (λ _, false) kev_online in
  fresh KEV w = false ∧
  httpx w (request_of KEV) = Response 200 (plain_dumps kev_payload) ∧
  table_loads (plain_dumps kev_payload) = Parsed kev_payload ∧
  @fetch_kev_data table_lib w =
    (Raise (PyError "PermissionError" "[Errno 13] Permission denied: 'cache/kev.json'"),
     record (HttpCall (request_of KEV)) w).
Proof.
  do 3 (split; [by vm_compute |]).
  refine (@cache_write_failure_aborts_fetch table_lib KEV (set_fs_writable (λ _, false) kev_online)
            (plain_dumps kev_payload) kev_payload _ _ _ _); by vm_compute.
Defined.

(** X4.  The two cached adapters do not interfere: whichever runs first, the
    other returns what it would have returned alone and finds its own cache
    file as it was. *)
Theorem cached_feeds_do_not_interfere `{PyLib} (w : world) :
  (fetch_feed Advisories (fetch_feed KEV w).2).1 = (fetch_feed Advisories w).1 ∧
  (fetch_feed KEV (fetch_feed Advisories w).2).1 = (fetch_feed KEV w).1 ∧
  fs (fetch_feed KEV w).2 !! cache_file_of Advisories = fs w !! cache_file_of Advisories ∧
  fs (fetch_feed Advisories w).2 !! cache_file_of KEV = fs w !! cache_file_of KEV.
Proof.
  split; [| split; [| split]].
  - apply (fetch_feed_view Advisories (Some KEV)); [done | apply fetch_feed_after].
  - apply (fetch_feed_view KEV (Some Advisories)); [done | apply fetch_feed_after].
  - destruct (fetch_feed_after KEV w) as (_ & _ & _ & _ & _ & Hfs). by apply Hfs.
  - destruct (fetch_feed_after Advisories w) as (_ & _ & _ & _ & _ & Hfs). by apply Hfs.
Qed.

(** X5.  [is_cache_valid] never raises and leaves the world alone.  Once it
    has answered False for a path, it keeps answering False as the clock moves
    on, until the file is rewritten; a file whose age is exactly the window
    is already invalid. *)
Theorem expired_cache_stays_expired (path : string) (hours : Z) (w w2 : world) :
  fs w2 !! path = fs w !! path →
  (now w ≤ now w2)%Z →
  is_cache_valid path hours w = (Ok false, w) →
  is_cache_valid path hours w2 = (Ok false, w2) ∧
  (∀ w0 file, fs w0 !! path = Some file → now w0 - mtime file = timedelta_hours hours →
     is_cache_valid path hours w0 = (Ok false, w0)) ∧
  (∀ w0, ∃ b, is_cache_valid path hours w0 = (Ok b, w0)).
Proof.
  assert (Hrun : ∀ w0, is_cache_valid path hours w0 =
            (Ok match fs w0 !! path with
                | Some file => bool_decide (now w0 - mtime file < timedelta_hours hours)
                | None => false
                end, w0)).
  { intros w0. unfold is_cache_valid, os_path_exists, os_path_getmtime, read.
    rewrite bind_run. simpl.
    destruct (fs w0 !! path) as [file|] eqn:E; simpl; [| reflexivity].
    rewrite bind_run, E. reflexivity. }
  intros Hfs Hclock Hexp. rewrite Hrun in Hexp. split; [| split].
  - rewrite Hrun, Hfs. destruct (fs w !! path) as [file|]; [| reflexivity].
    injection Hexp as Hexp. apply bool_decide_eq_false in Hexp.
    by rewrite bool_decide_eq_false_2 by lia.
  - intros w0 file Hfile Hage. rewrite Hrun, Hfile.
    by rewrite bool_decide_eq_false_2 by lia.
  - intros w0. rewrite Hrun. eauto.
Qed.

Lemma expired_cache_stays_expired_witness :
  let stale := {| mtime := now offline - 4 * hour; content := "{}"; readable := true |} in
  let w := with_fs {[ "cache/kev.json" := stale ]} offline in
  let w2 := set_now (now offline + hour) w in
  (now w ≤ now w2)%Z ∧
  is_cache_valid "cache/kev.json" 4 w = (Ok false, w) ∧
  is_cache_valid "cache/kev.json" 4 w2 = (Ok false, w2).
Proof.
  split; [by vm_compute |]. split; [by vm_compute |].
  refine (proj1 (expired_cache_stays_expired "cache/kev.json" 4
            (with_fs {[ "cache/kev.json" :=
                        {| mtime := now offline - 4 * hour; content := "{}";
                           readable := true |} ]} offline)
            (set_now (now offline + hour)
               (with_fs {[ "cache/kev.json" :=
                           {| mtime := now offline - 4 * hour; content := "{}";
                              readable := true |} ]} offline)) _ _ _)); by vm_compute.
Defined.

(** ** The scans of [analyze_cve] *)

Lemma find_first_some {A} (p : A → result bool) (l : list A) (a : A) :
  find_first p l = Ok (Some a) →
  ∃ pre post, l = pre ++ a :: post ∧ p a = Ok true ∧ Forall (λ x, p x = Ok false) pre.
Proof.
  induction l as [|x l IH]; simpl; [done |].
  destruct (p x) as [[|]|e] eqn:E; simpl; try done.
  - intros [= ->]. exists [], l. by repeat split.
  - intros Hfind. destruct (IH Hfind) as (pre & post & -> & Ha & Hpre).
    exists (x :: pre), post. repeat split; [done | by constructor].
Qed.

Lemma find_first_none {A} (p : A → result bool) (l : list A) :
  find_first p l = Ok None → Forall (λ x, p x = Ok false) l.
Proof.
  induction l as [|x l IH]; simpl; [by constructor |].
  destruct (p x) as [[|]|e] eqn:E; simpl; try done.
  intros Hfind. constructor; [done | by apply IH].
Qed.

Lemma find_first_skip {A} (p : A → result bool) (pre l : list A) :
  Forall (λ x, p x = Ok false) pre → find_first p (pre ++ l) = find_first p l.
Proof.
  induction 1 as [|x pre Hx _ IH]; simpl; [done |]. by rewrite Hx.
Qed.

(** X6.  The scan of the known-exploited list is an exact, case-sensitive
    match on [cveID], first hit wins.  A hit is an entry of the list whose
    [cveID] is the identifier, with only entries for other CVEs before it;
    no hit means every entry names another CVE (or none).  A list without the
    key [vulnerabilities] gives no hit. *)
Theorem kev_scan_finds_first_exact_match
    (cve_id : string) (d : list (string * value)) (vulns : list value) :
  dict_lookup "vulnerabilities" d = Some (VList vulns) →
  (∀ vuln, kev_entry_of cve_id (VDict d) = Ok (Some vuln) →
     ∃ pre post, vulns = pre ++ vuln :: post ∧
       py_get vuln "cveID" VNone = Ok (VStr cve_id) ∧
       Forall (names_other_cve cve_id) pre) ∧
  (kev_entry_of cve_id (VDict d) = Ok None → Forall (names_other_cve cve_id) vulns) ∧
  (∀ d', dict_lookup "vulnerabilities" d' = None → kev_entry_of cve_id (VDict d') = Ok None).
Proof.
  intros Hd.
  assert (Hp : ∀ x b, (py_get x "cveID" VNone ≫= λ id, Ok (eq_str id cve_id)) = Ok b →
                 ∃ c, py_get x "cveID" VNone = Ok c ∧ eq_str c cve_id = b).
  { intros x b. destruct (py_get x "cveID" VNone) as [c|e]; simpl; [| done].
    intros [= <-]. eauto. }
  assert (Hrun : kev_entry_of cve_id (VDict d) =
            find_first (λ vuln, id ← py_get vuln "cveID" VNone; Ok (eq_str id cve_id)) vulns).
  { unfold kev_entry_of. simpl. by rewrite Hd. }
  split; [| split].
  - intros vuln Hfind. rewrite Hrun in Hfind.
    destruct (find_first_some _ _ _ Hfind) as (pre & post & -> & Hhit & Hpre).
    exists pre, post. split; [done |]. split.
    + destruct (Hp _ _ Hhit) as (c & Hc & Heq). rewrite Hc. f_equal.
      destruct c; try done. simpl in Heq. apply String.eqb_eq in Heq. by subst.
    + eapply Forall_impl; [exact Hpre |]. intros x Hx. by apply Hp.
  - intros Hfind. rewrite Hrun in Hfind.
    eapply Forall_impl; [exact (find_first_none _ _ Hfind) |]. intros x Hx. by apply Hp.
  - intros d' Hd'. unfold kev_entry_of. simpl. by rewrite Hd'.
Qed.

Lemma kev_scan_finds_first_exact_match_witness :
  let d := [("title", VStr "CISA Catalog of Known Exploited Vulnerabilities");
            ("vulnerabilities",
             VList [VDict [("cveID", VStr "CVE-2021-44228"); ("vendorProject", VStr "Apache")]])] in
  dict_lookup "vulnerabilities" d
    = Some (VList [VDict [("cveID", VStr "CVE-2021-44228"); ("vendorProject", VStr "Apache")]]) ∧
  kev_entry_of "cve-2021-44228" (VDict d) = Ok None ∧
  Forall (names_other_cve "cve-2021-44228")
    [VDict [("cveID", VStr "CVE-2021-44228"); ("vendorProject", VStr "Apache")]].
Proof.
  split; [reflexivity |]. split; [reflexivity |].
  exact (proj1 (proj2 (kev_scan_finds_first_exact_match "cve-2021-44228"
           [("title", VStr "CISA Catalog of Known Exploited Vulnerabilities");
            ("vulnerabilities",
             VList [VDict [("cveID", VStr "CVE-2021-44228"); ("vendorProject", VStr "Apache")]])]
           [VDict [("cveID", VStr "CVE-2021-44228"); ("vendorProject", VStr "Apache")]]
           eq_refl)) eq_refl).
Defined.

(** X7.  The scan is lazy and unguarded.  After entries for other CVEs, an
    entry for the identifier is returned whatever follows it in the list,
    and an entry that is not a JSON object raises AttributeError, which ends
    the scan. *)
Theorem kev_scan_is_lazy_and_unguarded
    (cve_id : string) (pre post : list value) (entry : value) :
  Forall (names_other_cve cve_id) pre →
  let kev_data := VDict [("vulnerabilities", VList (pre ++ entry :: post))] in
  (py_get entry "cveID" VNone = Ok (VStr cve_id) →
     kev_entry_of cve_id kev_data = Ok (Some entry)) ∧
  ((∀ fields, entry ≠ VDict fields) →
     kev_entry_of cve_id kev_data
       = Raise (PyError "AttributeError"
                  ("'" +:+ type_name entry +:+ "' object has no attribute 'get'"))).
Proof.
  intros Hpre kev_data. subst kev_data. unfold kev_entry_of. simpl.
  assert (Hskip : Forall (λ x, (py_get x "cveID" VNone ≫= λ id, Ok (eq_str id cve_id)) = Ok false) pre).
  { eapply Forall_impl; [exact Hpre |]. intros x (c & -> & Hc). simpl. by rewrite Hc. }
  rewrite (find_first_skip _ _ _ Hskip). simpl. split.
  - intros ->. simpl. by rewrite String.eqb_refl.
  - intros Hnot. destruct entry; try reflexivity. by destruct (Hnot d).
Qed.

Lemma kev_scan_is_lazy_and_unguarded_witness :
  let other := VDict [("cveID", VStr "CVE-2020-0601")] in
  let hit := VDict [("cveID", VStr "CVE-2021-44228")] in
  Forall (names_other_cve "CVE-2021-44228") [other] ∧
  kev_entry_of "CVE-2021-44228"
    (VDict [("vulnerabilities", VList ([other] ++ hit :: [VStr "not an entry"]))])
    = Ok (Some hit) ∧
  kev_entry_of "CVE-2021-44228"
    (VDict [("vulnerabilities", VList ([other] ++ VStr "not an entry" :: [hit]))])
    = Raise (PyError "AttributeError" "'str' object has no attribute 'get'").
Proof.
  assert (Hother : Forall (names_other_cve "CVE-2021-44228")
                     [VDict [("cveID", VStr "CVE-2020-0601")]]).
  { constructor; [| constructor]. by exists (VStr "CVE-2020-0601"). }
  split; [exact Hother |]. split.
  - exact (proj1 (kev_scan_is_lazy_and_unguarded "CVE-2021-44228"
             [VDict [("cveID", VStr "CVE-2020-0601")]] [VStr "not an entry"]
             (VDict [("cveID", VStr "CVE-2021-44228")]) Hother) eq_refl).
  - exact (proj2 (kev_scan_is_lazy_and_unguarded "CVE-2021-44228"
             [VDict [("cveID", VStr "CVE-2020-0601")]] [VDict [("cveID", VStr "CVE-2021-44228")]]
             (VStr "not an entry") Hother) ltac:(done)).
Defined.

Lemma mapR_exists_str (f : value → result value) (l ys : list value) (s : string) :
  mapR f l = Ok ys →
  existsb (λ n, eq_str n s) ys = true ↔ ∃ x, x ∈ l ∧ f x = Ok (VStr s).
Proof.
  revert ys. induction l as [|x l IH]; simpl; intros ys.
  - intros [= <-]. simpl. split; [done |]. intros (x & Hx & _). by apply elem_of_nil in Hx.
  - destruct (f x) as [y|e] eqn:E; simpl; [| done].
    destruct (mapR f l) as [ys'|e] eqn:E'; simpl; [| done].
    intros [= <-]. simpl. rewrite orb_true_iff, (IH ys' eq_refl). split.
    + intros [Hy | (x' & Hx' & Hf)].
      * exists x. split; [by left |]. rewrite E. f_equal.
        destruct y; try done. simpl in Hy. apply String.eqb_eq in Hy. by subst.
      * exists x'. split; [by right | done].
    + intros (x' & Hx' & Hf). apply elem_of_cons in Hx' as [-> | Hx'].
      * left. rewrite E in Hf. injection Hf as ->. simpl. apply String.eqb_refl.
      * right. eauto.
Qed.

(** The test of one advisory in the scan. *)
Lemma advisory_test_spec (cve_id : string) (advisory : value) (b : bool) :
  (cves ← py_get advisory "cves" (VList []);
   cves ← py_iter cves;
   numbers ← mapR (λ cve, py_get cve "number" VNone) cves;
   Ok (existsb (λ n, eq_str n cve_id) numbers)) = Ok b →
  b = true ↔ links_cve cve_id advisory.
Proof.
  unfold links_cve.
  destruct (py_get advisory "cves" (VList [])) as [c|e]; simpl; [| done].
  destruct (py_iter c) as [cves|e]; simpl; [| done].
  destruct (mapR _ cves) as [numbers|e] eqn:E; simpl; [| done].
  intros [= <-]. rewrite (mapR_exists_str _ _ _ _ E). split.
  - intros Hex. eauto.
  - by intros (cves' & [= <-] & Hex).
Qed.

(** X8.  The scan of the advisory index returns the first advisory that links
    the identifier, that is, one of whose [cves] has the identifier as its
    [number], exactly; the advisories before it do not link it.  No hit
    means no advisory links it.  An advisory without [cves] links nothing. *)
Theorem advisory_scan_finds_first_linked_advisory
    (cve_id : string) (advisories : list value) :
  (∀ advisory, github_entry_of cve_id (VList advisories) = Ok (Some advisory) →
     ∃ pre post, advisories = pre ++ advisory :: post ∧
       links_cve cve_id advisory ∧ Forall (λ a, ¬ links_cve cve_id a) pre) ∧
  (github_entry_of cve_id (VList advisories) = Ok None →
     Forall (λ a, ¬ links_cve cve_id a) advisories) ∧
  (∀ fields, dict_lookup "cves" fields = None → ¬ links_cve cve_id (VDict fields)).
Proof.
  unfold github_entry_of. simpl.
  assert (Hmiss : ∀ l, Forall (λ x,
             (cves ← py_get x "cves" (VList []);
              cves ← py_iter cves;
              numbers ← mapR (λ cve, py_get cve "number" VNone) cves;
              Ok (existsb (λ n, eq_str n cve_id) numbers)) = Ok false) l →
           Forall (λ a, ¬ links_cve cve_id a) l).
  { intros l Hl. eapply Forall_impl; [exact Hl |]. intros a Ha Hlink.
    by apply (advisory_test_spec _ _ _ Ha) in Hlink. }
  split; [| split].
  - intros advisory Hfind.
    destruct (find_first_some _ _ _ Hfind) as (pre & post & -> & Hhit & Hpre).
    exists pre, post. split; [done |]. split; [| by apply Hmiss].
    by apply (advisory_test_spec _ _ _ Hhit).
  - intros Hfind. apply Hmiss. by apply find_first_none.
  - intros fields Hnone (cves & Hc & cve & Hin & _). simpl in Hc. rewrite Hnone in Hc.
    simpl in Hc. injection Hc as <-. by apply elem_of_nil in Hin.
Qed.

(** X9.  The component is resolved without regard to letter case: two
    requested names that agree after lowering resolve alike, and a resolved
    component has a string [name] that equals the requested name after
    lowering both.  No name or the empty name resolves to nothing, without
    looking at the system context. *)
Theorem component_resolution_ignores_case (name name' : string) (ctx : value) :
  name ≠ "" → name' ≠ "" → lower name = lower name' →
  component_context_of (Some name) ctx = component_context_of (Some name') ctx ∧
  (∀ comp, component_context_of (Some name) ctx = Ok (Some comp) →
     ∃ n, py_get comp "name" (VStr "") = Ok (VStr n) ∧ lower n = lower name) ∧
  component_context_of None ctx = Ok None ∧
  component_context_of (Some "") ctx = Ok None.
Proof.
  intros Hn Hn' Hlow.
  apply String.eqb_neq in Hn. apply String.eqb_neq in Hn'.
  split; [| split; [| split]]; try reflexivity.
  - unfold component_context_of. by rewrite Hn, Hn', Hlow.
  - intros comp. unfold component_context_of. rewrite Hn. simpl.
    destruct (truthy ctx); [| done].
    destruct (py_get ctx "components" (VList [])) as [comps|e]; simpl; [| done].
    destruct (py_iter comps) as [l|e]; simpl; [| done].
    intros Hfind. destruct (find_first_some _ _ _ Hfind) as (_ & _ & _ & Hhit & _).
    destruct (py_get comp "name" (VStr "")) as [n|e]; simpl in *; [| done].
    destruct n; try done. simpl in Hhit. injection Hhit as Hhit.
    apply String.eqb_eq in Hhit. eauto.
Qed.

Lemma component_resolution_ignores_case_witness :
  let web := VDict [("name", VStr "Web-Server"); ("description", VStr "nginx reverse proxy")] in
  let ctx := VDict [("components", VList [VDict [("name", VStr "Database")]; web])] in
  "WEB-server" ≠ "" ∧ "web-SERVER" ≠ "" ∧ lower "WEB-server" = lower "web-SERVER" ∧
  component_context_of (Some "WEB-server") ctx = Ok (Some web) ∧
  component_context_of (Some "web-SERVER") ctx = Ok (Some web).
Proof.
  split; [done |]. split; [done |]. split; [reflexivity |]. split; [reflexivity |].
  rewrite <- (proj1 (component_resolution_ignores_case "WEB-server" "web-SERVER"
    (VDict [("components", VList [VDict [("name", VStr "Database")];
       VDict [("name", VStr "Web-Server"); ("description", VStr "nginx reverse proxy")]])])
    ltac:(done) ltac:(done) eq_refl)).
  reflexivity.
Defined.

Lemma advisory_scan_witness :
  let advisory := VDict [("ghsa_id", VStr "GHSA-jfh8-c2jp-5v3q");
                         ("cves", VList [VDict [("number", VStr "CVE-2021-44228")]])] in
  github_entry_of log4shell (VList [advisory]) = Ok (Some advisory) ∧
  ∃ pre post, [advisory] = pre ++ advisory :: post ∧
    links_cve log4shell advisory ∧ Forall (λ a, ¬ links_cve log4shell a) pre.
Proof.
  split; [reflexivity |].
  exact (proj1 (advisory_scan_finds_first_linked_advisory log4shell
           [VDict [("ghsa_id", VStr "GHSA-jfh8-c2jp-5v3q");
                   ("cves", VList [VDict [("number", VStr "CVE-2021-44228")]])]]) _ eq_refl).
Defined.

(** ** The analysis endpoint as a whole *)

(** X10.  [analyze_cve] raises nothing but HTTPException 500.  In particular
    the not-found error of the primary database does not reach the client as
    a 404: for any status other than 200 the endpoint raises a 500 whose
    detail is the text of the 404, after the one request to the primary
    database and no other. *)
Theorem analyze_cve_raises_only_500 `{PyLib} (request : CVERequest) (w : world) :
  (∀ e w', analyze_cve request w = (Raise e, w') → ∃ detail, e = HTTPException 500 detail) ∧
  (∀ code text,
     httpx w (nvd_request (cve_id request)) = Response code text → code ≠ 200 →
     analyze_cve request w =
       (Raise (HTTPException 500 ("404: CVE " +:+ cve_id request +:+ " not found")),
        record (HttpCall (nvd_request (cve_id request))) w)).
Proof.
  split.
  - intros e w'. unfold analyze_cve. rewrite try_except_run.
    match goal with |- context [match ?m w with _ => _ end] => destruct (m w) as [[r|e0] w0] end;
      [done |].
    intros [= <- <-]. eauto.
  - intros code text Hup Hcode. unfold analyze_cve.
    rewrite try_except_run, bind_run, fetch_nvd_data_run, Hup.
    by destruct (Z.eqb_spec code 200).
Qed.

Lemma analyze_cve_raises_only_500_witness :
  let w := answering 404 "" offline in
  httpx w (nvd_request log4shell) = Response 404 "" ∧ 404 ≠ 200 ∧
  @analyze_cve table_lib log4shell_request w =
    (Raise (HTTPException 500 "404: CVE CVE-2021-44228 not found"),
     record (HttpCall (nvd_request log4shell)) w).
Proof.
  split; [reflexivity |]. split; [done |].
  exact (proj2 (@analyze_cve_raises_only_500 table_lib log4shell_request (answering 404 "" offline))
           404 "" eq_refl ltac:(done)).
Defined.

(** X11.  Every record [analyze_cve] returns has the same seven entries in
    the same order; [cve_id] is the identifier of the request, unchanged, and
    [ai_analysis] is None unless the request asked for the analysis.  No
    returned record holds a float that JSON cannot write. *)
Theorem analyze_cve_record_shape `{PyLib} (request : CVERequest) (w w' : world) (r : value) :
  analyze_cve request w = (Ok r, w') →
  ∃ nvd epss kev github component ai,
    r = VDict [("cve_id", VStr (cve_id request)); ("nvd", nvd); ("epss", epss);
               ("kev", kev); ("github", github); ("component", component);
               ("ai_analysis", ai)] ∧
    (ai_analysis request = false → ai = VNone) ∧
    finite r = true.
Proof.
  unfold analyze_cve. intros Hrun.
  apply try_except_inv in Hrun as [Hrun | (e & w0 & _ & Hrun)]; [| done].
  invert_run.
  all: match goal with
       | Hj : JSONResponse ?v = Ok ?r |- _ =>
           unfold JSONResponse in Hj; destruct (finite v) eqn:Hfin; [| done];
           injection Hj as <-
       end.
  all: eexists _, _, _, _, _, _; (split; [reflexivity |]); split; [done || eauto | exact Hfin].
Qed.

Lemma analyze_cve_record_shape_witness :
  let w := feeds_world (Response 200 (plain_dumps nvd_payload))
             (Response 200 (plain_dumps epss_payload))
             (Response 200 (plain_dumps kev_payload))
             (Response 200 (plain_dumps advisories_payload)) in
  let r := plain_record log4shell nvd_payload epss_payload
             (VDict [("cveID", VStr "CVE-2021-44228"); ("vendorProject", VStr "Apache")])
             (VDict [("ghsa_id", VStr "GHSA-jfh8-c2jp-5v3q");
                     ("cves", VList [VDict [("number", VStr "CVE-2021-44228")]])]) in
  (@analyze_cve table_lib log4shell_request w).1 = Ok r ∧
  ∃ nvd epss kev github component ai,
    r = VDict [("cve_id", VStr log4shell); ("nvd", nvd); ("epss", epss);
               ("kev", kev); ("github", github); ("component", component);
               ("ai_analysis", ai)] ∧
    (ai_analysis log4shell_request = false → ai = VNone) ∧
    finite r = true.
Proof.
  split; [by vm_compute |].
  refine (@analyze_cve_record_shape table_lib log4shell_request
            (feeds_world (Response 200 (plain_dumps nvd_payload))
               (Response 200 (plain_dumps epss_payload))
               (Response 200 (plain_dumps kev_payload))
               (Response 200 (plain_dumps advisories_payload)))
            (@analyze_cve table_lib log4shell_request
               (feeds_world (Response 200 (plain_dumps nvd_payload))
                  (Response 200 (plain_dumps epss_payload))
                  (Response 200 (plain_dumps kev_payload))
                  (Response 200 (plain_dumps advisories_payload)))).2
            _ _).
  by vm_compute.
Defined.

Lemma after_adapters_calls `{PyLib} (cve_id : string) (w : world) :
  calls (after_adapters cve_id w)
  = calls w ++ [HttpCall (nvd_request cve_id); HttpCall (epss_request cve_id)]
      ++ (if fresh KEV w then [] else [HttpCall (request_of KEV)])
      ++ (if fresh Advisories w then [] else [HttpCall (request_of Advisories)]).
Proof.
  unfold after_adapters.
  set (w2 := record (HttpCall (epss_request cve_id)) (record (HttpCall (nvd_request cve_id)) w)).
  assert (A3 : after_fetch (Some KEV) w (fetch_feed KEV w2).2).
  { apply (after_fetch_trans _ w w2); [by repeat split | apply fetch_feed_after]. }
  assert (Hfresh : fresh Advisories (fetch_feed KEV w2).2 = fresh Advisories w).
  { destruct A3 as (Hnow & _ & _ & _ & _ & Hfs). unfold fresh. by rewrite Hnow, Hfs. }
  rewrite !fetch_feed_calls, Hfresh. change (fresh KEV w2) with (fresh KEV w).
  simpl. by rewrite <- !app_assoc.
Qed.

(** X12.  Without AI analysis the endpoint talks to the four feeds and to
    nothing else.  When the four adapters return, the requests on record are
    the primary database, the exploit score, and then the known-exploited
    list and the advisory index, each only if its cache file is not fresh,
    in that order, whatever the scans and the component resolution do
    afterwards. *)
Theorem analyze_cve_call_log_without_ai `{PyLib} (request : CVERequest) (w : world)
    (nvd epss kev_data advisories : value) :
  ai_analysis request = false →
  (fetch_nvd_data (cve_id request) w).1 = Ok nvd →
  (fetch_epss_data (cve_id request) w).1 = Ok epss →
  (fetch_feed KEV w).1 = Ok kev_data →
  (fetch_feed Advisories w).1 = Ok advisories →
  calls (analyze_cve request w).2
  = calls w ++ [HttpCall (nvd_request (cve_id request)); HttpCall (epss_request (cve_id request))]
      ++ (if fresh KEV w then [] else [HttpCall (request_of KEV)])
      ++ (if fresh Advisories w then [] else [HttpCall (request_of Advisories)]).
Proof.
  intros Hai Hnvd Hepss Hkev Hadv.
  rewrite (analyze_cve_after_fetches request w nvd epss kev_data advisories) by done.
  rewrite Hai, <- after_adapters_calls.
  match goal with |- context [match ?x with Ok _ => _ | Raise _ => _ end] => destruct x as [[data comp]|e] end;
    reflexivity.
Qed.

Lemma analyze_cve_call_log_witness :
  let cached := {| mtime := now offline - hour; content := plain_dumps kev_payload;
                   readable := true |} in
  let w := with_fs {[ "cache/kev.json" := cached ]}
             (feeds_world (Response 200 (plain_dumps nvd_payload))
                (Response 200 (plain_dumps epss_payload))
                (Response 500 "")
                (Response 200 (plain_dumps advisories_payload))) in
  (@fetch_nvd_data table_lib log4shell w).1 = Ok nvd_payload ∧
  (@fetch_epss_data table_lib log4shell w).1 = Ok epss_payload ∧
  (@fetch_feed table_lib KEV w).1 = Ok kev_payload ∧
  (@fetch_feed table_lib Advisories w).1 = Ok advisories_payload ∧
  calls (@analyze_cve table_lib log4shell_request w).2
  = [HttpCall (nvd_request log4shell); HttpCall (epss_request log4shell);
     HttpCall (request_of Advisories)].
Proof.
  do 4 (split; [by vm_compute |]).
  rewrite (@analyze_cve_call_log_without_ai table_lib log4shell_request _
             nvd_payload epss_payload kev_payload advisories_payload eq_refl);
    by vm_compute.
Defined.

(** X13.  Enrichment only adds to the record and cannot abort the
    aggregation.  If the request without AI analysis returns a record, then
    the same request with AI analysis runs [perform_ai_analysis] on that very
    record, in the world the aggregation left, and returns the record with
    the result stored under [ai_analysis]; the result is always there, since
    enrichment does not raise.  Only a result holding a float that JSON
    cannot write turns the response into a 500. *)
Theorem enrichment_extends_the_record `{PyLib}
    (request : CVERequest) (w w4 : world) (data : list (string * value)) :
  analyze_cve (with_ai_analysis false request) w = (Ok (VDict data), w4) →
  ∃ ai_result w5,
    perform_ai_analysis (VDict data) (default VNone (dict_lookup "component" data)) w4
      = (Ok ai_result, w5) ∧
    analyze_cve (with_ai_analysis true request) w
      = (as_500 (JSONResponse (VDict (dict_set "ai_analysis" ai_result data))), w5).
Proof.
  unfold analyze_cve. simpl. intros Hrun.
  apply try_except_inv in Hrun as [Hrun | (e & w0 & _ & Hrun)]; [| done].
  invert_run.
  match goal with
  | Hj : JSONResponse ?v = Ok _ |- _ =>
      unfold JSONResponse in Hj; destruct (finite v); [| done]; injection Hj as <-
  end.
  simpl dict_lookup. simpl default.
  match goal with
  | |- ∃ _ _, perform_ai_analysis ?r ?c ?w0 = _ ∧ _ =>
      destruct (perform_ai_analysis_returns r c w0) as (ai_result & w5 & Hai)
  end.
  exists ai_result, w5. split; [exact Hai |].
  rewrite try_except_run.
  repeat match goal with
         | Hm : ?m ?w0 = (Ok _, _) |- context [(?m ≫= _) ?w0] => rewrite (bind_ok _ _ _ _ _ Hm)
         end.
  repeat (rewrite lift_bind_run;
          match goal with
          | Hr : ?r = Ok _ |- context [match ?r with Ok _ => _ | Raise _ => _ end] => rewrite Hr
          end).
  rewrite bind_run. unfold read.
  rewrite lift_bind_run.
  match goal with
  | Hr : ?r = Ok _ |- context [match ?r with Ok _ => _ | Raise _ => _ end] => rewrite Hr
  end.
  rewrite !bind_run, Hai. unfold lift. cbn [mret M_ret]. simpl dict_set.
  match goal with |- context [JSONResponse ?v] => by destruct (JSONResponse v) end.
Qed.

Lemma enrichment_extends_the_record_witness :
  let w := feeds_world (Response 200 (plain_dumps nvd_payload))
             (Response 200 (plain_dumps epss_payload))
             (Response 404 "") (Response 404 "") in
  let data := analysis_entries log4shell nvd_payload epss_payload None None None in
  (@analyze_cve table_lib (with_ai_analysis false log4shell_request) w).1 = Ok (VDict data) ∧
  (@analyze_cve table_lib (with_ai_analysis true log4shell_request) w).1
    = Ok (VDict (dict_set "ai_analysis" (error_result missing_key_message) data)).
Proof.
  split; [by vm_compute |].
  destruct (@enrichment_extends_the_record table_lib log4shell_request
              (feeds_world (Response 200 (plain_dumps nvd_payload))
                 (Response 200 (plain_dumps epss_payload))
                 (Response 404 "") (Response 404 ""))
              (@analyze_cve table_lib (with_ai_analysis false log4shell_request)
                 (feeds_world (Response 200 (plain_dumps nvd_payload))
                    (Response 200 (plain_dumps epss_payload))
                    (Response 404 "") (Response 404 ""))).2
              (analysis_entries log4shell nvd_payload epss_payload None None None)
              ltac:(by vm_compute)) as (ai_result & w5 & Hai & Hrun).
  rewrite Hrun. vm_compute in Hai. injection Hai as <- _. by vm_compute.
Defined.

(** ** Enrichment through Ollama *)

(** The run of [analyze_with_ollama] once the prompt is built: the tags
    request and the connection check, then the generate request. *)
Lemma analyze_with_ollama_run `{PyLib} cve_data component_context w prompt :
  create_analysis_prompt cve_data component_context w = (Ok prompt, w) →
  let cfg := ai_config w in
  let w1 := record (HttpCall (ollama_tags_request cfg)) w in
  analyze_with_ollama cve_data component_context w =
    match ollama_check cfg (httpx w (ollama_tags_request cfg)) with
    | Some v => (Ok v, w1)
    | None =>
        (Ok (ollama_generated cfg (httpx w (ollama_generate_request cfg prompt))),
         record (HttpCall (ollama_generate_request cfg prompt)) w1)
    end.
Proof.
  intros Hprompt. simpl.
  unfold analyze_with_ollama. rewrite bind_run. simpl.
  rewrite try_except_run, bind_run, Hprompt.
  rewrite bind_run, try_except_run, bind_run.
  unfold client_get, send. fold (ollama_tags_request (ai_config w)).
  unfold ollama_check.
  destruct (httpx w (ollama_tags_request (ai_config w))) as [code text | e]; [| reflexivity].
  simpl. destruct (Z.eqb code 200); [| reflexivity]. simpl.
  unfold ollama_available_models.
  assert (Hgen : ∀ w1,
    httpx w1 = httpx w →
    (let (r, w') :=
       (client_post (ollama_url (ai_config w) +:+ "/api/generate")
          (VDict [("model", VStr (model_name (ai_config w)));
                  ("prompt", VStr prompt); ("stream", VBool false);
                  ("options", VDict [("temperature", VFloat "0.7"); ("top_p", VFloat "0.9")])])
        ≫= λ response : Z * string,
             if Z.eqb response.1 200 then
               lift (loads response.2) ≫= λ result0,
               lift (py_get result0 "response" (VStr "")) ≫= λ response_text,
               lift (py_len response_text) ≫= λ _ : Z,
               mret (if truthy response_text then response_text
                     else VStr "Analysis completed but no response received")
             else mret (VStr ("Ollama API error: HTTP " +:+ pretty response.1
                              +:+ " - " +:+ response.2))) w1 in
     match r with
     | Ok a => (Ok a, w')
     | Raise e =>
         match e return M value with
         | TimeoutException _ =>
             mret (VStr "AI Analysis timeout. The analysis is taking longer than expected. Try with a smaller model or increase timeout.")
         | ConnectError _ =>
             mret (VStr ("Cannot connect to Ollama at " +:+ ollama_url (ai_config w)
                         +:+ ". Please ensure Ollama is running and accessible."))
         | _ => mret (VStr ("AI Analysis error: " +:+ exn_str e))
         end w'
     end)
    = (Ok (ollama_generated (ai_config w)
             (httpx w (ollama_generate_request (ai_config w) prompt))),
       record (HttpCall (ollama_generate_request (ai_config w) prompt)) w1)).
  { intros w1 Hhttp. rewrite bind_run. unfold client_post, send.
    fold (ollama_generate_request (ai_config w) prompt). rewrite Hhttp.
    unfold ollama_generated.
    destruct (httpx w (ollama_generate_request (ai_config w) prompt)) as [c t | e];
      [| by destruct e].
    simpl. destruct (Z.eqb c 200); [| reflexivity].
    repeat (rewrite lift_bind_run;
            match goal with
            | |- (let (_, _) := match ?r with Ok _ => _ | Raise _ => _ end in _) = _ =>
                destruct r as [?|e]
            end; cbn [mbind result_bind]; [| by destruct e]).
    reflexivity. }
  repeat (rewrite lift_bind_run;
          match goal with
          | |- (let (_, _) := let (_, _) := let (_, _) :=
                  match ?r with Ok _ => _ | Raise _ => _ end in _ in _ in _) = _ =>
              destruct r as [?|e]
          end; cbn [mbind result_bind]; [| reflexivity]).
  match goal with |- context [existsb ?p ?l] => destruct (existsb p l) end; cbn [negb].
  - cbn [mret M_ret]. by apply Hgen.
  - rewrite lift_bind_run. simpl truthy.
    match goal with
    | |- context [match (if ?c then ?a else ?b) with Ok _ => _ | Raise _ => _ end] =>
        destruct (if c then a else b)
    end; reflexivity.
Qed.

(** X14.  [analyze_with_ollama] never raises and never retries: it returns a
    value after no request (the prompt could not be built), after the tags
    request alone, or after the tags request followed by one generate
    request that carries the model, the prompt, no streaming and the
    sampling options. *)
Theorem ollama_returns_after_at_most_two_requests `{PyLib}
    (cve_data component_context : value) (w : world) :
  ∃ r w',
    analyze_with_ollama cve_data component_context w = (Ok r, w') ∧
    (calls w' = calls w ∨
     calls w' = calls w ++ [HttpCall (ollama_tags_request (ai_config w))] ∨
     ∃ prompt,
       create_analysis_prompt cve_data component_context w = (Ok prompt, w) ∧
       calls w' = calls w ++ [HttpCall (ollama_tags_request (ai_config w));
                              HttpCall (ollama_generate_request (ai_config w) prompt)]).
Proof.
  pose proof (create_analysis_prompt_pure cve_data component_context w) as Hpure.
  destruct (create_analysis_prompt cve_data component_context w) as [[prompt|e] w0] eqn:Hprompt;
    simpl in Hpure; subst w0.
  - rewrite (analyze_with_ollama_run _ _ _ _ Hprompt).
    destruct (ollama_check _ _) as [v|].
    + eexists _, _. split; [reflexivity |]. right. by left.
    + eexists _, _. split; [reflexivity |]. right. right. exists prompt. split; [done |].
      simpl. by rewrite <- app_assoc.
  - exists (ollama_failed (ai_config w) e), w. split; [| by left].
    unfold analyze_with_ollama. rewrite bind_run. simpl.
    rewrite try_except_run, bind_run, Hprompt. by destruct e.
Qed.

Lemma str_join_strings (sep : string) (names : list string) :
  str_join sep (VStr <$> names) = Ok (join sep names).
Proof.
  unfold str_join. generalize 0%nat.
  induction names as [|s names IH]; intros i; [reflexivity |].
  destruct names as [|s' names]; [reflexivity |].
  specialize (IH (S i)).
  change (str_join_from i sep (VStr <$> s :: s' :: names))
    with (tail ← str_join_from (S i) sep (VStr <$> s' :: names); Ok (s +:+ sep +:+ tail)).
  by rewrite IH.
Qed.

Lemma existsb_eq_str_strings (names : list string) (s : string) :
  existsb (λ m, eq_str m s) (VStr <$> names) = bool_decide (s ∈ names).
Proof.
  induction names as [|n names IH]; [done |].
  change (existsb (λ m, eq_str m s) (VStr <$> n :: names))
    with (String.eqb n s || existsb (λ m, eq_str m s) (VStr <$> names)).
  rewrite IH. destruct (String.eqb_spec n s) as [-> | Hne]; simpl.
  - by rewrite bool_decide_eq_true_2 by left.
  - apply bool_decide_ext. rewrite elem_of_cons. split; [by right |].
    intros [Heq | Hin]; [by subst | done].
Qed.

(** X15.  A connection check that fails ends the analysis after the tags
    request alone.  A status other than 200 gives the text that the service
    is not running.  Any exception of the request, a timeout included, gives
    the text that Ollama cannot be reached, with the text of the exception.
    When the service answers but does not list the configured model, the
    text names the model and lists the models that are there, or None. *)
Theorem ollama_check_failures_skip_generation `{PyLib}
    (cve_data component_context : value) (w : world) (prompt : string) :
  create_analysis_prompt cve_data component_context w = (Ok prompt, w) →
  let cfg := ai_config w in
  let w1 := record (HttpCall (ollama_tags_request cfg)) w in
  (∀ code text, httpx w (ollama_tags_request cfg) = Response code text → code ≠ 200 →
     analyze_with_ollama cve_data component_context w = (Ok ollama_not_running, w1)) ∧
  (∀ e, httpx w (ollama_tags_request cfg) = HttpRaises e →
     analyze_with_ollama cve_data component_context w = (Ok (ollama_check_failed cfg e), w1)) ∧
  (∀ text names, httpx w (ollama_tags_request cfg) = Response 200 text →
     ollama_available_models text = Ok (VStr <$> names) → model_name cfg ∉ names →
     analyze_with_ollama cve_data component_context w
       = (Ok (ollama_model_missing cfg
                (match names with [] => "None" | _ => join ", " names end)), w1)).
Proof.
  intros Hprompt cfg w1. subst cfg w1.
  rewrite (analyze_with_ollama_run _ _ _ _ Hprompt).
  split; [| split].
  - intros code text -> Hcode. simpl. by destruct (Z.eqb_spec code 200).
  - by intros e ->.
  - intros text names -> Hmodels Hmissing. simpl. rewrite Hmodels.
    rewrite existsb_eq_str_strings, bool_decide_eq_false_2 by done. simpl.
    destruct names as [|n names]; [reflexivity |].
    by rewrite (str_join_strings ", " (n :: names)).
Qed.

Lemma ollama_check_failures_witness :
  let w := ollama_world (HttpRaises (TimeoutException "timed out")) (Response 200 ollama_answer) in
  @create_analysis_prompt table_lib bare_record VNone w = (Ok bare_narrative_prompt, w) ∧
  @analyze_with_ollama table_lib bare_record VNone w
    = (Ok (VStr "Cannot connect to Ollama at http://localhost:11434. Please check if Ollama is running. Error: timed out"),
       record (HttpCall (ollama_tags_request (ai_config w))) w).
Proof.
  split; [by vm_compute |].
  exact (proj1 (proj2 (@ollama_check_failures_skip_generation table_lib bare_record VNone
           (ollama_world (HttpRaises (TimeoutException "timed out")) (Response 200 ollama_answer))
           bare_narrative_prompt ltac:(by vm_compute)))
         (TimeoutException "timed out") eq_refl).
Defined.

(** X16.  Once the connection check has passed, the answer to the generate
    request decides, after exactly two requests.  A timeout, a connection
    error and any other exception each give their own text.  A status other
    than 200 gives the status and the body.  Status 200 gives the text under
    [response], and the text that no response was received when it is empty
    or missing. *)
Theorem ollama_generate_outcomes `{PyLib}
    (cve_data component_context : value) (w : world) (prompt tags : string)
    (available : list value) :
  create_analysis_prompt cve_data component_context w = (Ok prompt, w) →
  let cfg := ai_config w in
  let generate := ollama_generate_request cfg prompt in
  httpx w (ollama_tags_request cfg) = Response 200 tags →
  ollama_available_models tags = Ok available →
  existsb (λ m, eq_str m (model_name cfg)) available = true →
  let returns (v : value) :=
    analyze_with_ollama cve_data component_context w
    = (Ok v, record (HttpCall generate) (record (HttpCall (ollama_tags_request cfg)) w)) in
  (∀ msg, httpx w generate = HttpRaises (TimeoutException msg) →
     returns (VStr "AI Analysis timeout. The analysis is taking longer than expected. Try with a smaller model or increase timeout.")) ∧
  (∀ msg, httpx w generate = HttpRaises (ConnectError msg) →
     returns (VStr ("Cannot connect to Ollama at " +:+ ollama_url cfg
                    +:+ ". Please ensure Ollama is running and accessible."))) ∧
  (∀ cls msg, httpx w generate = HttpRaises (PyError cls msg) →
     returns (VStr ("AI Analysis error: " +:+ msg))) ∧
  (∀ code text, httpx w generate = Response code text → code ≠ 200 →
     returns (VStr ("Ollama API error: HTTP " +:+ pretty code +:+ " - " +:+ text))) ∧
  (∀ text reply s, httpx w generate = Response 200 text → json_loads text = Parsed reply →
     py_get reply "response" (VStr "") = Ok (VStr s) →
     returns (VStr (if String.eqb s "" then "Analysis completed but no response received"
                    else s))).
Proof.
  intros Hprompt cfg generate Htags Hmodels Hlisted returns.
  subst returns generate cfg.
  rewrite (analyze_with_ollama_run _ _ _ _ Hprompt).
  unfold ollama_check. rewrite Htags. simpl. rewrite Hmodels, Hlisted. simpl.
  split; [| split; [| split; [| split]]].
  - by intros msg ->.
  - by intros msg ->.
  - by intros cls msg ->.
  - intros code text -> Hcode. simpl. by destruct (Z.eqb_spec code 200).
  - intros text reply s -> Hparse Hresp. simpl. unfold loads. rewrite Hparse. simpl.
    rewrite Hresp. simpl. by destruct (String.eqb s "").
Qed.

Lemma ollama_generate_outcomes_witness :
  let w := ollama_world (Response 200 ollama_tags) (Response 502 "Bad Gateway") in
  @create_analysis_prompt table_lib bare_record VNone w = (Ok bare_narrative_prompt, w) ∧
  httpx w (ollama_tags_request (ai_config w)) = Response 200 ollama_tags ∧
  @ollama_available_models table_lib ollama_tags = Ok [VStr "llama3"] ∧
  (@analyze_with_ollama table_lib bare_record VNone w).1
    = Ok (VStr "Ollama API error: HTTP 502 - Bad Gateway").
Proof.
  split; [by vm_compute |]. split; [by vm_compute |]. split; [by vm_compute |].
  rewrite (proj1 (proj2 (proj2 (proj2 (@ollama_generate_outcomes table_lib bare_record VNone
             (ollama_world (Response 200 ollama_tags) (Response 502 "Bad Gateway"))
             bare_narrative_prompt ollama_tags [VStr "llama3"]
             ltac:(by vm_compute) ltac:(by vm_compute) ltac:(by vm_compute) eq_refl))))
           502 "Bad Gateway" eq_refl ltac:(done)).
  by vm_compute.
Defined.

(** ** More on enrichment through the OpenAI SDK *)

(** X17.  [analyze_with_chatgpt] never raises and makes at most two calls:
    none without a key or without a prompt, the responses call alone when it
    returns text, and the responses call followed by one chat completions
    call otherwise.  No call is ever repeated. *)
Theorem chatgpt_returns_after_at_most_two_calls `{PyLib}
    (cve_data component_context : value) (w : world) :
  ∃ r w',
    analyze_with_chatgpt cve_data component_context w = (Ok r, w') ∧
    (calls w' = calls w ∨
     ∃ key prompt,
       configured_key (ai_config w) = Some key ∧
       create_analysis_prompt_json cve_data component_context w = (Ok prompt, w) ∧
       let first := ResponsesCreate key (model_name (ai_config w)) prompt in
       let second :=
         ChatCompletionsCreate key (chat_request_for (model_name (ai_config w)) prompt) in
       calls w' = calls w ++ [first] ∨ calls w' = calls w ++ [first; second]).
Proof.
  destruct (configured_key (ai_config w)) as [key|] eqn:Hkey.
  - pose proof (create_analysis_prompt_json_pure cve_data component_context w) as Hpure.
    destruct (create_analysis_prompt_json cve_data component_context w)
      as [[prompt|e] w0] eqn:Hprompt; simpl in Hpure; subst w0.
    + rewrite (analyze_with_chatgpt_run _ _ _ _ _ Hkey Hprompt). simpl.
      set (w1 := record (ResponsesCreate key (model_name (ai_config w)) prompt) w).
      destruct (chat_fallback_returns key (model_name (ai_config w)) prompt w1) as [r Hr].
      destruct (openai_responses w key (model_name (ai_config w)) prompt) as [[content|]|e].
      * eexists _, _. split; [reflexivity |]. right. exists key, prompt.
        split; [done |]. split; [done |]. by left.
      * exists r, (record (ChatCompletionsCreate key
                             (chat_request_for (model_name (ai_config w)) prompt)) w1).
        split; [exact Hr |]. right. exists key, prompt.
        split; [done |]. split; [done |]. right. simpl. by rewrite <- app_assoc.
      * exists r, (record (ChatCompletionsCreate key
                             (chat_request_for (model_name (ai_config w)) prompt)) w1).
        split; [exact Hr |]. right. exists key, prompt.
        split; [done |]. split; [done |]. right. simpl. by rewrite <- app_assoc.
    + rewrite (chatgpt_prompt_error_makes_no_call _ _ _ _ _ Hkey Hprompt).
      eexists _, _. split; [reflexivity |]. by left.
  - exists (error_result missing_key_message), w. split; [| by left].
    unfold analyze_with_chatgpt. rewrite bind_run. simpl. by rewrite Hkey.
Qed.

Lemma lower_app (s t : string) : lower (s +:+ t) = lower s +:+ lower t.
Proof. induction s as [|c s IH]; simpl; [reflexivity | by rewrite IH]. Qed.

Lemma prefix_app (s t : string) : String.prefix s (s +:+ t) = true.
Proof.
  induction s as [|c s IH]; simpl; [by destruct t |].
  destruct (ascii_dec c c); [exact IH | done].
Qed.

Lemma contains_app (sub pre post : string) : contains sub (pre +:+ sub +:+ post) = true.
Proof.
  assert (Hunfold : ∀ s, contains sub s
            = String.prefix sub s
              || match s with EmptyString => false | String _ s' => contains sub s' end)
    by by intros [|c s].
  induction pre as [|c pre IH].
  - change ("" +:+ sub +:+ post) with (sub +:+ post). by rewrite Hunfold, prefix_app.
  - change (String c pre +:+ sub +:+ post) with (String c (pre +:+ sub +:+ post)).
    rewrite Hunfold, IH. apply orb_true_r.
Qed.

(** X18.  The last handler recognises known errors by a substring of the
    text of the exception, in any letter case and at any place.  When the
    fallback call raises, a text that mentions authentication becomes the
    advice to check the API key, and a text that mentions a rate limit, and
    not authentication, becomes the advice to wait; authentication is tested
    first. *)
Theorem chatgpt_known_errors_are_rewritten `{PyLib}
    (cve_data component_context : value) (w : world) (key prompt : string)
    (e : exn) (pre word post : string) :
  configured_key (ai_config w) = Some key →
  create_analysis_prompt_json cve_data component_context w = (Ok prompt, w) →
  let model := model_name (ai_config w) in
  responses_failed (openai_responses w key model prompt) →
  openai_chat w key (chat_request_for model prompt) = ChatRaises e →
  exn_str e = pre +:+ word +:+ post →
  (lower word = "authentication" →
     (analyze_with_chatgpt cve_data component_context w).1
       = Ok (error_result
               "ChatGPT Analysis error: Authentication failed. Please check your OpenAI API key.")) ∧
  (lower word = "rate limit" → contains "authentication" (lower (exn_str e)) = false →
     (analyze_with_chatgpt cve_data component_context w).1
       = Ok (error_result
               "ChatGPT Analysis error: Rate limit exceeded. Please wait and try again.")).
Proof.
  intros Hkey Hprompt model Hfail Hchat Hstr. subst model.
  assert (Hrun : (analyze_with_chatgpt cve_data component_context w).1
                 = Ok (failed_with (model_name (ai_config w)) e)).
  { rewrite (analyze_with_chatgpt_run _ _ _ _ _ Hkey Hprompt). simpl.
    destruct (openai_responses w key _ prompt) as [[content|]|e0]; [done | |];
      by apply chat_fallback_raises. }
  rewrite Hrun. unfold failed_with, user_facing.
  split.
  - intros Hword.
    assert (Hc : contains "authentication" (lower (exn_str e)) = true).
    { rewrite Hstr, !lower_app, Hword. apply contains_app. }
    by rewrite Hc.
  - intros Hword Hno.
    assert (Hc : contains "rate limit" (lower (exn_str e)) = true).
    { rewrite Hstr, !lower_app, Hword. apply contains_app. }
    by rewrite Hno, Hc.
Qed.

Lemma chatgpt_known_errors_witness :
  let e := PyError "AuthenticationError" "Error code: 401 - Incorrect API key provided (AUTHENTICATION required)" in
  let w := chatgpt_world (ResponsesObject None) (ChatRaises e) in
  configured_key (ai_config w) = Some "sk-test" ∧
  @create_analysis_prompt_json table_lib bare_record VNone w = (Ok bare_structured_prompt, w) ∧
  exn_str e = "Error code: 401 - Incorrect API key provided (" +:+ "AUTHENTICATION" +:+ " required)" ∧
  (@analyze_with_chatgpt table_lib bare_record VNone w).1
    = Ok (error_result
            "ChatGPT Analysis error: Authentication failed. Please check your OpenAI API key.").
Proof.
  split; [reflexivity |]. split; [by vm_compute |]. split; [reflexivity |].
  exact (proj1 (@chatgpt_known_errors_are_rewritten table_lib bare_record VNone
           (chatgpt_world (ResponsesObject None)
              (ChatRaises (PyError "AuthenticationError" "Error code: 401 - Incorrect API key provided (AUTHENTICATION required)")))
           "sk-test" bare_structured_prompt
           (PyError "AuthenticationError" "Error code: 401 - Incorrect API key provided (AUTHENTICATION required)")
           "Error code: 401 - Incorrect API key provided (" "AUTHENTICATION" " required)"
           eq_refl ltac:(by vm_compute) I eq_refl eq_refl) eq_refl).
Defined.

(** ** More on the prompt builders *)

(** X19.  The two builders differ in what they ask of the system context.
    When it is None, as after loading an empty YAML file, the narrative
    builder still returns a prompt, while the JSON builder raises
    AttributeError, because it calls [system_context.get] without testing
    the context first.  Enrichment through the OpenAI SDK then returns an
    error result without making any call. *)
Theorem structured_prompt_needs_a_mapping_context `{PyLib}
    (cve_data component_context : value) (w : world) (x : extracted) (env : string) :
  system_context w = VNone →
  extract cve_data = Ok x →
  environment_context_of component_context w = (Ok env, w) →
  (∃ prompt, create_analysis_prompt cve_data component_context w = (Ok prompt, w)) ∧
  create_analysis_prompt_json cve_data component_context w
    = (Raise (PyError "AttributeError" "'NoneType' object has no attribute 'get'"), w) ∧
  (∀ key, configured_key (ai_config w) = Some key →
     analyze_with_chatgpt cve_data component_context w
       = (Ok (error_result
                "ChatGPT Analysis error: 'NoneType' object has no attribute 'get'"), w)).
Proof.
  intros Hctx Hx Henv.
  assert (Hjson : create_analysis_prompt_json cve_data component_context w
            = (Raise (PyError "AttributeError" "'NoneType' object has no attribute 'get'"), w)).
  { unfold create_analysis_prompt_json.
    rewrite lift_bind_run, Hx, bind_run, Henv, bind_run.
    unfold security_context_of. rewrite bind_run. unfold read. by rewrite Hctx. }
  split; [| split].
  - unfold create_analysis_prompt. rewrite lift_bind_run, Hx, bind_run, Henv. eauto.
  - exact Hjson.
  - intros key Hkey.
    by rewrite (chatgpt_prompt_error_makes_no_call _ _ _ _ _ Hkey Hjson).
Qed.

Lemma structured_prompt_needs_a_mapping_context_witness :
  let w := with_key "sk-test" (set_system_context VNone offline) in
  system_context w = VNone ∧
  @environment_context_of table_lib VNone w = (Ok "", w) ∧
  @create_analysis_prompt table_lib bare_record VNone w = (Ok bare_narrative_prompt, w) ∧
  @analyze_with_chatgpt table_lib bare_record VNone w
    = (Ok (error_result "ChatGPT Analysis error: 'NoneType' object has no attribute 'get'"), w).
Proof.
  split; [reflexivity |]. split; [reflexivity |]. split; [by vm_compute |].
  refine (proj2 (proj2 (@structured_prompt_needs_a_mapping_context table_lib bare_record VNone
            (with_key "sk-test" (set_system_context VNone offline))
            {| x_cve_id := VStr log4shell; x_kev_entry := VNone;
               x_vulnerability_desc := VStr ""; x_cvss_score := VStr "Unknown";
               x_severity := VStr "Unknown"; x_cvss_vector := VStr "";
               x_epss_score := VStr "Not available" |}
            "" eq_refl _ eq_refl)) "sk-test" eq_refl).
  reflexivity.
Defined.

(** The extraction for a record whose NVD payload has a first vulnerability:
    the description, then the metrics, newest schema first. *)
Lemma extract_with_details (d details : list (string * value)) :
  nvd_details_of d details →
  let metrics := default (VDict []) (dict_lookup "metrics" details) in
  extract (VDict d) =
    (desc ← description_of (VDict details);
     v31 ← py_in "cvssMetricV31" metrics;
     c ← (if v31 : bool then
            m ← py_item metrics "cvssMetricV31"; cvss_data ← py_first m; cvss_fields cvss_data
          else
            v3 ← py_in "cvssMetricV3" metrics;
            if v3 : bool then
              m ← py_item metrics "cvssMetricV3"; cvss_data ← py_first m; cvss_fields cvss_data
            else Ok (VStr "Unknown", VStr "Unknown", VStr ""));
     epss ← epss_score_of (default (VDict []) (dict_lookup "epss" d));
     Ok {| x_cve_id := default (VStr "Unknown") (dict_lookup "cve_id" d);
           x_kev_entry := default VNone (dict_lookup "kev" d);
           x_vulnerability_desc := desc;
           x_cvss_score := c.1.1; x_severity := c.1.2; x_cvss_vector := c.2;
           x_epss_score := epss |}).
Proof.
  intros (nvd & vuln & more & Hnvd & Hvulns & Hcve) metrics.
  unfold extract. simpl py_get. rewrite Hnvd. cbn [mbind result_bind from_option id].
  assert (Ht : truthy (VDict nvd) = true) by by destruct nvd.
  rewrite Ht. simpl py_in. rewrite Hvulns.
  rewrite bool_decide_eq_true_2 by eauto. cbn [mbind result_bind].
  simpl py_item. rewrite Hvulns. cbn [mbind result_bind truthy py_first].
  simpl py_get. rewrite Hcve. cbn [mbind result_bind from_option id].
  unfold description_of, epss_score_of. fold metrics.
  simpl py_get.
  subst metrics. unfold mbind, result_bind.
  repeat (cbn beta iota;
    match goal with
    | |- context [match ?r with Ok _ => _ | Raise _ => _ end] =>
        lazymatch r with
        | match _ with _ => _ end => fail
        | Ok _ => fail
        | Raise _ => fail
        | _ => destruct r as [?|?]
        end
    | |- context [if ?b then _ else _] =>
        lazymatch b with
        | match _ with _ => _ end => fail
        | true => fail
        | false => fail
        | _ => destruct b
        end
    | |- context [let '(_, _) := ?p in _] => is_var p; destruct p
    end);
  reflexivity.
Qed.

(** X20.  The newest scoring schema wins.  For a record whose NVD payload has
    a first vulnerability with metrics, the CVSS score, severity and vector
    come from the first entry of [cvssMetricV31] whenever that key is there,
    whatever [cvssMetricV3] holds; from the first entry of [cvssMetricV3]
    when only that key is there; and stay Unknown, Unknown and empty when
    neither is there, whatever older schemas the metrics hold. *)
Theorem newest_cvss_schema_wins
    (d details metrics : list (string * value)) (x : extracted) :
  nvd_details_of d details →
  dict_lookup "metrics" details = Some (VDict metrics) →
  extract (VDict d) = Ok x →
  let fields := (x_cvss_score x, x_severity x, x_cvss_vector x) in
  (∀ m31 rest, dict_lookup "cvssMetricV31" metrics = Some (VList (m31 :: rest)) →
     cvss_fields m31 = Ok fields) ∧
  (dict_lookup "cvssMetricV31" metrics = None →
   ∀ m3 rest, dict_lookup "cvssMetricV3" metrics = Some (VList (m3 :: rest)) →
     cvss_fields m3 = Ok fields) ∧
  (dict_lookup "cvssMetricV31" metrics = None → dict_lookup "cvssMetricV3" metrics = None →
     fields = (VStr "Unknown", VStr "Unknown", VStr "")).
Proof.
  intros Hd Hmetrics Hx. rewrite (extract_with_details d details Hd), Hmetrics in Hx.
  cbn [from_option id] in Hx.
  destruct (description_of (VDict details)) as [desc|e]; [| done].
  cbn [mbind result_bind] in Hx. simpl py_in in Hx. simpl py_item in Hx.
  assert (Hfields : ∀ c : value * value * value,
    (epss ← epss_score_of (default (VDict []) (dict_lookup "epss" d));
     Ok {| x_cve_id := default (VStr "Unknown") (dict_lookup "cve_id" d);
           x_kev_entry := default VNone (dict_lookup "kev" d);
           x_vulnerability_desc := desc;
           x_cvss_score := c.1.1; x_severity := c.1.2; x_cvss_vector := c.2;
           x_epss_score := epss |}) = Ok x →
    (x_cvss_score x, x_severity x, x_cvss_vector x) = c).
  { intros [[? ?] ?]. destruct (epss_score_of _); [| done]. by intros [= <-]. }
  simpl. split; [| split].
  - intros m31 rest H31. rewrite H31 in Hx.
    change (bool_decide (is_Some (Some (VList (m31 :: rest))))) with true in Hx.
    cbn [mbind result_bind py_first] in Hx.
    destruct (cvss_fields m31) as [c|e]; [| done]. cbn [mbind result_bind] in Hx.
    f_equal. symmetry. by apply (Hfields c).
  - intros H31 m3 rest H3. rewrite H31, H3 in Hx.
    change (bool_decide (is_Some (@None value))) with false in Hx.
    change (bool_decide (is_Some (Some (VList (m3 :: rest))))) with true in Hx.
    cbn [mbind result_bind py_first] in Hx.
    destruct (cvss_fields m3) as [c|e]; [| done]. cbn [mbind result_bind] in Hx.
    f_equal. symmetry. by apply (Hfields c).
  - intros H31 H3. rewrite H31, H3 in Hx.
    change (bool_decide (is_Some (@None value))) with false in Hx.
    cbn [mbind result_bind] in Hx.
    by apply (Hfields (VStr "Unknown", VStr "Unknown", VStr "")).
Qed.

Lemma newest_cvss_schema_wins_witness :
  let d := record_with_metrics (VDict two_schema_metrics) in
  let details := [("id", VStr log4shell); ("metrics", VDict two_schema_metrics)] in
  let x := {| x_cve_id := VStr log4shell; x_kev_entry := VNone;
              x_vulnerability_desc := VStr ""; x_cvss_score := VFloat "10.0";
              x_severity := VStr "CRITICAL";
              x_cvss_vector := VStr "CVSS:3.1/AV:N/AC:L/PR:N/UI:N/S:C/C:H/I:H/A:H";
              x_epss_score := VStr "Not available" |} in
  nvd_details_of d details ∧
  extract (VDict d) = Ok x ∧
  cvss_fields (VDict [("cvssData", VDict [("baseScore", VFloat "10.0");
                                          ("baseSeverity", VStr "CRITICAL");
                                          ("vectorString", VStr "CVSS:3.1/AV:N/AC:L/PR:N/UI:N/S:C/C:H/I:H/A:H")])])
    = Ok (x_cvss_score x, x_severity x, x_cvss_vector x).
Proof.
  assert (Hd : nvd_details_of (record_with_metrics (VDict two_schema_metrics))
                 [("id", VStr log4shell); ("metrics", VDict two_schema_metrics)]).
  { eexists _, _, _. repeat split; reflexivity. }
  split; [exact Hd |]. split; [reflexivity |].
  exact (proj1 (@newest_cvss_schema_wins _ _ two_schema_metrics _ Hd eq_refl eq_refl)
           _ _ eq_refl).
Defined.

(** X21.  A metric key that is there with an empty list breaks the prompt:
    the builders take its first entry without testing it, so the extraction
    raises IndexError, both builders raise it, and enrichment through Ollama
    returns the text of that error without making a request. *)
Theorem empty_metric_list_breaks_the_prompt `{PyLib}
    (d details metrics : list (string * value)) (desc component_context : value) (w : world) :
  nvd_details_of d details →
  dict_lookup "metrics" details = Some (VDict metrics) →
  description_of (VDict details) = Ok desc →
  dict_lookup "cvssMetricV31" metrics = Some (VList []) →
  let error := PyError "IndexError" "list index out of range" in
  extract (VDict d) = Raise error ∧
  create_analysis_prompt (VDict d) component_context w = (Raise error, w) ∧
  create_analysis_prompt_json (VDict d) component_context w = (Raise error, w) ∧
  analyze_with_ollama (VDict d) component_context w
    = (Ok (VStr "AI Analysis error: list index out of range"), w).
Proof.
  intros Hd Hmetrics Hdesc H31. simpl.
  assert (Hx : extract (VDict d) = Raise (PyError "IndexError" "list index out of range")).
  { rewrite (extract_with_details d details Hd), Hmetrics, Hdesc.
    cbn [from_option id mbind result_bind]. simpl py_in. simpl py_item. rewrite H31.
    reflexivity. }
  assert (Hp : create_analysis_prompt (VDict d) component_context w
               = (Raise (PyError "IndexError" "list index out of range"), w)).
  { unfold create_analysis_prompt. by rewrite lift_bind_run, Hx. }
  split; [exact Hx |]. split; [exact Hp |]. split.
  - unfold create_analysis_prompt_json. by rewrite lift_bind_run, Hx.
  - unfold analyze_with_ollama. rewrite bind_run. simpl.
    by rewrite try_except_run, bind_run, Hp.
Qed.

Lemma empty_metric_list_witness :
  let d := record_with_metrics (VDict [("cvssMetricV31", VList [])]) in
  nvd_details_of d [("id", VStr log4shell); ("metrics", VDict [("cvssMetricV31", VList [])])] ∧
  @analyze_with_ollama table_lib (VDict d) VNone (ollama_world (Response 200 ollama_tags)
                                                   (Response 200 ollama_answer))
    = (Ok (VStr "AI Analysis error: list index out of range"),
       ollama_world (Response 200 ollama_tags) (Response 200 ollama_answer)).
Proof.
  assert (Hd : nvd_details_of (record_with_metrics (VDict [("cvssMetricV31", VList [])]))
                 [("id", VStr log4shell); ("metrics", VDict [("cvssMetricV31", VList [])])]).
  { eexists _, _, _. repeat split; reflexivity. }
  split; [exact Hd |].
  exact (proj2 (proj2 (proj2 (@empty_metric_list_breaks_the_prompt table_lib _ _
           [("cvssMetricV31", VList [])] (VStr "") VNone
           (ollama_world (Response 200 ollama_tags) (Response 200 ollama_answer))
           Hd eq_refl eq_refl eq_refl)))).
Defined.

Lemma mapR_component_lines `{PyLib} (comps : list (list (string * value))) :
  mapR (λ comp, name ← py_get comp "name" VNone;
                description ← py_get comp "description" (VStr "");
                Ok ("- " +:+ py_str name +:+ ": " +:+ py_str description))
       (VDict <$> comps)
  = Ok (component_line <$> comps).
Proof.
  induction comps as [|c comps IH]; [reflexivity |].
  change (VDict <$> c :: comps) with (VDict c :: (VDict <$> comps)).
  cbn [mapR]. rewrite IH. reflexivity.
Qed.

(** X22.  The environment part of both prompts.  A named component comes
    first: its name and description are quoted, Unknown and No description
    available standing in for a missing one, and the system context is not
    looked at.  Without a named component, the components of the system
    context are listed in the order of their declaration, three at most. *)
Theorem environment_context_lists_three_components `{PyLib}
    (w : world) (context : list (string * value)) (comps : list (list (string * value))) :
  system_context w = VDict context →
  dict_lookup "components" context = Some (VList (VDict <$> comps)) →
  comps ≠ [] →
  (∀ component_context, truthy component_context = false →
     environment_context_of component_context w =
       (Ok (join nl [""; "Our environment includes these components that might be affected:";
                     join nl (component_line <$> take 3 comps); ""]), w)) ∧
  (∀ fields, fields ≠ [] →
     environment_context_of (VDict fields) w =
       (Ok (join nl [""; "IMPORTANT: This analysis is for the " +:+ dq
                          +:+ py_str (default (VStr "Unknown") (dict_lookup "name" fields))
                          +:+ dq +:+ " component in our environment:";
                     py_str (default (VStr "No description available")
                               (dict_lookup "description" fields));
                     ""]), w)).
Proof.
  intros Hctx Hcomps Hne. split.
  - intros component_context Hfalsy. unfold environment_context_of. rewrite Hfalsy.
    rewrite bind_run. unfold read. rewrite Hctx.
    assert (Ht : truthy (VDict context) = true) by (by destruct context).
    rewrite bind_run, Ht, lift_bind_run. simpl py_get. rewrite Hcomps.
    cbn [from_option id mret M_ret].
    assert (Ht' : truthy (VList (VDict <$> comps)) = true) by (by destruct comps).
    rewrite Ht'. rewrite lift_bind_run. simpl py_item. rewrite Hcomps.
    rewrite lift_bind_run. cbn [py_slice_to]. rewrite lift_bind_run. cbn [py_iter].
    rewrite <- fmap_take, lift_bind_run, mapR_component_lines. reflexivity.
  - intros fields Hfields. unfold environment_context_of.
    assert (Ht : truthy (VDict fields) = true) by (by destruct fields).
    rewrite Ht. reflexivity.
Qed.

Lemma environment_context_witness :
  let comps := [[("name", VStr "web"); ("description", VStr "nginx")];
                [("name", VStr "db"); ("description", VStr "postgres")];
                [("name", VStr "queue")];
                [("name", VStr "cache"); ("description", VStr "redis")]] in
  let w := set_system_context (VDict [("components", VList (VDict <$> comps))]) offline in
  system_context w = VDict [("components", VList (VDict <$> comps))] ∧
  comps ≠ [] ∧
  @environment_context_of table_lib VNone w =
    (Ok (join nl [""; "Our environment includes these components that might be affected:";
                  "- web: nginx"; "- db: postgres"; "- queue: "; ""]), w).
Proof.
  split; [reflexivity |]. split; [done |].
  refine (proj1 (@environment_context_lists_three_components table_lib
           (set_system_context (VDict [("components", VList (VDict <$>
              [[("name", VStr "web"); ("description", VStr "nginx")];
               [("name", VStr "db"); ("description", VStr "postgres")];
               [("name", VStr "queue")];
               [("name", VStr "cache"); ("description", VStr "redis")]]))]) offline)
           _ _ eq_refl eq_refl _) VNone eq_refl).
  done.
Defined.

(** X23.  The security part of the JSON prompt lists the items under
    [security architecture] in their order, five at most, and is empty when
    the key is missing. *)
Theorem security_context_lists_five_items `{PyLib}
    (w : world) (context : list (string * value)) :
  system_context w = VDict context →
  (∀ items, dict_lookup "security architecture" context = Some (VList items) → items ≠ [] →
     security_context_of w =
       (Ok (join nl [""; "Security Architecture Context:";
                     join nl ((λ item, "- " +:+ py_str item) <$> take 5 items); ""]), w)) ∧
  (dict_lookup "security architecture" context = None → security_context_of w = (Ok "", w)).
Proof.
  intros Hctx. unfold security_context_of. split.
  - intros items Hitems Hne. rewrite bind_run. unfold read. rewrite Hctx.
    rewrite lift_bind_run. simpl py_get. rewrite Hitems. cbn [from_option id].
    assert (Ht : truthy (VList items) = true) by (by destruct items).
    rewrite Ht, lift_bind_run. simpl py_item. rewrite Hitems.
    rewrite lift_bind_run. cbn [py_slice_to]. rewrite lift_bind_run. reflexivity.
  - intros Hnone. rewrite bind_run. unfold read. rewrite Hctx.
    rewrite lift_bind_run. simpl py_get. by rewrite Hnone.
Qed.

Lemma security_context_witness :
  let items := VStr <$> ["WAF"; "mTLS"; "network segmentation"; "SSO"; "EDR"; "backups"] in
  let w := set_system_context (VDict [("security architecture", VList items)]) offline in
  system_context w = VDict [("security architecture", VList items)] ∧
  @security_context_of table_lib w =
    (Ok (join nl [""; "Security Architecture Context:";
                  "- WAF"; "- mTLS"; "- network segmentation"; "- SSO"; "- EDR"; ""]), w).
Proof.
  split; [reflexivity |].
  refine (proj1 (@security_context_lists_five_items table_lib
           (set_system_context (VDict [("security architecture",
              VList (VStr <$> ["WAF"; "mTLS"; "network segmentation"; "SSO"; "EDR"; "backups"]))])
              offline) _ eq_refl) _ eq_refl _).
  done.
Defined.

(** ** Configuration and startup *)

(** X24.  [load_env_config] never fails and changes nothing but the
    environment and the API key.  A non-empty OPENAI_API_KEY of the
    environment is stored whatever the .env file says; the .env file counts
    only when the environment does not set the variable; an empty value in
    the environment hides the .env file and leaves the stored key alone, as
    does the absence of the variable from both. *)
Theorem load_env_config_prefers_the_environment (w : world) :
  ∃ w',
    load_env_config w = (Ok tt, w') ∧
    environ w' = environ w ∪ dotenv w ∧
    provider (ai_config w') = provider (ai_config w) ∧
    model_name (ai_config w') = model_name (ai_config w) ∧
    ollama_url (ai_config w') = ollama_url (ai_config w) ∧
    calls w' = calls w ∧ fs w' = fs w ∧ system_context w' = system_context w ∧
    (∀ k, environ w !! openai_key_name = Some k → k ≠ "" →
       api_key (ai_config w') = Some k) ∧
    (∀ k, environ w !! openai_key_name = None → dotenv w !! openai_key_name = Some k →
       k ≠ "" → api_key (ai_config w') = Some k) ∧
    (environ w !! openai_key_name = Some "" →
       api_key (ai_config w') = api_key (ai_config w)) ∧
    (environ w !! openai_key_name = None → dotenv w !! openai_key_name = None →
       api_key (ai_config w') = api_key (ai_config w)).
Proof.
  unfold load_env_config, load_dotenv, openai_key_name.
  rewrite bind_run. simpl. rewrite bind_run. simpl.
  destruct ((environ w ∪ dotenv w) !! "OPENAI_API_KEY") as [k|] eqn:Hk;
    [destruct (String.eqb_spec k "") as [-> | Hne]; simpl |];
    (eexists; split; [reflexivity |]); repeat split; simpl; intros;
    try match goal with
        | He : environ w !! _ = Some _ |- _ => rewrite (lookup_union_Some_l _ _ _ _ He) in Hk
        end;
    try match goal with
        | Hn : environ w !! _ = None, Hd : dotenv w !! _ = _ |- _ =>
            rewrite lookup_union_r, Hd in Hk by done
        end;
    congruence.
Qed.

Lemma load_env_config_witness :
  let w := {| now := now offline; fs := fs offline; fs_writable := fs_writable offline;
              environ := {[ "OPENAI_API_KEY" := "sk-env" ]};
              dotenv := {[ "OPENAI_API_KEY" := "sk-dotenv" ]};
              httpx := httpx offline; openai_responses := openai_responses offline;
              openai_chat := openai_chat offline; calls := []; ai_config := AIConfig_default;
              system_context := VDict [] |} in
  ∃ w', load_env_config w = (Ok tt, w') ∧ api_key (ai_config w') = Some "sk-env".
Proof.
  destruct (load_env_config_prefers_the_environment
    {| now := now offline; fs := fs offline; fs_writable := fs_writable offline;
       environ := {[ "OPENAI_API_KEY" := "sk-env" ]};
       dotenv := {[ "OPENAI_API_KEY" := "sk-dotenv" ]};
       httpx := httpx offline; openai_responses := openai_responses offline;
       openai_chat := openai_chat offline; calls := []; ai_config := AIConfig_default;
       system_context := VDict [] |})
    as (w' & Hrun & _ & _ & _ & _ & _ & _ & _ & Henv & _).
  exists w'. split; [exact Hrun |]. apply Henv; [by vm_compute | done].
Defined.

Lemma load_env_config_total (w : world) :
  ∃ w', load_env_config w = (Ok tt, w') ∧ calls w' = calls w ∧ fs w' = fs w.
Proof.
  unfold load_env_config, load_dotenv.
  rewrite bind_run. simpl. rewrite bind_run. simpl.
  destruct ((environ w ∪ dotenv w) !! "OPENAI_API_KEY") as [k|]; [| eauto].
  destruct (String.eqb k ""); simpl; eauto.
Qed.

(** X25.  [POST /api/config] replaces the whole configuration; nothing of
    the old one survives and the last write wins.  In particular a key that
    [load_env_config] stored at startup is dropped by a configuration posted
    without a key, and enrichment through the OpenAI SDK then reports the
    missing key without making a call. *)
Theorem update_config_replaces_the_whole_configuration `{PyLib}
    (w : world) (c1 c2 : AIConfig) (cve_data component_context : value) :
  ∃ w1 w2 w3 confirmation,
    load_env_config w = (Ok tt, w1) ∧
    update_config c1 w1 = (Ok confirmation, w2) ∧
    update_config c2 w2 = (Ok confirmation, w3) ∧
    ai_config w3 = c2 ∧
    get_config w3 = (Ok (model_dump c2), w3) ∧
    calls w3 = calls w ∧
    (provider c2 = "chatgpt" → api_key c2 = None →
       perform_ai_analysis cve_data component_context w3
         = (Ok (error_result missing_key_message), w3)).
Proof.
  destruct (load_env_config_total w) as (w1 & Hload & Hcalls & _).
  exists w1, (set_ai_config c1 w1), (set_ai_config c2 (set_ai_config c1 w1)).
  eexists. split; [exact Hload |]. repeat split; [exact Hcalls |].
  intros Hp Hk. unfold perform_ai_analysis. rewrite bind_run. simpl. rewrite Hp. simpl.
  unfold analyze_with_chatgpt. rewrite bind_run. simpl.
  unfold configured_key. by rewrite Hk.
Qed.

Lemma update_config_witness :
  let w := set_environ (λ _, {[ "OPENAI_API_KEY" := "sk-env" ]}) offline in
  ∃ w1 w3,
    load_env_config w = (Ok tt, w1) ∧ api_key (ai_config w1) = Some "sk-env" ∧
    (update_config AIConfig_default w1).2 = w3 ∧
    @perform_ai_analysis table_lib bare_record VNone w3
      = (Ok (error_result missing_key_message), w3).
Proof.
  destruct (@update_config_replaces_the_whole_configuration table_lib
              (set_environ (λ _, {[ "OPENAI_API_KEY" := "sk-env" ]}) offline)
              AIConfig_default AIConfig_default bare_record VNone)
    as (w1 & w2 & w3 & conf & Hload & Hu1 & Hu2 & Hcfg & _ & _ & Hai).
  exists w1, w2. split; [exact Hload |].
  vm_compute in Hload. injection Hload as <-.
  split; [reflexivity |]. split; [by rewrite Hu1 |].
  injection Hu2 as _ <-. injection Hu1 as _ <-. by apply Hai.
Defined.

(** X26.  [load_system_context] forgives a missing file only.  Without the
    file the system context becomes the empty mapping, and the components
    endpoint then returns the empty list.  A file that cannot be opened or
    that is not YAML makes the function raise, which ends the startup, and
    leaves the context as it was. *)
Theorem load_system_context_forgives_a_missing_file_only `{YamlLib} (w : world) :
  (fs w !! "system_context.yaml" = None →
     load_system_context w = (Ok tt, set_system_context (VDict []) w) ∧
     get_components (set_system_context (VDict []) w)
       = (Ok (VList []), set_system_context (VDict []) w)) ∧
  (∀ file, fs w !! "system_context.yaml" = Some file → readable file = false →
     load_system_context w
       = (Raise (PyError "PermissionError"
                   "[Errno 13] Permission denied: 'system_context.yaml'"), w) ∧
     startup_event w
       = (Raise (PyError "PermissionError"
                   "[Errno 13] Permission denied: 'system_context.yaml'"),
          (load_env_config w).2)) ∧
  (∀ file msg, fs w !! "system_context.yaml" = Some file → readable file = true →
     yaml_safe_load (content file) = Malformed msg →
     load_system_context w = (Raise (PyError "YAMLError" msg), w)).
Proof.
  unfold load_system_context. split; [| split].
  - intros Hnone. split; [| reflexivity].
    rewrite try_except_run, bind_run. unfold read_file. by rewrite Hnone.
  - intros file Hfile Hread.
    assert (Hload : ∀ w0, fs w0 = fs w →
              try_except
                (text ← read_file "system_context.yaml";
                 match yaml_safe_load text with
                 | Parsed v => modify (set_system_context v)
                 | Malformed msg => raise (PyError "YAMLError" msg)
                 end)
                (λ e, if is_file_not_found e then modify (set_system_context (VDict []))
                      else raise e) w0
              = (Raise (PyError "PermissionError"
                          "[Errno 13] Permission denied: 'system_context.yaml'"), w0)).
    { intros w0 Hfs. rewrite try_except_run, bind_run. unfold read_file.
      by rewrite Hfs, Hfile, Hread. }
    split; [by apply Hload |].
    unfold startup_event.
    destruct (load_env_config_total w) as (w1 & Hrun & _ & Hfs).
    rewrite (bind_ok _ _ _ _ _ Hrun), Hrun. simpl. by apply Hload.
  - intros file msg Hfile Hread Hbad.
    rewrite try_except_run, bind_run. unfold read_file. by rewrite Hfile, Hread, Hbad.
Qed.

Lemma load_system_context_witness :
  fs offline !! "system_context.yaml" = None ∧
  @startup_event yaml_table offline = (Ok tt, set_system_context (VDict []) offline) ∧
  @get_components (set_system_context (VDict []) offline)
    = (Ok (VList []), set_system_context (VDict []) offline).
Proof.
  split; [reflexivity |]. split; [by vm_compute |].
  exact (proj2 (proj1 (@load_system_context_forgives_a_missing_file_only yaml_table offline) eq_refl)).
Defined.

(** X27.  What the YAML file holds becomes the system context as it is, with
    no check of its shape.  When it is a mapping, the components endpoint
    returns what is under [components], or the empty list.  When it is
    anything else, as the None of an empty file, the endpoint raises
    AttributeError. *)
Theorem get_components_needs_a_mapping `{YamlLib} (w : world) (file : file) (v : value) :
  fs w !! "system_context.yaml" = Some file →
  readable file = true →
  yaml_safe_load (content file) = Parsed v →
  let w' := set_system_context v w in
  load_system_context w = (Ok tt, w') ∧
  (∀ context, v = VDict context →
     get_components w' = (Ok (default (VList []) (dict_lookup "components" context)), w')) ∧
  ((∀ context, v ≠ VDict context) →
     get_components w'
       = (Raise (PyError "AttributeError"
                   ("'" +:+ type_name v +:+ "' object has no attribute 'get'")), w')).
Proof.
  intros Hfile Hread Hparse. simpl. split; [| split].
  - unfold load_system_context. rewrite try_except_run, bind_run. unfold read_file.
    by rewrite Hfile, Hread, Hparse.
  - by intros context ->.
  - intros Hnot. unfold get_components. rewrite bind_run. simpl.
    destruct v; try reflexivity. by destruct (Hnot d).
Qed.

Lemma get_components_witness :
  let empty := {| mtime := 0; content := ""; readable := true |} in
  let w := with_fs {[ "system_context.yaml" := empty ]} offline in
  fs w !! "system_context.yaml" = Some empty ∧
  @load_system_context yaml_table w = (Ok tt, set_system_context VNone w) ∧
  get_components (set_system_context VNone w)
    = (Raise (PyError "AttributeError" "'NoneType' object has no attribute 'get'"),
       set_system_context VNone w).
Proof.
  split; [by vm_compute |]. split; [by vm_compute |].
  refine (proj2 (proj2 (@get_components_needs_a_mapping yaml_table
            (with_fs {[ "system_context.yaml" :=
                        {| mtime := 0; content := ""; readable := true |} ]} offline)
            {| mtime := 0; content := ""; readable := true |} VNone _ eq_refl eq_refl)) _);
    [by vm_compute | done].
Defined.

(** ** The exploit-score adapter *)

(** X28.  The exploit-score adapter makes exactly one request and, unlike the
    primary database adapter, absorbs every status other than 200: it then
    returns a payload with an empty [data] list, from which the prompt
    builders read Not available.  An exception of the transport is raised as
    it is. *)
Theorem exploit_score_adapter_absorbs_status `{PyLib} (cve_id : string) (w : world) :
  (fetch_epss_data cve_id w).2 = record (HttpCall (epss_request cve_id)) w ∧
  (∀ code text, httpx w (epss_request cve_id) = Response code text → code ≠ 200 →
     ∃ payload, (fetch_epss_data cve_id w).1 = Ok payload ∧
       py_get payload "data" VNone = Ok (VList []) ∧
       epss_score_of payload = Ok (VStr "Not available")) ∧
  (∀ text, httpx w (epss_request cve_id) = Response 200 text →
     (fetch_epss_data cve_id w).1 = loads text) ∧
  (∀ e, httpx w (epss_request cve_id) = HttpRaises e →
     (fetch_epss_data cve_id w).1 = Raise e).
Proof.
  rewrite fetch_epss_data_run. simpl. split; [reflexivity |]. split; [| split].
  - intros code text -> Hcode. destruct (Z.eqb_spec code 200); [done |]. eauto.
  - by intros text ->.
  - by intros e ->.
Qed.

Lemma exploit_score_adapter_witness :
  let w := answering 429 "Too Many Requests" offline in
  httpx w (epss_request log4shell) = Response 429 "Too Many Requests" ∧
  (@fetch_epss_data table_lib log4shell w).1 = Ok (VDict [("data", VList [])]) ∧
  ∃ payload, (@fetch_epss_data table_lib log4shell w).1 = Ok payload ∧
    py_get payload "data" VNone = Ok (VList []) ∧
    epss_score_of payload = Ok (VStr "Not available").
Proof.
  split; [reflexivity |]. split; [reflexivity |].
  exact (proj1 (proj2 (@exploit_score_adapter_absorbs_status table_lib log4shell
           (answering 429 "Too Many Requests" offline))) 429 "Too Many Requests" eq_refl
           ltac:(done)).
Defined.
